(** * Solana NFT metadata updater: a shallow embedding and its properties

    The development follows the TypeScript sources of the repository:
    - the utilities imported as [./utils] ([src/unnamed/part_001]):
      [retryWithBackoff], [sleep], [saveCheckpoint], [loadCheckpoint],
      [deleteCheckpoint], [createSummary], [formatDuration],
      [isValidPublicKey], [estimateCost];
    - [src/src/metadataUpdater.ts]: [encodeString],
      [createUpdateMetadataInstruction], [fetchCurrentMetadata],
      [isMetadataDifferent], [updateNFTMetadata], [processBatch],
      [calculateTotalCost];
    - [src/src/csvParser.ts]: [filterByRange];
    - the entry point [main], which follows the type declarations in
      [src/src/types.ts];
    - the logger imported as [./logger] ([src/unnamed/part_002]), as far
      as [logResult], [getLogs] and the files it saves;
    - the loop of [checkAuthority] in [src/check-authority.ts].

    JavaScript strings are lists of code points, buffers are lists of
    bytes, and everything that touches the RPC node, the clock or a file
    is threaded through an explicit [World].  Definitions come first, the
    properties after them. *)

From Stdlib Require Import List NArith ZArith Lia Bool Strings.Byte String Ascii.
From Stdlib Require Import Floats.PrimFloat Numbers.Cyclic.Int63.Uint63.
From Stdlib Require Floats.SpecFloat Floats.FloatOps Floats.FloatAxioms.
Import ListNotations.

Set Implicit Arguments.

Ltac Zify.zify_post_hook ::= Z.to_euclidean_division_equations.

(* ================================================================== *)
(** ** JavaScript values *)
(* ================================================================== *)

Module JS.

(** A string is the list of its code points.  A lone surrogate is a code
    point in [0xD800, 0xDFFF]; a well-formed string has none. *)
Definition JsString := list N.

Definition lit (s : string) : JsString :=
  map (fun a => N_of_ascii a) (list_ascii_of_string s).

Definition str_eqb (a b : JsString) : bool :=
  if list_eq_dec N.eq_dec a b then true else false.

(** A thrown value: an [Error] object with its message, or any other
    value, kept as the text [String(value)] gives. *)
Inductive JsError :=
| Error (message : JsString)
| Thrown (text : JsString).

(** [error instanceof Error ? error.message : String(error)] *)
Definition describe (e : JsError) : JsString :=
  match e with Error m => m | Thrown t => t end.

(** The completion of a call: a value, or a thrown error. *)
Inductive Result (A : Type) :=
| Ok (a : A)
| Throw (e : JsError).
Arguments Ok {A} a.
Arguments Throw {A} e.

Definition rbind {A B} (r : Result A) (k : A -> Result B) : Result B :=
  match r with Ok a => k a | Throw e => Throw e end.

(** [String.prototype.trim]: WhiteSpace and LineTerminator code points. *)
Definition is_space (c : N) : bool :=
  existsb (N.eqb c)
    [0x9; 0xA; 0xB; 0xC; 0xD; 0x20; 0xA0; 0x1680; 0x2028; 0x2029; 0x202F;
     0x205F; 0x3000; 0xFEFF]%N
  || ((0x2000 <=? c) && (c <=? 0x200A))%N.

Fixpoint trimStart (s : JsString) : JsString :=
  match s with
  | c :: r => if is_space c then trimStart r else s
  | [] => []
  end.

Definition trim (s : JsString) : JsString :=
  rev (trimStart (rev (trimStart s))).

(** [str.replace(/\0/g, '')] *)
Definition remove_nul (s : JsString) : JsString :=
  filter (fun c => negb (c =? 0)%N) s.

End JS.
Import JS.

Declare Scope js_scope.
Delimit Scope js_scope with js.
Notation "x <-? r ;; k" := (rbind r (fun x => k))
  (at level 61, r at next level, right associativity) : js_scope.

(* ================================================================== *)
(** ** Buffers *)
(* ================================================================== *)

Module Buffer.
Local Open Scope N_scope.

Definition Buffer := list byte.

Definition byte_of_N (n : N) : byte :=
  match Byte.of_N (n mod 256) with Some b => b | None => Byte.x00 end.

Definition blength (data : Buffer) : N := N.of_nat (List.length data).

(** [buf.slice(start, end)] with [0 <= start]: both ends are clamped to
    the buffer, an empty range gives the empty buffer. *)
Definition slice (data : Buffer) (start stop : N) : Buffer :=
  firstn (N.to_nat (stop - start)) (skipn (N.to_nat start) data).

Definition RangeError : JsError :=
  Error (lit "Attempt to access memory outside buffer bounds").

Definition le32 (b0 b1 b2 b3 : byte) : N :=
  Byte.to_N b0 + 256 * Byte.to_N b1 + 65536 * Byte.to_N b2
  + 16777216 * Byte.to_N b3.

(** [buf.readUInt32LE(offset)]: throws unless the four bytes are inside. *)
Definition readUInt32LE (data : Buffer) (offset : N) : Result N :=
  match skipn (N.to_nat offset) data with
  | b0 :: b1 :: b2 :: b3 :: _ => Ok (le32 b0 b1 b2 b3)
  | _ => Throw RangeError
  end.

(** [Buffer.alloc(4)] then [writeUInt32LE(value, 0)]: throws unless
    [0 <= value < 2^32]. *)
Definition writeUInt32LE (value : N) : Result Buffer :=
  if value <? 4294967296 then
    Ok [byte_of_N value; byte_of_N (value / 256); byte_of_N (value / 65536);
        byte_of_N (value / 16777216)]
  else Throw (Error (lit "The value of value is out of range")).

(** The number a byte sequence denotes, most significant byte first
    ([new BN(bytes)]). *)
Definition be_value (bs : Buffer) : N :=
  fold_left (fun acc b => acc * 256 + Byte.to_N b) bs 0.

End Buffer.
Import Buffer.

(* ================================================================== *)
(** ** UTF-8, as [Buffer.from(str, 'utf8')] and [buf.toString('utf-8')] *)
(* ================================================================== *)

(** Both directions are Node's: encoding replaces a lone surrogate by
    U+FFFD, decoding replaces every ill-formed sequence by U+FFFD and
    keeps a byte order mark. *)

Module Utf8.
Local Open Scope N_scope.

Definition in_range (lo hi x : N) : bool := (lo <=? x) && (x <=? hi).

Definition REPLACEMENT : N := 0xFFFD.
Definition REPLACEMENT_BYTES : Buffer := [Byte.xef; Byte.xbf; Byte.xbd].

(** A Unicode scalar value: a code point that is not a surrogate. *)
Definition scalar (c : N) : bool :=
  (c <? 0x110000) && negb (in_range 0xD800 0xDFFF c).

(** A string without lone surrogates ([String.prototype.isWellFormed]). *)
Definition wellFormed (s : JsString) : bool := forallb scalar s.

(** Encoding one code point; a lone surrogate becomes U+FFFD. *)
Definition encode_cp (c : N) : Buffer :=
  if c <? 0x80 then [byte_of_N c]
  else if c <? 0x800 then
    [byte_of_N (0xC0 + c / 64); byte_of_N (0x80 + c mod 64)]
  else if in_range 0xD800 0xDFFF c then REPLACEMENT_BYTES
  else if c <? 0x10000 then
    [byte_of_N (0xE0 + c / 4096); byte_of_N (0x80 + (c / 64) mod 64);
     byte_of_N (0x80 + c mod 64)]
  else if c <? 0x110000 then
    [byte_of_N (0xF0 + c / 262144); byte_of_N (0x80 + (c / 4096) mod 64);
     byte_of_N (0x80 + (c / 64) mod 64); byte_of_N (0x80 + c mod 64)]
  else REPLACEMENT_BYTES.

Definition encode (s : JsString) : Buffer := flat_map encode_cp s.

(** Bounds of the second byte, which depend on the lead byte. *)
Definition second_lo (lead : N) : N :=
  if lead =? 0xE0 then 0xA0 else if lead =? 0xF0 then 0x90 else 0x80.
Definition second_hi (lead : N) : N :=
  if lead =? 0xED then 0x9F else if lead =? 0xF4 then 0x8F else 0xBF.
Definition is_cont (x : N) : bool := in_range 0x80 0xBF x.

(** Decoding never fails: every maximal ill-formed prefix becomes one
    U+FFFD and decoding resumes at the byte that broke the sequence. *)
Fixpoint decode (bs : Buffer) : JsString :=
  match bs with
  | [] => []
  | b1 :: r1 =>
    let x1 := Byte.to_N b1 in
    if x1 <? 0x80 then x1 :: decode r1
    else if in_range 0xC2 0xDF x1 then
      match r1 with
      | [] => [REPLACEMENT]
      | b2 :: r2 =>
        let x2 := Byte.to_N b2 in
        if is_cont x2 then ((x1 - 0xC0) * 64 + (x2 - 0x80)) :: decode r2
        else REPLACEMENT :: decode r1
      end
    else if in_range 0xE0 0xEF x1 then
      match r1 with
      | [] => [REPLACEMENT]
      | b2 :: r2 =>
        let x2 := Byte.to_N b2 in
        if in_range (second_lo x1) (second_hi x1) x2 then
          match r2 with
          | [] => [REPLACEMENT]
          | b3 :: r3 =>
            let x3 := Byte.to_N b3 in
            if is_cont x3 then
              ((x1 - 0xE0) * 4096 + (x2 - 0x80) * 64 + (x3 - 0x80))
                :: decode r3
            else REPLACEMENT :: decode r2
          end
        else REPLACEMENT :: decode r1
      end
    else if in_range 0xF0 0xF4 x1 then
      match r1 with
      | [] => [REPLACEMENT]
      | b2 :: r2 =>
        let x2 := Byte.to_N b2 in
        if in_range (second_lo x1) (second_hi x1) x2 then
          match r2 with
          | [] => [REPLACEMENT]
          | b3 :: r3 =>
            let x3 := Byte.to_N b3 in
            if is_cont x3 then
              match r3 with
              | [] => [REPLACEMENT]
              | b4 :: r4 =>
                let x4 := Byte.to_N b4 in
                if is_cont x4 then
                  ((x1 - 0xF0) * 262144 + (x2 - 0x80) * 4096
                   + (x3 - 0x80) * 64 + (x4 - 0x80)) :: decode r4
                else REPLACEMENT :: decode r3
              end
            else REPLACEMENT :: decode r2
          end
        else REPLACEMENT :: decode r1
      end
    else REPLACEMENT :: decode r1
  end.

End Utf8.

(* ================================================================== *)
(** ** Public keys ([PublicKey] of @solana/web3.js, base-58 text) *)
(* ================================================================== *)

(** The constructor and [toBase58] belong to the libraries the program
    imports (@solana/web3.js over bs58 and bn.js); they are written out
    here as those libraries behave, so that the program can be run on
    concrete mints. *)

Module Key.
Local Open Scope N_scope.

(** A key is the big number [_bn] it wraps. *)
Record PublicKey := { bn : N }.

Definition equals (a b : PublicKey) : bool := bn a =? bn b.

Definition PUBLIC_KEY_LENGTH : N := 32.

(** [bn.byteLength()] *)
Definition byteLength (n : N) : N := (N.size n + 7) / 8.

Definition InvalidKey : JsError := Error (lit "Invalid public key input").

(** [new PublicKey(bytes)]: only a number too large for 32 bytes is
    refused; a short buffer is a small number. *)
Definition ofBuffer (bs : Buffer) : Result PublicKey :=
  let n := be_value bs in
  if PUBLIC_KEY_LENGTH <? byteLength n then Throw InvalidKey
  else Ok {| bn := n |}.

Definition ALPHABET : JsString :=
  lit "123456789ABCDEFGHJKLMNPQRSTUVWXYZabcdefghijkmnopqrstuvwxyz".

Fixpoint index_in (c : N) (alphabet : JsString) (i : N) : option N :=
  match alphabet with
  | [] => None
  | a :: r => if a =? c then Some i else index_in c r (i + 1)
  end.

(** The number the digits denote; [None] on a character outside the
    alphabet. *)
Fixpoint b58_value (s : JsString) (acc : N) : option N :=
  match s with
  | [] => Some acc
  | c :: r =>
    match index_in c ALPHABET 0 with
    | Some d => b58_value r (acc * 58 + d)
    | None => None
    end
  end.

(** Each leading ['1'] stands for one leading zero byte. *)
Fixpoint leading_ones (s : JsString) : N :=
  match s with
  | c :: r => if c =? 49 then 1 + leading_ones r else 0
  | [] => 0
  end.

(** [new PublicKey(text)]: [bs58.decode] throws on a character outside
    the alphabet, and the decoded bytes must be exactly 32. *)
Definition ofString (s : JsString) : Result PublicKey :=
  match b58_value s 0 with
  | None => Throw (Error (lit "Non-base58 character"))
  | Some v =>
    if leading_ones s + byteLength v =? PUBLIC_KEY_LENGTH
    then Ok {| bn := v |}
    else Throw InvalidKey
  end.

Fixpoint b58_digits (fuel : nat) (n : N) (acc : JsString) : JsString :=
  match fuel with
  | O => acc
  | S fuel' =>
    if n =? 0 then acc
    else b58_digits fuel' (n / 58) (nth (N.to_nat (n mod 58)) ALPHABET 49 :: acc)
  end.

(** [key.toBase58()]: the 32 bytes of the key in base 58. *)
Definition toBase58 (k : PublicKey) : JsString :=
  repeat 49 (N.to_nat (PUBLIC_KEY_LENGTH - byteLength (bn k)))
    ++ b58_digits 45 (bn k) [].

End Key.
Import Key.

(* ================================================================== *)
(** ** Data ([src/src/types.ts]) *)
(* ================================================================== *)

Module NFTMetadata.
Record t := { mint : JsString; name : JsString; symbol : JsString; uri : JsString }.
End NFTMetadata.

(** The [oldValues] / [newValues] of a result. *)
Module Values.
Record t := { name : JsString; symbol : JsString; uri : JsString }.
End Values.

Inductive Status := updated | skipped | error.

Definition Status_eqb (a b : Status) : bool :=
  match a, b with
  | updated, updated | skipped, skipped | error, error => true
  | _, _ => false
  end.

Module ProcessResult.
Record t := {
  mint : JsString;
  status : Status;
  action : option JsString;
  oldValues : option Values.t;
  newValues : option Values.t;
  error : option JsString;
  transactionSignature : option JsString;
  timestamp : JsString
}.
End ProcessResult.

(** The [summary] of a checkpoint. *)
Module Tallies.
Record t := { processed : Z; updated : Z; skipped : Z; failed : Z }.
End Tallies.

Module Checkpoint.
Record t := {
  lastProcessedIndex : Z;
  processedMints : list JsString;
  timestamp : JsString;
  summary : Tallies.t
}.
End Checkpoint.

(** [duration] is a rendering of the two timestamps and is left out. *)
Module Summary.
Record t := {
  totalProcessed : Z;
  successfullyUpdated : Z;
  skipped : Z;
  failed : Z;
  totalCostSOL : float;
  startTime : JsString;
  endTime : JsString
}.
End Summary.

Module Config.
Record t := {
  batchSize : Z;
  batchDelayMs : Z;
  dryRun : bool;
  skipConfirm : bool;
  nftRange : option (Z * Z);
  maxRetries : Z;
  retryDelayMs : Z;
  checkpointInterval : Z;
  resumeFromCheckpoint : bool
}.
End Config.

(** What the on-chain account decodes to. *)
Module OnChain.
Record t := {
  name : JsString;
  symbol : JsString;
  uri : JsString;
  updateAuthority : PublicKey
}.
End OnChain.

Record AccountMeta := { pubkey : PublicKey; isSigner : bool; isWritable : bool }.

Record TransactionInstruction := {
  keys : list AccountMeta;
  programId : PublicKey;
  data : Buffer
}.

Record Transaction := {
  instructions : list TransactionInstruction;
  feePayer : PublicKey
}.

(* ================================================================== *)
(** ** The world outside the program *)
(* ================================================================== *)

(** What the program does not compute itself: the RPC node behind a
    [Connection], the derivation of program addresses and the clock.  The
    node has a state of its own, so two calls may answer differently. *)
Class Platform := {
  Remote : Type;
  (** [connection.getAccountInfo(address)]: the account's data, [None] for
      an account that does not exist, or a thrown network error. *)
  getAccountInfo : PublicKey -> Remote -> Remote * Result (option Buffer);
  (** [sendAndConfirmTransaction(connection, transaction, [wallet], _)] *)
  sendAndConfirmTransaction :
    Transaction -> PublicKey -> Remote -> Remote * Result JsString;
  (** [PublicKey.findProgramAddressSync(seeds, programId)[0]] for the
      metadata seeds of a mint. *)
  findProgramAddressSync : PublicKey -> PublicKey -> PublicKey;
  (** [new Date().toISOString()] *)
  toISOString : Remote -> JsString
}.

(** Everything observable a run does, in order. *)
Inductive Event :=
| Fetched (account : PublicKey)
| Submitted (transaction : Transaction)
| Slept (ms : Z)
| SavedCheckpoint (checkpoint : Checkpoint.t)
| DeletedCheckpoint
| SavedLogs (logs : list ProcessResult.t)
| SavedSummary (summary : Summary.t)
| SavedFailedNFTs (mints : list JsString).

Section World.
Context {P : Platform}.

Record World := {
  remote : Remote;
  events : list Event;
  (** [logger.logs] *)
  logs : list ProcessResult.t;
  (** the content of [checkpoint.json], when the file exists *)
  checkpointFile : option Checkpoint.t
}.

Definition emit (e : Event) (w : World) : World :=
  {| remote := remote w; events := events w ++ [e]; logs := logs w;
     checkpointFile := checkpointFile w |}.

Definition with_remote (r : Remote) (w : World) : World :=
  {| remote := r; events := events w; logs := logs w;
     checkpointFile := checkpointFile w |}.

Definition with_file (f : option Checkpoint.t) (w : World) : World :=
  {| remote := remote w; events := events w; logs := logs w;
     checkpointFile := f |}.

(** An asynchronous computation: it changes the world and completes with
    a value or a thrown error. *)
Definition M (A : Type) : Type := World -> World * Result A.

Definition ret {A} (a : A) : M A := fun w => (w, Ok a).

Definition throw {A} (e : JsError) : M A := fun w => (w, Throw e).

Definition lift {A} (r : Result A) : M A := fun w => (w, r).

Definition bind {A B} (m : M A) (k : A -> M B) : M B :=
  fun w =>
    match m w with
    | (w1, Ok a) => k a w1
    | (w1, Throw e) => (w1, Throw e)
    end.

(** [try { body } catch (error) { handler }] *)
Definition try_catch {A} (body : M A) (handler : JsError -> M A) : M A :=
  fun w =>
    match body w with
    | (w1, Ok a) => (w1, Ok a)
    | (w1, Throw e) => handler e w1
    end.

Definition now : M JsString := fun w => (w, Ok (toISOString (remote w))).

End World.

Notation "x <- m ;; k" := (bind m (fun x => k))
  (at level 61, m at next level, right associativity) : js_scope.
Notation "m ;;; k" := (bind m (fun _ => k))
  (at level 61, right associativity) : js_scope.
Open Scope js_scope.

(* ================================================================== *)
(** ** The utilities ([./utils], [src/unnamed/part_001]) *)
(* ================================================================== *)

Module Utils.

(** [retryWithBackoff(fn, maxRetries, baseDelay)], over any state that can
    be put to sleep.  The loop [for (attempt = 0; attempt <= maxRetries;
    attempt++)] is unrolled on the number of passes still to come. *)
Section Retry.
Variables St T : Type.
Variable sleep : Z -> St -> St.
Variable fn : St -> St * Result T.
Variables maxRetries baseDelay : Z.

Fixpoint retry_from (passes : nat) (attempt : Z) (lastError : option JsError)
    (s : St) : St * Result T :=
  match passes with
  | O =>
    (* throw lastError *)
    (s, Throw (match lastError with
               | Some e => e
               | None => Thrown (lit "undefined")
               end))
  | S passes' =>
    match fn s with
    | (s1, Ok value) => (s1, Ok value)
    | (s1, Throw e) =>
      let s2 :=
        if (attempt <? maxRetries)%Z
        then sleep (baseDelay * 2 ^ attempt)%Z s1
        else s1 in
      retry_from passes' (attempt + 1)%Z (Some e) s2
    end
  end.

Definition retryWithBackoff : St -> St * Result T :=
  retry_from (Z.to_nat (maxRetries + 1)) 0%Z None.

End Retry.

Section Files.
Context {P : Platform}.

(** [await sleep(ms)] *)
Definition sleep (ms : Z) : M unit := fun w => (emit (Slept ms) w, Ok tt).

Definition saveCheckpoint (checkpoint : Checkpoint.t) : M unit :=
  fun w => (with_file (Some checkpoint) (emit (SavedCheckpoint checkpoint) w), Ok tt).

Definition loadCheckpoint : M (option Checkpoint.t) :=
  fun w => (w, Ok (checkpointFile w)).

Definition deleteCheckpoint : M unit :=
  fun w =>
    match checkpointFile w with
    | Some _ => (with_file None (emit DeletedCheckpoint w), Ok tt)
    | None => (w, Ok tt)
    end.

Definition createSummary (totalProcessed successfullyUpdated skipped failed : Z)
    (totalCostSOL : float) (startTime endTime : JsString) : Summary.t :=
  {| Summary.totalProcessed := totalProcessed;
     Summary.successfullyUpdated := successfullyUpdated;
     Summary.skipped := skipped;
     Summary.failed := failed;
     Summary.totalCostSOL := totalCostSOL;
     Summary.startTime := startTime;
     Summary.endTime := endTime |}.

End Files.
End Utils.

(* ================================================================== *)
(** ** [src/src/metadataUpdater.ts] *)
(* ================================================================== *)

Module MetadataUpdater.
Import Utils.

Definition TOKEN_METADATA_PROGRAM_ID : PublicKey :=
  match Key.ofString (lit "metaqbxxUerdq28cj1RbAWkYQm3ybzjb6a8bt518x1s") with
  | Ok k => k
  | Throw _ => {| bn := 0 |}
  end.

(** [encodeString(str)]: the UTF-8 bytes after their length, as four
    little-endian bytes. *)
Definition encodeString (str : JsString) : Result Buffer :=
  let strBytes := Utf8.encode str in
  length <-? writeUInt32LE (blength strBytes) ;;
  Ok (length ++ strBytes).

Definition createUpdateMetadataInstruction
    (metadataAccount updateAuthority : PublicKey) (name symbol uri : JsString)
    : Result TransactionInstruction :=
  let discriminator := [Byte.x0f] in
  n <-? encodeString name ;;
  s <-? encodeString symbol ;;
  u <-? encodeString uri ;;
  let data :=
    discriminator
    ++ [Byte.x01]                 (* has data *)
    ++ n ++ s ++ u
    ++ [Byte.x00; Byte.x00]       (* sellerFeeBasisPoints = 0 *)
    ++ [Byte.x00]                 (* creators = None *)
    ++ [Byte.x00]                 (* collection = None *)
    ++ [Byte.x00]                 (* uses = None *)
    ++ [Byte.x00]                 (* updateAuthority = None *)
    ++ [Byte.x00]                 (* primarySaleHappened = None *)
    ++ [Byte.x00]                 (* isMutable = None *) in
  Ok {| keys := [ {| pubkey := metadataAccount; isSigner := false; isWritable := true |};
                  {| pubkey := updateAuthority; isSigner := true; isWritable := false |} ];
        programId := TOKEN_METADATA_PROGRAM_ID;
        data := data |}.

(** The parsing part of [fetchCurrentMetadata] (from "Skip first byte" to
    the returned object).  A read past the end throws; a slice past the
    end is cut short. *)
Definition parseMetadataAccount (data : Buffer) : Result OnChain.t :=
  let offset := 1%N in
  updateAuthority <-? Key.ofBuffer (slice data offset (offset + 32)) ;;
  let offset := (offset + 32)%N in
  let offset := (offset + 32)%N in
  nameLength <-? readUInt32LE data offset ;;
  let offset := (offset + 4)%N in
  let name := remove_nul (Utf8.decode (slice data offset (offset + nameLength))) in
  let offset := (offset + nameLength)%N in
  symbolLength <-? readUInt32LE data offset ;;
  let offset := (offset + 4)%N in
  let symbol := remove_nul (Utf8.decode (slice data offset (offset + symbolLength))) in
  let offset := (offset + symbolLength)%N in
  uriLength <-? readUInt32LE data offset ;;
  let offset := (offset + 4)%N in
  let uri := remove_nul (Utf8.decode (slice data offset (offset + uriLength))) in
  Ok {| OnChain.name := name; OnChain.symbol := symbol; OnChain.uri := uri;
        OnChain.updateAuthority := updateAuthority |}.

Definition isMetadataDifferent (current : OnChain.t) (original : NFTMetadata.t) : bool :=
  negb (str_eqb (trim (OnChain.name current)) (trim (NFTMetadata.name original)))
  || negb (str_eqb (trim (OnChain.symbol current)) (trim (NFTMetadata.symbol original)))
  || negb (str_eqb (trim (OnChain.uri current)) (trim (NFTMetadata.uri original))).

(** [r.status === 'updated' && r.transactionSignature]: an absent or an
    empty signature is falsy. *)
Definition isSuccessfulUpdate (r : ProcessResult.t) : bool :=
  Status_eqb (ProcessResult.status r) updated
  && match ProcessResult.transactionSignature r with
     | Some (_ :: _) => true
     | _ => false
     end.

Definition number_of_nat (n : nat) : float :=
  PrimFloat.of_uint63 (Uint63.of_Z (Z.of_nat n)).

(** The default [avgFeePerTx], the double nearest to 0.000005. *)
Definition AVG_FEE_PER_TX : float := 0x1.4f8b588e368f1p-18%float.

Definition calculateTotalCost (results : list ProcessResult.t) (avgFeePerTx : float)
    : float :=
  let successfulUpdates := filter isSuccessfulUpdate results in
  PrimFloat.mul (number_of_nat (List.length successfulUpdates)) avgFeePerTx.

Section Engine.
Context {P : Platform}.

Definition getMetadataAccount (mint : PublicKey) : PublicKey :=
  findProgramAddressSync mint TOKEN_METADATA_PROGRAM_ID.

(** One RPC read, recorded. *)
Definition rpcGetAccountInfo (account : PublicKey) : M (option Buffer) :=
  fun w =>
    let (r, answer) := getAccountInfo account (remote w) in
    (emit (Fetched account) (with_remote r w), answer).

(** One submission, recorded. *)
Definition rpcSendAndConfirm (transaction : Transaction) (wallet : PublicKey)
    : M JsString :=
  fun w =>
    let (r, answer) := sendAndConfirmTransaction transaction wallet (remote w) in
    (emit (Submitted transaction) (with_remote r w), answer).

Definition fetchCurrentMetadata (mint : PublicKey) : M (option OnChain.t) :=
  try_catch
    (let metadataAccount := getMetadataAccount mint in
     accountInfo <- rpcGetAccountInfo metadataAccount ;;
     match accountInfo with
     | None => ret None
     | Some data =>
       parsed <- lift (parseMetadataAccount data) ;;
       ret (Some parsed)
     end)
    (fun _ => ret None).

Definition retry {T} (fn : M T) (maxRetries retryDelayMs : Z) : M T :=
  retryWithBackoff (fun ms w => fst (sleep ms w)) fn maxRetries retryDelayMs.

Definition errorResult (mint message timestamp : JsString) : ProcessResult.t :=
  {| ProcessResult.mint := mint;
     ProcessResult.status := error;
     ProcessResult.action := None;
     ProcessResult.oldValues := None;
     ProcessResult.newValues := None;
     ProcessResult.error := Some message;
     ProcessResult.transactionSignature := None;
     ProcessResult.timestamp := timestamp |}.

Definition skippedResult (mint timestamp : JsString) : ProcessResult.t :=
  {| ProcessResult.mint := mint;
     ProcessResult.status := skipped;
     ProcessResult.action := Some (lit "metadata already matches");
     ProcessResult.oldValues := None;
     ProcessResult.newValues := None;
     ProcessResult.error := None;
     ProcessResult.transactionSignature := None;
     ProcessResult.timestamp := timestamp |}.

Definition valuesOfCurrent (current : OnChain.t) : Values.t :=
  {| Values.name := OnChain.name current;
     Values.symbol := OnChain.symbol current;
     Values.uri := OnChain.uri current |}.

Definition valuesOfTarget (metadata : NFTMetadata.t) : Values.t :=
  {| Values.name := NFTMetadata.name metadata;
     Values.symbol := NFTMetadata.symbol metadata;
     Values.uri := NFTMetadata.uri metadata |}.

Definition updatedResult (metadata : NFTMetadata.t) (current : OnChain.t)
    (action signature : option JsString) (timestamp : JsString) : ProcessResult.t :=
  {| ProcessResult.mint := NFTMetadata.mint metadata;
     ProcessResult.status := updated;
     ProcessResult.action := action;
     ProcessResult.oldValues := Some (valuesOfCurrent current);
     ProcessResult.newValues := Some (valuesOfTarget metadata);
     ProcessResult.error := None;
     ProcessResult.transactionSignature := signature;
     ProcessResult.timestamp := timestamp |}.

Definition mismatchMessage (wallet found : PublicKey) : JsString :=
  lit "Update authority mismatch. Expected: " ++ toBase58 wallet
  ++ lit ", Found: " ++ toBase58 found.

(** [updateNFTMetadata(connection, wallet, metadata, dryRun, logger,
    maxRetries, retryDelayMs)].  The wallet is its public key; the
    logger's debug lines go to the console only. *)
Definition updateNFTMetadata (wallet : PublicKey) (metadata : NFTMetadata.t)
    (dryRun : bool) (maxRetries retryDelayMs : Z) : M ProcessResult.t :=
  timestamp <- now ;;
  mint <- lift (Key.ofString (NFTMetadata.mint metadata)) ;;
  try_catch
    (current <- retry (fetchCurrentMetadata mint) maxRetries retryDelayMs ;;
     match current with
     | None =>
       ret (errorResult (NFTMetadata.mint metadata)
              (lit "Failed to fetch current metadata") timestamp)
     | Some current =>
       if negb (equals (OnChain.updateAuthority current) wallet) then
         ret (errorResult (NFTMetadata.mint metadata)
                (mismatchMessage wallet (OnChain.updateAuthority current)) timestamp)
       else if negb (isMetadataDifferent current metadata) then
         ret (skippedResult (NFTMetadata.mint metadata) timestamp)
       else if dryRun then
         ret (updatedResult metadata current
                (Some (lit "dry run - would update")) None timestamp)
       else
         let metadataAccount := getMetadataAccount mint in
         updateInstruction <-
           lift (createUpdateMetadataInstruction metadataAccount wallet
                   (NFTMetadata.name metadata) (NFTMetadata.symbol metadata)
                   (NFTMetadata.uri metadata)) ;;
         let transaction :=
           {| instructions := [updateInstruction]; feePayer := wallet |} in
         signature <-
           retry (rpcSendAndConfirm transaction wallet) maxRetries retryDelayMs ;;
         ret (updatedResult metadata current None (Some signature) timestamp)
     end)
    (fun e => ret (errorResult (NFTMetadata.mint metadata) (describe e) timestamp)).

(** [logger.logResult(result)] *)
Definition logResult (result : ProcessResult.t) : M unit :=
  fun w =>
    ({| remote := remote w; events := events w; logs := logs w ++ [result];
        checkpointFile := checkpointFile w |}, Ok tt).

Fixpoint processBatch_from (wallet : PublicKey) (batch : list NFTMetadata.t)
    (dryRun : bool) (maxRetries retryDelayMs : Z)
    (results : list ProcessResult.t) : M (list ProcessResult.t) :=
  match batch with
  | [] => ret results
  | metadata :: rest =>
    result <- updateNFTMetadata wallet metadata dryRun maxRetries retryDelayMs ;;
    let results := results ++ [result] in
    logResult result ;;;
    sleep 100 ;;;
    processBatch_from wallet rest dryRun maxRetries retryDelayMs results
  end.

Definition processBatch (wallet : PublicKey) (batch : list NFTMetadata.t)
    (dryRun : bool) (maxRetries retryDelayMs : Z) : M (list ProcessResult.t) :=
  processBatch_from wallet batch dryRun maxRetries retryDelayMs [].

End Engine.
End MetadataUpdater.

(* ================================================================== *)
(** ** [filterByRange] and the entry point [main] *)
(* ================================================================== *)

Module Index.
Import Utils MetadataUpdater.

(** [array.slice(start, end)]: a negative index counts from the end, and
    both are clamped to the array. *)
Definition array_slice {A} (l : list A) (start stop : Z) : list A :=
  let len := Z.of_nat (List.length l) in
  let from := if (start <? 0)%Z then Z.max (len + start) 0 else Z.min start len in
  let to := if (stop <? 0)%Z then Z.max (len + stop) 0 else Z.min stop len in
  firstn (Z.to_nat (to - from)) (skipn (Z.to_nat from) l).

(** [array.slice(start)] *)
Definition array_slice_from {A} (l : list A) (start : Z) : list A :=
  array_slice l start (Z.of_nat (List.length l)).

(** [filterByRange(metadata, range)] of [src/src/csvParser.ts] *)
Definition filterByRange (metadata : list NFTMetadata.t) (range : option (Z * Z))
    : list NFTMetadata.t :=
  match range with
  | None => metadata
  | Some (start, stop) => array_slice metadata start (stop + 1)
  end.

(** [array.includes(x)] on strings *)
Definition includes (l : list JsString) (x : JsString) : bool :=
  existsb (str_eqb x) l.

(** The counters of [main]'s loop. *)
Record Counters := {
  processedCount : Z;
  updatedCount : Z;
  skippedCount : Z;
  failedCount : Z;
  failedMints : list JsString;
  processedMints : list JsString
}.

(** The body of [for (const result of results)]. *)
Definition tally (c : Counters) (result : ProcessResult.t) : Counters :=
  let mint := ProcessResult.mint result in
  {| processedCount := processedCount c + 1;
     processedMints := processedMints c ++ [mint];
     updatedCount :=
       match ProcessResult.status result with
       | updated => updatedCount c + 1
       | _ => updatedCount c
       end;
     skippedCount :=
       match ProcessResult.status result with
       | skipped => skippedCount c + 1
       | _ => skippedCount c
       end;
     failedCount :=
       match ProcessResult.status result with
       | error => failedCount c + 1
       | _ => failedCount c
       end;
     failedMints :=
       match ProcessResult.status result with
       | error => failedMints c ++ [mint]
       | _ => failedMints c
       end |}%Z.

(** [processedCount % config.checkpointInterval === 0]; the remainder by
    zero is NaN, which equals nothing. *)
Definition checkpointDue (processedCount checkpointInterval : Z) : bool :=
  if (checkpointInterval =? 0)%Z then false
  else (Z.rem processedCount checkpointInterval =? 0)%Z.

Definition checkpointOf (startIndex : Z) (c : Counters) (timestamp : JsString)
    : Checkpoint.t :=
  {| Checkpoint.lastProcessedIndex := startIndex + processedCount c - 1;
     Checkpoint.processedMints := processedMints c;
     Checkpoint.timestamp := timestamp;
     Checkpoint.summary :=
       {| Tallies.processed := processedCount c;
          Tallies.updated := updatedCount c;
          Tallies.skipped := skippedCount c;
          Tallies.failed := failedCount c |} |}%Z.

(** How [main] ends. *)
Inductive Exit :=
| Completed (summary : Summary.t)
| NothingToProcess                 (* "No NFTs to process" *)
| Cancelled                        (* the operator answered no *)
| Killed                           (* stopped by a signal, logs saved *)
| Fatal (e : JsError).             (* [process.exit(1)] *)

Section Main.
Context {P : Platform}.
Variable config : Config.t.
Variable wallet : PublicKey.

Definition getLogs : M (list ProcessResult.t) := fun w => (w, Ok (logs w)).

Definition saveLogs : M unit := fun w => (emit (SavedLogs (logs w)) w, Ok tt).

Definition saveSummary (summary : Summary.t) : M unit :=
  fun w => (emit (SavedSummary summary) w, Ok tt).

Definition saveFailedNFTs (mints : list JsString) : M unit :=
  fun w => (emit (SavedFailedNFTs mints) w, Ok tt).

(** The loop [for (let i = 0; i < metadata.length; i += config.batchSize)].
    [budget] is the number of chunks the process lives to start: when it
    runs out with records left, a signal stops the process between two
    chunks (the handler saves the logs), and the loop gives [None]. *)
Fixpoint batches (budget : nat) (metadata : list NFTMetadata.t) (startIndex i : Z)
    (c : Counters) : M (option Counters) :=
  if (i <? Z.of_nat (List.length metadata))%Z then
    match budget with
    | O => saveLogs ;;; ret None
    | S budget' =>
      let batch := array_slice metadata i (i + Config.batchSize config) in
      results <- processBatch wallet batch (Config.dryRun config)
                   (Config.maxRetries config) (Config.retryDelayMs config) ;;
      let c := fold_left tally results c in
      (if checkpointDue (processedCount c) (Config.checkpointInterval config) then
         timestamp <- now ;;
         saveCheckpoint (checkpointOf startIndex c timestamp)
       else ret tt) ;;;
      (if (i + Config.batchSize config <? Z.of_nat (List.length metadata))%Z then
         sleep (Config.batchDelayMs config)
       else ret tt) ;;;
      batches budget' metadata startIndex (i + Config.batchSize config) c
    end
  else ret (Some c).

(** What the "Load checkpoint if resuming" block leaves behind. *)
Record Resumption := {
  startIndex : Z;
  previousResults : Tallies.t;
  allMetadata : list NFTMetadata.t
}.

Definition freshStart (allMetadata : list NFTMetadata.t) : Resumption :=
  {| startIndex := 0;
     previousResults :=
       {| Tallies.processed := 0; Tallies.updated := 0; Tallies.skipped := 0;
          Tallies.failed := 0 |};
     allMetadata := allMetadata |}.

Definition resumeFrom (allMetadata : list NFTMetadata.t) : M Resumption :=
  if Config.resumeFromCheckpoint config then
    checkpoint <- loadCheckpoint ;;
    match checkpoint with
    | Some checkpoint =>
      ret {| startIndex := Checkpoint.lastProcessedIndex checkpoint + 1;
             previousResults := Checkpoint.summary checkpoint;
             allMetadata :=
               filter (fun m => negb (includes (Checkpoint.processedMints checkpoint)
                                        (NFTMetadata.mint m)))
                      allMetadata |}
    | None => ret (freshStart allMetadata)
    end
  else ret (freshStart allMetadata).

(** The counters as the loop finds them: the count of processed records
    starts at 0, the three others at the previous results. *)
Definition startCounters (resumed : Resumption) : Counters :=
  {| processedCount := 0;
     updatedCount := Tallies.updated (previousResults resumed);
     skippedCount := Tallies.skipped (previousResults resumed);
     failedCount := Tallies.failed (previousResults resumed);
     failedMints := [];
     processedMints := [] |}.

(** The end of [main], from [progressBar.stop()] on. *)
Definition finish (c : Counters) (startTime : JsString) : M Exit :=
  endTime <- now ;;
  logged <- getLogs ;;
  let totalCostSOL :=
    if Config.dryRun config then 0%float
    else calculateTotalCost logged AVG_FEE_PER_TX in
  let summary :=
    createSummary (processedCount c) (updatedCount c) (skippedCount c)
      (failedCount c) totalCostSOL startTime endTime in
  saveLogs ;;;
  saveSummary summary ;;;
  (if (0 <? List.length (failedMints c))%nat then saveFailedNFTs (failedMints c)
   else ret tt) ;;;
  (if (failedCount c =? 0)%Z then deleteCheckpoint else ret tt) ;;;
  ret (Completed summary).

(** [main], from "Apply range filter" on.  [parsed] is what [parseCSV]
    returned, [answer] the operator's reply if asked to confirm. *)
Definition run (parsed : list NFTMetadata.t) (answer : bool) (budget : nat) : M Exit :=
  let ranged := filterByRange parsed (Config.nftRange config) in
  resumed <- resumeFrom ranged ;;
  let metadata := array_slice_from (allMetadata resumed) (startIndex resumed) in
  if (List.length metadata =? 0)%nat then ret NothingToProcess
  else if negb (Config.skipConfirm config) && negb answer then ret Cancelled
  else
    startTime <- now ;;
    finished <- batches budget metadata (startIndex resumed) 0 (startCounters resumed) ;;
    match finished with
    | None => ret Killed
    | Some c => finish c startTime
    end.

(** The outer [try ... catch]: a thrown error ends the process. *)
Definition main (parsed : list NFTMetadata.t) (answer : bool) (budget : nat)
    : World -> World * Exit :=
  fun w =>
    match run parsed answer budget w with
    | (w1, Ok e) => (w1, e)
    | (w1, Throw e) => (w1, Fatal e)
    end.

End Main.
End Index.

(* ================================================================== *)
(** ** Vocabulary of the properties *)
(* ================================================================== *)

Module Props.
Import Utils MetadataUpdater Index.

(** The checkpoints written, oldest first. *)
Fixpoint savedCheckpoints (evs : list Event) : list Checkpoint.t :=
  match evs with
  | [] => []
  | SavedCheckpoint c :: rest => c :: savedCheckpoints rest
  | _ :: rest => savedCheckpoints rest
  end.

(** The transactions submitted, oldest first. *)
Fixpoint submissions (evs : list Event) : list Transaction :=
  match evs with
  | [] => []
  | Submitted t :: rest => t :: submissions rest
  | _ :: rest => submissions rest
  end.

(** The accounts read, oldest first. *)
Fixpoint fetches (evs : list Event) : list PublicKey :=
  match evs with
  | [] => []
  | Fetched a :: rest => a :: fetches rest
  | _ :: rest => fetches rest
  end.

(** The delays slept, oldest first. *)
Fixpoint sleeps (evs : list Event) : list Z :=
  match evs with
  | [] => []
  | Slept ms :: rest => ms :: sleeps rest
  | _ :: rest => sleeps rest
  end.

Fixpoint dropLeadingNul (s : JsString) : JsString :=
  match s with
  | c :: r => if (c =? 0)%N then dropLeadingNul r else s
  | [] => []
  end.

(** A string with its trailing NUL padding stripped. *)
Definition stripTrailingNul (s : JsString) : JsString :=
  rev (dropLeadingNul (rev s)).

Definition nulFree (s : JsString) : bool := forallb (fun c => negb (c =? 0)%N) s.

(** A length as stored at [off], 0 when it cannot be read. *)
Definition lengthAt (raw : Buffer) (off : N) : N :=
  match readUInt32LE raw off with Ok v => v | Throw _ => 0%N end.

(** Where the three 4-byte length prefixes of the layout end: after the key
    byte, the authority and the mint (65 bytes), after the name, and after
    the symbol. *)
Definition prefixEnds (raw : Buffer) : list N :=
  let nameLength := lengthAt raw 65 in
  let symbolLength := lengthAt raw (69 + nameLength) in
  [69; 73 + nameLength; 77 + nameLength + symbolLength]%N.

(** [raw] ends before one of its length prefixes does. *)
Definition cutsPrefix (raw : Buffer) : bool :=
  existsb (fun e => blength raw <? e)%N (prefixEnds raw).

(** Where the last string of the layout ends. *)
Definition uriEnd (raw : Buffer) : N :=
  let nameLength := lengthAt raw 65 in
  let symbolLength := lengthAt raw (69 + nameLength) in
  let uriLength := lengthAt raw (73 + nameLength + symbolLength) in
  (77 + nameLength + symbolLength + uriLength)%N.

(** The 32 bytes of a key, most significant first ([key.toBuffer()]). *)
Fixpoint be_bytes (n : nat) (v : N) (acc : Buffer) : Buffer :=
  match n with
  | O => acc
  | S n' => be_bytes n' (v / 256)%N (byte_of_N v :: acc)
  end.

Definition toBuffer (k : PublicKey) : Buffer := be_bytes 32 (bn k) [].

(** Account bytes in the layout [parseMetadataAccount] reads: the key byte,
    the update authority, the mint, then the three strings as
    [encodeString] writes them, and whatever follows. *)
Definition syntheticAccount (key : byte) (authority mint : Buffer)
    (name symbol uri : JsString) (rest : Buffer) : Result Buffer :=
  n <-? encodeString name ;;
  s <-? encodeString symbol ;;
  u <-? encodeString uri ;;
  Ok ([key] ++ authority ++ mint ++ n ++ s ++ u ++ rest).

(** The number of results that are [updated] and carry a signature. *)
Fixpoint countSigned (results : list ProcessResult.t) : nat :=
  match results with
  | [] => 0
  | r :: rest =>
    match ProcessResult.status r, ProcessResult.transactionSignature r with
    | updated, Some (_ :: _) => S (countSigned rest)
    | _, _ => countSigned rest
    end
  end.

(** Retrying an operation observed from outside: the state the operation
    works on, and one trace of what the retry did, in order: each
    invocation of the operation and each sleep, with its delay. *)
Inductive Step :=
| Invoked
| Paused (ms : Z).

Record Probe (U : Type) := {
  inner : U;
  trace : list Step
}.

Definition probeStart {U} (u : U) : Probe U :=
  {| inner := u; trace := [] |}.

Definition probeSleep {U} (ms : Z) (p : Probe U) : Probe U :=
  {| inner := inner p; trace := trace p ++ [Paused ms] |}.

Definition probeCall {U T} (fn : U -> U * Result T) (p : Probe U)
    : Probe U * Result T :=
  let (u, r) := fn (inner p) in
  ({| inner := u; trace := trace p ++ [Invoked] |}, r).



(** [n] failed attempts in a row, the first with number [first]: each is
    an invocation followed by a sleep of [d * 2^attempt]. *)
Definition failedAttempts (d : Z) (first n : nat) : list Step :=
  flat_map (fun a => [Invoked; Paused (d * 2 ^ Z.of_nat a)%Z]) (seq first n).

(** The state before the invocation number [n] (from 0) of [fn], and what
    that invocation gives. *)
Fixpoint stateBefore {U T} (fn : U -> U * Result T) (u : U) (n : nat) : U :=
  match n with
  | O => u
  | S n' => fst (fn (stateBefore fn u n'))
  end.

Definition outcomeOf {U T} (fn : U -> U * Result T) (u : U) (n : nat) : Result T :=
  snd (fn (stateBefore fn u n)).

Definition failed {T} (r : Result T) : Prop :=
  match r with Throw _ => True | Ok _ => False end.



(** No string occurs twice. *)
Fixpoint distinct (l : list JsString) : bool :=
  match l with
  | [] => true
  | x :: rest => negb (includes rest x) && distinct rest
  end.

(** The four counts a completed run reports. *)
Definition reported (e : Exit) : option (Z * Z * Z * Z) :=
  match e with
  | Completed s =>
    Some (Summary.totalProcessed s, Summary.successfullyUpdated s,
          Summary.skipped s, Summary.failed s)
  | _ => None
  end.

(** What [fetchCurrentMetadata] makes of the node's answer. *)
Definition decoded (answer : Result (option Buffer)) : option OnChain.t :=
  match answer with
  | Ok (Some data) =>
    match parseMetadataAccount data with
    | Ok parsed => Some parsed
    | Throw _ => None
    end
  | Ok None => None
  | Throw _ => None
  end.

Section Observations.
Context {P : Platform}.

(** What a fetch leaves behind: one read, recorded. *)
Definition afterFetch (account : PublicKey) (r : Remote) (w : World) : World :=
  emit (Fetched account) (with_remote r w).

(** A computation that writes no checkpoint. *)
Definition quiet {A} (m : M A) : Prop :=
  forall w, savedCheckpoints (events (fst (m w))) = savedCheckpoints (events w).

End Observations.

Section Runs.
Context {P : Platform}.
Variable config : Config.t.

(** What a run that starts in world [w] decides to work on. *)
Definition planned (parsed : list NFTMetadata.t) (w : World) : Resumption :=
  match resumeFrom config (filterByRange parsed (Config.nftRange config)) w with
  | (_, Ok resumed) => resumed
  | (_, Throw _) => freshStart []
  end.

Definition toProcess (parsed : list NFTMetadata.t) (w : World) : list NFTMetadata.t :=
  array_slice_from (allMetadata (planned parsed w)) (startIndex (planned parsed w)).

(** [p] records have been processed when a chunk ends: a multiple of the
    chunk size, or all of them. *)
Definition chunkEnd (metadata : list NFTMetadata.t) (p : Z) : Prop :=
  (0 < p <= Z.of_nat (List.length metadata))%Z
  /\ (p = Z.of_nat (List.length metadata) \/ (Config.batchSize config | p)%Z).

(** A checkpoint of a run over [metadata] that started at [start]: taken
    at the end of a chunk, when the count of processed records is a
    multiple of the interval, it holds the index of the last of them and
    the mints of all of them, in order. *)
Definition wellPlaced (start : Z) (metadata : list NFTMetadata.t)
    (checkpoint : Checkpoint.t) : Prop :=
  let p := Tallies.processed (Checkpoint.summary checkpoint) in
  chunkEnd metadata p
  /\ checkpointDue p (Config.checkpointInterval config) = true
  /\ Checkpoint.lastProcessedIndex checkpoint = (start + p - 1)%Z
  /\ Checkpoint.processedMints checkpoint
     = map NFTMetadata.mint (firstn (Z.to_nat p) metadata).

End Runs.

End Props.

(* ================================================================== *)
(** ** A scripted node, for runs on concrete inputs *)
(* ================================================================== *)

Module Scenario.
Import Utils MetadataUpdater Index Props.

(** The node answers from a table of accounts; its first [fetchFailures]
    reads and first [sendFailures] submissions fail with a network error. *)
Record Node := {
  accounts : list (PublicKey * Buffer);
  fetchFailures : nat;
  sendFailures : nat;
  clock : JsString
}.

Fixpoint lookup (k : PublicKey) (table : list (PublicKey * Buffer)) : option Buffer :=
  match table with
  | [] => None
  | (k', v) :: rest => if equals k k' then Some v else lookup k rest
  end.

Definition scriptedGet (k : PublicKey) (n : Node) : Node * Result (option Buffer) :=
  match fetchFailures n with
  | S f =>
    ({| accounts := accounts n; fetchFailures := f; sendFailures := sendFailures n;
        clock := clock n |},
     Throw (Error (lit "fetch failed")))
  | O => (n, Ok (lookup k (accounts n)))
  end.

Definition scriptedSend (t : Transaction) (signer : PublicKey) (n : Node)
    : Node * Result JsString :=
  match sendFailures n with
  | S f =>
    ({| accounts := accounts n; fetchFailures := fetchFailures n; sendFailures := f;
        clock := clock n |},
     Throw (Error (lit "Transaction simulation failed")))
  | O => (n, Ok (lit "5VERv8NMvzbJMEkV8xnrLkEaWRtSz9CosKDYjCJjBRnb"))
  end.

(** Program addresses are not derived: the metadata account of a mint is
    filed under the mint itself. *)
Definition scripted : Platform :=
  {| Remote := Node;
     getAccountInfo := scriptedGet;
     sendAndConfirmTransaction := scriptedSend;
     findProgramAddressSync := fun mint _ => mint;
     toISOString := clock |}.

Definition keyOf (text : string) : PublicKey :=
  match Key.ofString (lit text) with Ok k => k | Throw _ => {| bn := 0 |} end.

Definition walletKey : PublicKey := keyOf "Vote111111111111111111111111111111111111111".
Definition strangerKey : PublicKey := keyOf "Stake11111111111111111111111111111111111111".

Definition mints : list JsString :=
  map lit [ "So11111111111111111111111111111111111111112";
            "TokenkegQfeZyiNwAJbNbGKPFXCWuBvf9Ss623VQ5DA";
            "SysvarRent111111111111111111111111111111111";
            "SysvarC1ock11111111111111111111111111111111";
            "ATokenGPvbdGVxr1b2hvZbsiqW5xWH25efTNsLJA8knL" ]%string.

(** The target of every record: new values for the mint. *)
Definition target (mint : JsString) : NFTMetadata.t :=
  {| NFTMetadata.mint := mint;
     NFTMetadata.name := lit "Doge #1";
     NFTMetadata.symbol := lit "DOGE";
     NFTMetadata.uri := lit "https://example.org/1.json" |}.

Definition manifest : list NFTMetadata.t := map target mints.

(** An account whose strings differ from every target. *)
Definition accountOwnedBy (authority : PublicKey) : Buffer :=
  match syntheticAccount Byte.x04 (toBuffer authority) (repeat Byte.x00 32)
          (lit "Old name") (lit "OLD") (lit "https://example.org/old.json") []
  with
  | Ok data => data
  | Throw _ => []
  end.

(** What that account decodes to. *)
Definition oldRecord (authority : PublicKey) : OnChain.t :=
  {| OnChain.name := lit "Old name";
     OnChain.symbol := lit "OLD";
     OnChain.uri := lit "https://example.org/old.json";
     OnChain.updateAuthority := authority |}.

Definition firstMint : JsString := lit "So11111111111111111111111111111111111111112".
Definition firstMintKey : PublicKey := keyOf "So11111111111111111111111111111111111111112".

Definition accountsOf (authority : PublicKey) : list (PublicKey * Buffer) :=
  map (fun m => (match Key.ofString m with Ok k => k | Throw _ => {| bn := 0 |} end,
                 accountOwnedBy authority))
      mints.

Definition nodeOf (authority : PublicKey) (fetchFailures : nat) : Node :=
  {| accounts := accountsOf authority; fetchFailures := fetchFailures;
     sendFailures := 0; clock := lit "2025-01-01T00:00:00.000Z" |}.

Definition worldOf (n : Node) (file : option Checkpoint.t) : World (P := scripted) :=
  @Build_World scripted n [] [] file.

(** A new process on the same machine: the node and the checkpoint file
    are as the previous process left them, the log and the record of
    events start empty. *)
Definition restart (w : World (P := scripted)) : World (P := scripted) :=
  @Build_World scripted (remote w) [] [] (checkpointFile w).

Definition configOf (batchSize checkpointInterval : Z) (dryRun resume : bool)
    : Config.t :=
  {| Config.batchSize := batchSize;
     Config.batchDelayMs := 500;
     Config.dryRun := dryRun;
     Config.skipConfirm := true;
     Config.nftRange := None;
     Config.maxRetries := 3;
     Config.retryDelayMs := 1000;
     Config.checkpointInterval := checkpointInterval;
     Config.resumeFromCheckpoint := resume |}.

(** Five records, chunks of one, a checkpoint after every record.  The
    first process is stopped after one record; the second resumes. *)
Definition firstProcess : World (P := scripted) * Exit :=
  main (P := scripted) (configOf 1 1 true false) walletKey manifest true 1
    (worldOf (nodeOf walletKey 0) None).

Definition leftBehind : Checkpoint.t :=
  match checkpointFile (fst firstProcess) with
  | Some c => c
  | None => checkpointOf 0 (startCounters (freshStart [])) []
  end.

End Scenario.

(* ================================================================== *)
(** ** More of the utilities, and the authority checker *)
(* ================================================================== *)

Module Tools.
Import Utils MetadataUpdater.

(** [String(n)] for an integer below 10^21 in size, where the exponent
    notation starts: its decimal digits, after a minus sign when it is
    negative. *)
Fixpoint digits (fuel : nat) (n : Z) (acc : JsString) : JsString :=
  match fuel with
  | O => acc
  | S fuel' =>
    let acc := (48 + Z.to_N (n mod 10))%N :: acc in
    if (n / 10 =? 0)%Z then acc else digits fuel' (n / 10)%Z acc
  end.

Definition decimal (n : Z) : JsString :=
  if (n <? 0)%Z then 45%N :: digits (S (Z.to_nat (Z.log2 (- n)))) (- n) []
  else digits (S (Z.to_nat (Z.log2 n))) n [].

(** [formatDuration(ms)] of the utilities, for a whole number of
    milliseconds below 2^53 in size: there the source's binary64
    arithmetic is exact and its numbers print in plain digits. *)
Definition formatDuration (ms : Z) : JsString :=
  let seconds := (ms / 1000)%Z in
  let minutes := (seconds / 60)%Z in
  let hours := (minutes / 60)%Z in
  if (0 <? hours)%Z then
    decimal hours ++ lit "h " ++ decimal (Z.rem minutes 60) ++ lit "m "
    ++ decimal (Z.rem seconds 60) ++ lit "s"
  else if (0 <? minutes)%Z then
    decimal minutes ++ lit "m " ++ decimal (Z.rem seconds 60) ++ lit "s"
  else decimal seconds ++ lit "s".

(** [isValidPublicKey(address)] of the utilities *)
Definition isValidPublicKey (address : JsString) : bool :=
  match Key.ofString address with
  | Ok _ => true
  | Throw _ => false
  end.

(** [estimateCost(numTransactions, avgFeePerTx)] of the utilities *)
Definition estimateCost (numTransactions : nat) (avgFeePerTx : float) : float :=
  PrimFloat.mul (number_of_nat numTransactions) avgFeePerTx.

(** [String(error)], as a template literal renders a caught value. *)
Definition toText (e : JsError) : JsString :=
  match e with
  | Error message => lit "Error: " ++ message
  | Thrown text => text
  end.

(** The counters of [checkAuthority] in [src/check-authority.ts]. *)
Record AuthorityReport := {
  hasAuthority : Z;
  noAuthority : Z;
  notFound : Z;
  issues : list JsString
}.

(** What a report counts after [n] records. *)
Definition counted (report : AuthorityReport) (n : Z) : Prop :=
  (0 <= hasAuthority report /\ 0 <= noAuthority report /\ 0 <= notFound report
   /\ hasAuthority report + noAuthority report + notFound report = n
   /\ Z.of_nat (List.length (issues report)) = noAuthority report + notFound report)%Z.

Section CheckAuthority.
Context {P : Platform}.
Variable wallet : PublicKey.

(** The body of [for (const csvData of csvMetadata)]. *)
Definition checkOne (csvData : NFTMetadata.t) (report : AuthorityReport)
    : M AuthorityReport :=
  match Key.ofString (NFTMetadata.mint csvData) with
  | Throw _ =>
    ret {| hasAuthority := hasAuthority report;
           noAuthority := noAuthority report;
           notFound := notFound report + 1;
           issues := issues report
                     ++ [NFTMetadata.mint csvData ++ lit ": Invalid address format"] |}
  | Ok mint =>
    try_catch
      (onChain <- fetchCurrentMetadata mint ;;
       match onChain with
       | None =>
         ret {| hasAuthority := hasAuthority report;
                noAuthority := noAuthority report;
                notFound := notFound report + 1;
                issues := issues report
                          ++ [NFTMetadata.mint csvData ++ lit ": NFT not found"] |}
       | Some onChain =>
         if equals (OnChain.updateAuthority onChain) wallet then
           ret {| hasAuthority := hasAuthority report + 1;
                  noAuthority := noAuthority report;
                  notFound := notFound report;
                  issues := issues report |}
         else
           ret {| hasAuthority := hasAuthority report;
                  noAuthority := noAuthority report + 1;
                  notFound := notFound report;
                  issues := issues report
                            ++ [NFTMetadata.mint csvData
                                ++ lit ": Authority mismatch (required: "
                                ++ toBase58 (OnChain.updateAuthority onChain)
                                ++ lit ")"] |}
       end)
      (fun e =>
         ret {| hasAuthority := hasAuthority report;
                noAuthority := noAuthority report;
                notFound := notFound report + 1;
                issues := issues report
                          ++ [NFTMetadata.mint csvData ++ lit ": " ++ toText e] |})
  end%Z.

Fixpoint checkAll (csvMetadata : list NFTMetadata.t) (report : AuthorityReport)
    : M AuthorityReport :=
  match csvMetadata with
  | [] => ret report
  | csvData :: rest =>
    report <- checkOne csvData report ;;
    checkAll rest report
  end.

(** [checkAuthority], from the loop to the counters it prints. *)
Definition checkAuthority (csvMetadata : list NFTMetadata.t) : M AuthorityReport :=
  checkAll csvMetadata
    {| hasAuthority := 0; noAuthority := 0; notFound := 0; issues := [] |}.

End CheckAuthority.
End Tools.

(* ================================================================== *)
(** ** More vocabulary *)
(* ================================================================== *)

Module Observe.
Import Utils MetadataUpdater Index Props.

(** The number of results with a given status. *)
Definition countStatus (s : Status) (results : list ProcessResult.t) : Z :=
  Z.of_nat (List.length (filter (fun r => Status_eqb (ProcessResult.status r) s) results)).

(** The mints of the results with status [error], in order. *)
Definition failedOf (results : list ProcessResult.t) : list JsString :=
  map ProcessResult.mint
    (filter (fun r => Status_eqb (ProcessResult.status r) error) results).

(** The lists of failed mints written, oldest first. *)
Fixpoint savedFailed (evs : list Event) : list (list JsString) :=
  match evs with
  | [] => []
  | SavedFailedNFTs l :: rest => l :: savedFailed rest
  | _ :: rest => savedFailed rest
  end.

(** The summaries written, oldest first. *)
Fixpoint savedSummaries (evs : list Event) : list Summary.t :=
  match evs with
  | [] => []
  | SavedSummary s :: rest => s :: savedSummaries rest
  | _ :: rest => savedSummaries rest
  end.

(** The logs written to the log file, oldest first. *)
Fixpoint savedLogs (evs : list Event) : list (list ProcessResult.t) :=
  match evs with
  | [] => []
  | SavedLogs l :: rest => l :: savedLogs rest
  | _ :: rest => savedLogs rest
  end.

(** Every record of a batch has a mint that is a public key. *)
Definition allValid (batch : list NFTMetadata.t) : bool :=
  forallb (fun metadata => Tools.isValidPublicKey (NFTMetadata.mint metadata)) batch.

(** A result is that of a record: it carries the record's mint. *)
Definition resultOf (metadata : NFTMetadata.t) (result : ProcessResult.t) : Prop :=
  ProcessResult.mint result = NFTMetadata.mint metadata.

(** The mints of a list of records that are public keys, as keys. *)
Definition validMints (records : list NFTMetadata.t) : list PublicKey :=
  flat_map (fun metadata =>
              match Key.ofString (NFTMetadata.mint metadata) with
              | Ok mint => [mint]
              | Throw _ => []
              end) records.

(** The strings of a length-prefixed sequence, read as
    [parseMetadataAccount] reads them: the bytes of [count] strings
    starting at [offset], and the offset after them. *)
Fixpoint readStrings (data : Buffer) (offset : N) (count : nat)
    : Result (list Buffer * N) :=
  match count with
  | O => Ok ([], offset)
  | S count' =>
    len <-? readUInt32LE data offset ;;
    let bytes := slice data (offset + 4) (offset + 4 + len) in
    rest <-? readStrings data (offset + 4 + len) count' ;;
    Ok (bytes :: fst rest, snd rest)
  end.

Section Stable.
Context {P : Platform}.

(** A computation that leaves an observation of the world as it was. *)
Definition stable {X A} (obs : World -> X) (m : M A) : Prop :=
  forall w, obs (fst (m w)) = obs w.

(** The checkpoint file after a run: the last checkpoint written, or the
    file as it was. *)
Definition lastOr (file : option Checkpoint.t) (saved : list Checkpoint.t)
    : option Checkpoint.t :=
  match rev saved with
  | c :: _ => Some c
  | [] => file
  end.

(** A step of a retried submission of [t], as the world records it. *)
Definition eventOf (t : Transaction) (s : Step) : Event :=
  match s with
  | Invoked => Submitted t
  | Paused ms => Slept ms
  end.


End Stable.
End Observe.


(* ================================================================== *)
(** ** More scripted runs *)
(* ================================================================== *)

Module Cases.
Import Utils MetadataUpdater Index Props Scenario Tools Observe.

(** The summary a run ended with; an empty one when it did not complete. *)
Definition summaryOf (e : Exit) : Summary.t :=
  match e with
  | Completed summary => summary
  | _ => createSummary 0 0 0 0 0%float [] []
  end.

(** Five records in chunks of two, a checkpoint every two records, live. *)
Definition liveConfig : Config.t := configOf 2 2 false false.

(** The wallet owns every account: every record is updated. *)
Definition liveRun : World (P := scripted) * Exit :=
  main (P := scripted) liveConfig walletKey manifest true 10
    (worldOf (nodeOf walletKey 0) None).

(** A stranger owns every account: every record fails. *)
Definition strangerRun : World (P := scripted) * Exit :=
  main (P := scripted) liveConfig walletKey manifest true 10
    (worldOf (nodeOf strangerKey 0) None).

(** A manifest whose third record has a mint that is no base-58 text. *)
Definition badRecord : NFTMetadata.t := target (lit "not-a-mint").

Definition brokenManifest : list NFTMetadata.t :=
  firstn 2 manifest ++ badRecord :: skipn 2 manifest.

(** The account of the first mint as the metadata program stores the
    target strings: the name padded with NUL to 32 characters, the symbol
    to 10 and the uri to 200. *)
Definition paddedAccount : Buffer :=
  match syntheticAccount Byte.x04 (toBuffer walletKey) (repeat Byte.x00 32)
          (lit "Doge #1" ++ repeat 0%N 25) (lit "DOGE" ++ repeat 0%N 6)
          (lit "https://example.org/1.json" ++ repeat 0%N 174) [Byte.x01]
  with
  | Ok data => data
  | Throw _ => []
  end.

Definition paddedNode : Node :=
  {| accounts := [(firstMintKey, paddedAccount)]; fetchFailures := 0;
     sendFailures := 0; clock := lit "2025-01-01T00:00:00.000Z" |}.

(** A node that refuses the first [n] submissions. *)
Definition flakyNode (n : nat) : Node :=
  {| accounts := accountsOf walletKey; fetchFailures := 0;
     sendFailures := n; clock := lit "2025-01-01T00:00:00.000Z" |}.

(** The instruction that updates the first mint. *)
Definition firstInstruction : TransactionInstruction :=
  match createUpdateMetadataInstruction firstMintKey walletKey
          (lit "Doge #1") (lit "DOGE") (lit "https://example.org/1.json")
  with
  | Ok instruction => instruction
  | Throw _ => {| keys := []; programId := TOKEN_METADATA_PROGRAM_ID; data := [] |}
  end.

End Cases.

(* ================================================================== *)
(** * Properties *)
(* ================================================================== *)

Unset Implicit Arguments.

(** ** Strings and buffers *)

Module BufferFacts.
Local Open Scope N_scope.

Lemma str_eqb_eq (a b : JsString) : str_eqb a b = true <-> a = b.
Proof.
  unfold str_eqb. destruct (list_eq_dec N.eq_dec a b); split; congruence.
Qed.

Lemma str_eqb_refl (a : JsString) : str_eqb a a = true.
Proof. now apply str_eqb_eq. Qed.

Lemma to_N_byte_of_N n : n < 256 -> Byte.to_N (byte_of_N n) = n.
Proof.
  intros H. unfold byte_of_N. rewrite N.mod_small by exact H.
  destruct (Byte.of_N n) eqn:E.
  - now apply Byte.to_of_N.
  - apply Byte.of_N_None_iff in E. lia.
Qed.

Lemma to_N_byte_of_N_mod n : Byte.to_N (byte_of_N n) = n mod 256.
Proof.
  unfold byte_of_N.
  destruct (Byte.of_N (n mod 256)) eqn:E.
  - now apply Byte.to_of_N.
  - apply Byte.of_N_None_iff in E.
    pose proof (N.mod_upper_bound n 256). lia.
Qed.

Lemma blength_app (a b : Buffer) : blength (a ++ b) = blength a + blength b.
Proof. unfold blength. rewrite length_app. lia. Qed.

Lemma blength_cons (x : byte) (a : Buffer) : blength (x :: a) = 1 + blength a.
Proof. unfold blength. cbn [List.length]. lia. Qed.

Lemma skipn_blength (pre rest : Buffer) (off : N) :
  blength pre = off -> skipn (N.to_nat off) (pre ++ rest) = rest.
Proof.
  unfold blength. intros <-. rewrite Nat2N.id.
  rewrite skipn_app, skipn_all, Nat.sub_diag. reflexivity.
Qed.

(** A slice that covers exactly the middle part. *)
Lemma slice_middle (pre mid rest : Buffer) (start stop : N) :
  blength pre = start -> stop = start + blength mid ->
  slice (pre ++ mid ++ rest) start stop = mid.
Proof.
  intros Hs ->. unfold slice. rewrite (skipn_blength _ _ _ Hs).
  replace (start + blength mid - start) with (blength mid) by lia.
  unfold blength. rewrite Nat2N.id, firstn_app, firstn_all, Nat.sub_diag.
  cbn. now rewrite app_nil_r.
Qed.

(** Reading back the four bytes [writeUInt32LE] wrote. *)
Lemma read_written (pre rest l : Buffer) (off v : N) :
  blength pre = off -> writeUInt32LE v = Ok l ->
  readUInt32LE (pre ++ l ++ rest) off = Ok v.
Proof.
  intros Hoff Hw. unfold writeUInt32LE in Hw.
  destruct (N.ltb_spec v 4294967296); [|discriminate].
  injection Hw as <-. unfold readUInt32LE.
  rewrite (skipn_blength _ _ _ Hoff). cbn [app]. f_equal.
  unfold le32. rewrite !to_N_byte_of_N_mod.
  replace (v / 65536) with (v / 256 / 256)
    by (rewrite N.Div0.div_div; reflexivity).
  replace (v / 16777216) with (v / 256 / 256 / 256)
    by (rewrite !N.Div0.div_div; reflexivity).
  pose proof (N.div_mod v 256 ltac:(lia)) as E1.
  pose proof (N.div_mod (v / 256) 256 ltac:(lia)) as E2.
  pose proof (N.div_mod (v / 256 / 256) 256 ltac:(lia)) as E3.
  assert (E4 : v / 256 / 256 / 256 < 256).
  { rewrite !N.Div0.div_div. apply N.Div0.div_lt_upper_bound. exact H. }
  rewrite (N.mod_small _ _ E4).
  generalize dependent (v / 256 / 256 / 256). intros q3.
  generalize dependent ((v / 256 / 256) mod 256). intros r2.
  generalize dependent (v / 256 / 256). intros q2.
  generalize dependent ((v / 256) mod 256). intros r1.
  generalize dependent (v / 256). intros q1.
  generalize dependent (v mod 256). intros r0. intros. lia.
Qed.

Lemma written_length (l : Buffer) (v : N) :
  writeUInt32LE v = Ok l -> blength l = 4.
Proof.
  unfold writeUInt32LE. destruct (v <? 4294967296); [|discriminate].
  now intros [= <-].
Qed.

(** A read needs its four bytes. *)
Lemma read_short (data : Buffer) (off : N) :
  blength data < off + 4 -> readUInt32LE data off = Throw RangeError.
Proof.
  unfold blength, readUInt32LE. intros H.
  assert (L : (List.length (skipn (N.to_nat off) data) < 4)%nat)
    by (rewrite length_skipn; lia).
  destruct (skipn (N.to_nat off) data) as [|? [|? [|? [|? ?]]]];
    cbn [List.length] in L; try reflexivity; lia.
Qed.

Lemma read_inside (data : Buffer) (off : N) :
  off + 4 <= blength data -> exists v, readUInt32LE data off = Ok v.
Proof.
  unfold blength, readUInt32LE. intros H.
  assert (L : (4 <= List.length (skipn (N.to_nat off) data))%nat)
    by (rewrite length_skipn; lia).
  destruct (skipn (N.to_nat off) data) as [|? [|? [|? [|? ?]]]];
    cbn [List.length] in L; try lia. eauto.
Qed.

Lemma read_ok_inside (data : Buffer) (off v : N) :
  readUInt32LE data off = Ok v -> off + 4 <= blength data.
Proof.
  intros H. destruct (N.le_gt_cases (off + 4) (blength data)) as [|G]; [assumption|].
  rewrite (read_short _ _ G) in H. discriminate.
Qed.

Lemma be_value_from (l : Buffer) (acc k : N) :
  acc < 256 ^ k ->
  fold_left (fun a b => a * 256 + Byte.to_N b) l acc < 256 ^ (k + blength l).
Proof.
  revert acc k. induction l as [|b l IH]; intros acc k Hk.
  - unfold blength. cbn [List.length N.of_nat fold_left]. now rewrite N.add_0_r.
  - cbn [fold_left]. rewrite blength_cons.
    replace (k + (1 + blength l)) with ((k + 1) + blength l) by lia.
    apply IH. rewrite N.pow_add_r, N.pow_1_r.
    pose proof (Byte.to_N_bounded b). lia.
Qed.

Lemma be_value_bound (bs : Buffer) : be_value bs < 256 ^ blength bs.
Proof.
  unfold be_value. apply (be_value_from bs 0 0). cbn. lia.
Qed.

Lemma byteLength_bound (n k : N) : n < 256 ^ k -> byteLength n <= k.
Proof.
  intros H. unfold byteLength.
  assert (S : N.size n <= 8 * k).
  { destruct (N.le_gt_cases (N.size n) (8 * k)) as [|G]; [assumption|exfalso].
    pose proof (N.size_le n) as L. rewrite N.succ_double_spec in L.
    assert (M : 2 ^ (8 * k + 1) <= 2 ^ N.size n) by (apply N.pow_le_mono_r; lia).
    rewrite N.pow_add_r, N.pow_mul_r in M. change (2 ^ 8) with 256 in M.
    change (2 ^ 1) with 2 in M. lia. }
  lia.
Qed.

(** Any 32 bytes are a key. *)
Lemma ofBuffer_32 (bs : Buffer) :
  blength bs <= 32 -> Key.ofBuffer bs = Ok {| bn := be_value bs |}.
Proof.
  intros H. unfold Key.ofBuffer, PUBLIC_KEY_LENGTH.
  pose proof (byteLength_bound _ _ (be_value_bound bs)).
  destruct (N.ltb_spec 32 (byteLength (be_value bs))); [lia|reflexivity].
Qed.

Lemma slice_length (data : Buffer) (start stop : N) :
  blength (slice data start stop) <= stop - start.
Proof.
  unfold slice, blength. rewrite length_firstn. lia.
Qed.

End BufferFacts.

(** ** The codec *)

Module CodecFacts.
Import BufferFacts Utf8 MetadataUpdater Props.
Local Open Scope N_scope.

Lemma in_range_spec lo hi x : in_range lo hi x = true <-> lo <= x <= hi.
Proof. unfold in_range. rewrite andb_true_iff, !N.leb_le. tauto. Qed.

Lemma in_range_true lo hi x : lo <= x <= hi -> in_range lo hi x = true.
Proof. apply in_range_spec. Qed.

Lemma in_range_false lo hi x : x < lo \/ hi < x -> in_range lo hi x = false.
Proof.
  intros H. destruct (in_range lo hi x) eqn:E; [|reflexivity].
  apply in_range_spec in E. lia.
Qed.

Ltac solve_cond :=
  unfold is_cont, second_lo, second_hi;
  repeat match goal with
         | |- context [?a =? ?b] => destruct (N.eqb_spec a b)
         end;
  first [ apply in_range_true; lia | apply in_range_false; lia
        | apply N.ltb_lt; lia | apply N.ltb_ge; lia ].

(** Decides the test of the conditional at the head of the goal. *)
Ltac step_if :=
  match goal with
  | |- (if ?c then _ else _) = _ =>
      first [ replace c with true by (symmetry; solve_cond)
            | replace c with false by (symmetry; solve_cond) ]
  end.

(** Decoding what one scalar value encodes to gives it back. *)
Lemma decode_encode_cp c tl :
  scalar c = true -> decode (encode_cp c ++ tl) = c :: decode tl.
Proof.
  unfold scalar. intros H.
  apply andb_prop in H as [H1 H2]. apply N.ltb_lt in H1.
  apply negb_true_iff in H2.
  unfold encode_cp. rewrite H2.
  assert (~ (0xD800 <= c <= 0xDFFF)) by (rewrite <- in_range_spec; congruence).
  destruct (N.ltb_spec c 0x80).
  { cbn [app decode]. rewrite to_N_byte_of_N by lia.
    step_if. reflexivity. }
  destruct (N.ltb_spec c 0x800).
  { cbn [app decode]. rewrite !to_N_byte_of_N by lia.
    repeat step_if. f_equal. lia. }
  destruct (N.ltb_spec c 0x10000).
  { cbn [app decode]. rewrite !to_N_byte_of_N by lia.
    repeat step_if. f_equal. lia. }
  destruct (N.ltb_spec c 0x110000); [|lia].
  cbn [app decode]. rewrite !to_N_byte_of_N by lia.
  repeat step_if. f_equal. lia.
Qed.

(** [buf.toString('utf-8')] undoes [Buffer.from(str, 'utf8')] on a string
    without lone surrogates. *)
Lemma decode_encode s : wellFormed s = true -> decode (encode s) = s.
Proof.
  unfold wellFormed, encode.
  induction s as [|c s IH]; cbn [forallb flat_map]; intros H.
  - reflexivity.
  - apply andb_prop in H as [Hc Hs].
    rewrite decode_encode_cp by exact Hc. f_equal. apply IH, Hs.
Qed.

Lemma encodeString_inv s bytes :
  encodeString s = Ok bytes ->
  exists l, writeUInt32LE (blength (encode s)) = Ok l /\ bytes = l ++ encode s.
Proof.
  unfold encodeString, rbind.
  destruct (writeUInt32LE (blength (encode s))) as [l|]; [|discriminate].
  intros [= <-]. eauto.
Qed.

Lemma encodeString_ok s :
  blength (encode s) < 4294967296 -> exists bytes, encodeString s = Ok bytes.
Proof.
  intros H. unfold encodeString, rbind, writeUInt32LE.
  destruct (N.ltb_spec (blength (encode s)) 4294967296); [eauto|lia].
Qed.

(** Reading one encoded string that starts at [off]. *)
Lemma string_step data pre s bytes rest off :
  data = pre ++ bytes ++ rest -> blength pre = off -> encodeString s = Ok bytes ->
  readUInt32LE data off = Ok (blength (encode s))
  /\ slice data (off + 4) (off + 4 + blength (encode s)) = encode s
  /\ blength (pre ++ bytes) = off + 4 + blength (encode s).
Proof.
  intros -> Hoff He. apply encodeString_inv in He as (l & Hl & ->).
  pose proof (written_length _ _ Hl) as L4.
  repeat split.
  - rewrite <- app_assoc. now apply read_written.
  - replace (pre ++ (l ++ encode s) ++ rest)
      with ((pre ++ l) ++ encode s ++ rest) by (now rewrite <- !app_assoc).
    apply slice_middle; [rewrite blength_app; lia|reflexivity].
  - rewrite !blength_app. lia.
Qed.

Lemma remove_nul_dropLeadingNul s : remove_nul (dropLeadingNul s) = remove_nul s.
Proof.
  induction s as [|c s IH]; [reflexivity|].
  cbn [dropLeadingNul]. destruct (N.eqb_spec c 0) as [->|Hc]; [|reflexivity].
  rewrite IH. reflexivity.
Qed.

Lemma remove_nul_nulFree s : nulFree s = true -> remove_nul s = s.
Proof.
  unfold nulFree, remove_nul. induction s as [|c s IH]; cbn [forallb filter]; intros H.
  - reflexivity.
  - apply andb_prop in H as [Hc Hs]. rewrite Hc. f_equal. auto.
Qed.

Lemma nulFree_rev s : nulFree (rev s) = nulFree s.
Proof.
  unfold nulFree. induction s as [|c s IH]; [reflexivity|].
  cbn [rev forallb]. rewrite forallb_app, IH. cbn [forallb].
  rewrite andb_true_r. apply andb_comm.
Qed.

(** Removing every NUL strips the trailing padding when the string has no
    other NUL. *)
Lemma remove_nul_strips s :
  nulFree (stripTrailingNul s) = true -> remove_nul s = stripTrailingNul s.
Proof.
  unfold stripTrailingNul. intros H. rewrite nulFree_rev in H.
  rewrite <- (rev_involutive s) at 1. unfold remove_nul at 1.
  rewrite filter_rev. fold (remove_nul (rev s)).
  rewrite <- remove_nul_dropLeadingNul, (remove_nul_nulFree _ H). reflexivity.
Qed.

(** C6 as the spec words it fails: a NUL inside a string is removed too. *)
Lemma interior_nul_is_removed :
  let name := [97; 0; 98] in
  wellFormed name = true
  /\ nulFree (stripTrailingNul name) = false
  /\ exists data parsed,
       syntheticAccount Byte.x04 (repeat Byte.x00 32) (repeat Byte.x00 32)
         name [] [] [] = Ok data
       /\ parseMetadataAccount data = Ok parsed
       /\ OnChain.name parsed = [97; 98]
       /\ OnChain.name parsed <> stripTrailingNul name.
Proof.
  cbv zeta. split; [reflexivity|]. split; [reflexivity|].
  eexists. eexists. split; [reflexivity|]. split; [reflexivity|].
  split; [reflexivity|]. cbn. discriminate.
Qed.

(** C6, amended: for strings without lone surrogates whose UTF-8 form fits
    a 32-bit length, the account bytes can be built, and decoding them gives
    back the authority and each string with every NUL removed; that is the
    string with its trailing NUL padding stripped when it has no other
    NUL. *)
Theorem parse_synthetic_account key authority mint name symbol uri rest :
  blength authority = 32 -> blength mint = 32 ->
  wellFormed name = true -> wellFormed symbol = true -> wellFormed uri = true ->
  blength (encode name) < 4294967296 ->
  blength (encode symbol) < 4294967296 ->
  blength (encode uri) < 4294967296 ->
  exists data,
    syntheticAccount key authority mint name symbol uri rest = Ok data
    /\ parseMetadataAccount data =
         Ok {| OnChain.name := remove_nul name;
               OnChain.symbol := remove_nul symbol;
               OnChain.uri := remove_nul uri;
               OnChain.updateAuthority := {| bn := be_value authority |} |}
    /\ (nulFree (stripTrailingNul name) = true ->
        remove_nul name = stripTrailingNul name)
    /\ (nulFree (stripTrailingNul symbol) = true ->
        remove_nul symbol = stripTrailingNul symbol)
    /\ (nulFree (stripTrailingNul uri) = true ->
        remove_nul uri = stripTrailingNul uri).
Proof.
  intros La Lm Wn Ws Wu Bn Bs Bu.
  destruct (encodeString_ok name Bn) as [n En].
  destruct (encodeString_ok symbol Bs) as [s Es].
  destruct (encodeString_ok uri Bu) as [u Eu].
  unfold syntheticAccount. rewrite En, Es, Eu. cbn [rbind].
  eexists. split; [reflexivity|].
  split; [|auto using remove_nul_strips].
  set (data := [key] ++ authority ++ mint ++ n ++ s ++ u ++ rest).
  set (pre1 := [key] ++ authority ++ mint).
  assert (L1 : blength pre1 = 1 + 32 + 32)
    by (unfold pre1; rewrite !blength_app, La, Lm; reflexivity).
  destruct (string_step data pre1 name n (s ++ u ++ rest) _
              ltac:(unfold data, pre1; now rewrite <- !app_assoc) L1 En)
    as (R1 & S1 & L2).
  destruct (string_step data (pre1 ++ n) symbol s (u ++ rest) _
              ltac:(unfold data, pre1; now rewrite <- !app_assoc) L2 Es)
    as (R2 & S2 & L3).
  destruct (string_step data ((pre1 ++ n) ++ s) uri u rest _
              ltac:(unfold data, pre1; now rewrite <- !app_assoc) L3 Eu)
    as (R3 & S3 & _).
  unfold parseMetadataAccount.
  replace (slice data 1 (1 + 32)) with authority.
  2:{ symmetry. unfold data. apply slice_middle; [reflexivity|lia]. }
  rewrite ofBuffer_32 by lia. cbn [rbind].
  rewrite R1. cbn [rbind]. rewrite S1.
  rewrite R2. cbn [rbind]. rewrite S2.
  rewrite R3. cbn [rbind]. rewrite S3.
  rewrite !decode_encode by assumption. reflexivity.
Qed.

(** A padded name, a plain symbol and a uri of two non-ASCII characters,
    with one byte after the strings. *)
Lemma parse_synthetic_account_witness :
  exists data,
    syntheticAccount Byte.x04 (repeat Byte.x00 32) (repeat Byte.xff 32)
      (lit "Doge #1" ++ [0; 0; 0]) (lit "DOGE") [0x1F415; 0x20AC] [Byte.x2a] = Ok data
    /\ parseMetadataAccount data =
         Ok {| OnChain.name := remove_nul (lit "Doge #1" ++ [0; 0; 0]);
               OnChain.symbol := remove_nul (lit "DOGE");
               OnChain.uri := remove_nul [0x1F415; 0x20AC];
               OnChain.updateAuthority := {| bn := be_value (repeat Byte.x00 32) |} |}
    /\ (nulFree (stripTrailingNul (lit "Doge #1" ++ [0; 0; 0])) = true ->
        remove_nul (lit "Doge #1" ++ [0; 0; 0])
        = stripTrailingNul (lit "Doge #1" ++ [0; 0; 0]))
    /\ (nulFree (stripTrailingNul (lit "DOGE")) = true ->
        remove_nul (lit "DOGE") = stripTrailingNul (lit "DOGE"))
    /\ (nulFree (stripTrailingNul [0x1F415; 0x20AC]) = true ->
        remove_nul [0x1F415; 0x20AC] = stripTrailingNul [0x1F415; 0x20AC]).
Proof.
  apply (parse_synthetic_account Byte.x04 (repeat Byte.x00 32) (repeat Byte.xff 32)
           (lit "Doge #1" ++ [0; 0; 0]) (lit "DOGE") [0x1F415; 0x20AC] [Byte.x2a]);
    reflexivity.
Defined.

(** C9 as the spec words it fails: bytes that end inside the uri decode, the
    uri cut to what is there. *)
Lemma short_uri_is_decoded :
  let raw := repeat Byte.x00 65
             ++ [Byte.x00; Byte.x00; Byte.x00; Byte.x00]
             ++ [Byte.x00; Byte.x00; Byte.x00; Byte.x00]
             ++ [Byte.x05; Byte.x00; Byte.x00; Byte.x00]
             ++ [Byte.x61; Byte.x62] in
  uriEnd raw = 82
  /\ blength raw = 79
  /\ blength raw < uriEnd raw
  /\ parseMetadataAccount raw =
       Ok {| OnChain.name := []; OnChain.symbol := []; OnChain.uri := [97; 98];
             OnChain.updateAuthority := {| bn := 0 |} |}.
Proof.
  cbv zeta. repeat split.
Qed.

(** C9, amended: decoding fails, with the range error of a read, exactly
    when the bytes end before one of the three length prefixes does;
    otherwise it gives the record whose strings are the slices the
    prefixes announce, each cut to the bytes that are there. *)
Theorem parse_fails_iff_prefix_cut raw :
  match parseMetadataAccount raw with
  | Throw e => e = RangeError /\ cutsPrefix raw = true
  | Ok parsed =>
    cutsPrefix raw = false
    /\ let nameLength := lengthAt raw 65 in
       let symbolLength := lengthAt raw (69 + nameLength) in
       let uriLength := lengthAt raw (73 + nameLength + symbolLength) in
       parsed =
         {| OnChain.name :=
              remove_nul (decode (slice raw 69 (69 + nameLength)));
            OnChain.symbol :=
              remove_nul (decode (slice raw (73 + nameLength)
                                    (73 + nameLength + symbolLength)));
            OnChain.uri :=
              remove_nul (decode (slice raw (77 + nameLength + symbolLength)
                                    (77 + nameLength + symbolLength + uriLength)));
            OnChain.updateAuthority := {| bn := be_value (slice raw 1 33) |} |}
  end.
Proof.
  unfold parseMetadataAccount, cutsPrefix, prefixEnds, lengthAt.
  change (1 + 32)%N with 33. change (33 + 32) with 65.
  rewrite ofBuffer_32 by (pose proof (slice_length raw 1 33); lia).
  cbn [rbind existsb].
  destruct (N.ltb_spec (blength raw) 69) as [C1|C1].
  { rewrite (read_short raw 65) by lia. cbn [rbind orb]. auto. }
  destruct (read_inside raw 65 ltac:(lia)) as [n Rn]. rewrite Rn. cbn [rbind orb].
  replace (65 + 4 + n) with (69 + n) by lia.
  destruct (N.ltb_spec (blength raw) (73 + n)) as [C2|C2].
  { rewrite (read_short raw (69 + n)) by lia. cbn [rbind orb]. auto. }
  destruct (read_inside raw (69 + n) ltac:(lia)) as [s Rs]. rewrite Rs.
  cbn [rbind orb].
  replace (69 + n + 4 + s) with (73 + n + s) by lia.
  destruct (N.ltb_spec (blength raw) (77 + n + s)) as [C3|C3].
  { rewrite (read_short raw (73 + n + s)) by lia. cbn [rbind orb]. auto. }
  destruct (read_inside raw (73 + n + s) ltac:(lia)) as [u Ru]. rewrite Ru.
  cbn [rbind orb]. split; [reflexivity|]. cbv zeta.
  replace (65 + 4) with 69 by reflexivity.
  replace (69 + n + 4) with (73 + n) by lia.
  replace (73 + n + s + 4) with (77 + n + s) by lia.
  reflexivity.
Qed.

End CodecFacts.

(** ** Bounded retry *)

Module RetryFacts.
Import Utils Props.



Lemma failedAttempts_S (d : Z) (first n : nat) :
  failedAttempts d first (S n)
  = [Invoked; Paused (d * 2 ^ Z.of_nat first)%Z] ++ failedAttempts d (S first) n.
Proof. reflexivity. Qed.



Section Probe.
Variables U T : Type.
Variable fn : U -> U * Result T.
Variable r : nat.
Variable d : Z.
Variable u : U.


Lemma probeCall_step (p : Probe U) (c : nat) :
  inner p = stateBefore fn u c ->
  let p1 := fst (probeCall fn p) in
  inner p1 = stateBefore fn u (S c)
  /\ trace p1 = trace p ++ [Invoked] /\ snd (probeCall fn p) = outcomeOf fn u c.
Proof.
  intros Hi. unfold probeCall, outcomeOf. cbn [stateBefore].
  rewrite <- Hi. destruct (fn (inner p)) as [u1 r1]. cbn. auto.
Qed.

(** The loop, entered with [passes] passes to go after [c] invocations:
    it makes [m] more, each failed one but the last followed by its
    sleep. *)
Lemma retry_from_probe (passes : nat) :
  forall (c : nat) (last : option JsError) (p : Probe U),
    passes <= r + 1 ->
    inner p = stateBefore fn u c ->
    let run := retry_from probeSleep (probeCall fn) (Z.of_nat r) d passes
                 (Z.of_nat (r + 1 - passes)) last p in
    exists m,
      m <= passes
      /\ (m = 0 -> passes = 0)
      /\ inner (fst run) = stateBefore fn u (c + m)
      /\ (forall j, j < m - 1 -> failed (outcomeOf fn u (c + j)))
      /\ (0 < m -> snd run = outcomeOf fn u (c + m - 1))
      /\ trace (fst run)
         = trace p
           ++ match m with
              | O => []
              | S k => failedAttempts d (r + 1 - passes) k ++ [Invoked]
              end
      /\ (failed (snd run) -> m = passes).
Proof.
  induction passes as [|passes' IH]; intros c last p Hle Hi run.
  - exists 0. subst run. cbn [retry_from fst snd].
    rewrite Nat.add_0_r, app_nil_r. repeat split; auto; lia.
  - destruct (probeCall_step p c Hi) as (Hi1 & Ht1 & Ho).
    subst run. cbn [retry_from].
    destruct (probeCall fn p) as [p1 r1] eqn:E. cbn [fst snd] in *.
    destruct r1 as [v|e].
    + (* the invocation succeeds *)
      exists 1. cbn [fst snd failedAttempts seq flat_map app].
      replace (c + 1 - 1) with c by lia. replace (c + 1) with (S c) by lia.
      repeat split; auto; try lia. intros [].
    + (* it fails *)
      destruct passes' as [|passes''].
      * (* the last pass: no sleep, the error goes out *)
        exists 1. replace (Z.of_nat (r + 1 - 1) <? Z.of_nat r)%Z with false
          by (symmetry; apply Z.ltb_ge; lia).
        cbn [retry_from fst snd failedAttempts seq flat_map app].
        replace (c + 1 - 1) with c by lia. replace (c + 1) with (S c) by lia.
        repeat split; auto; lia.
      * replace (Z.of_nat (r + 1 - S (S passes'')) <? Z.of_nat r)%Z with true
          by (symmetry; apply Z.ltb_lt; lia).
        replace (Z.of_nat (r + 1 - S (S passes'')) + 1)%Z
          with (Z.of_nat (r + 1 - S passes'')) by lia.
        set (p2 := probeSleep (d * 2 ^ Z.of_nat (r + 1 - S (S passes''))) p1).
        destruct (IH (S c) (Some e) p2 ltac:(lia) Hi1)
          as (m & Hm & Hm0 & Hinner & Hfail & Hres & Htr & Hall).
        assert (0 < m) by (destruct m; [specialize (Hm0 eq_refl); lia | lia]).
        exists (S m).
        replace (c + S m) with (S c + m) by lia.
        replace (c + S m - 1) with (S c + m - 1) by lia.
        split; [lia|]. split; [lia|]. split; [assumption|]. split.
        { intros j Hj. destruct j as [|j].
          - rewrite Nat.add_0_r, <- Ho. exact I.
          - replace (c + S j) with (S c + j) by lia. apply Hfail. lia. }
        split; [auto|]. split.
        { rewrite Htr. unfold p2, probeSleep. cbn [trace]. rewrite Ht1.
          destruct m as [|k]; [lia|].
          rewrite failedAttempts_S, <- !app_assoc. cbn [app].
          replace (S (r + 1 - S (S passes''))) with (r + 1 - S passes'') by lia.
          reflexivity. }
        intros F. specialize (Hall F). lia.
Qed.



End Probe.
End RetryFacts.

(** ** The update of one record *)

Module UpdateFacts.
Import Utils MetadataUpdater Props.

Lemma submissions_app (a b : list Event) :
  submissions (a ++ b) = submissions a ++ submissions b.
Proof. induction a as [|[] a IH]; cbn; congruence. Qed.

Lemma fetches_app (a b : list Event) : fetches (a ++ b) = fetches a ++ fetches b.
Proof. induction a as [|[] a IH]; cbn; congruence. Qed.

Lemma sleeps_app (a b : list Event) : sleeps (a ++ b) = sleeps a ++ sleeps b.
Proof. induction a as [|[] a IH]; cbn; congruence. Qed.

Lemma savedCheckpoints_app (a b : list Event) :
  savedCheckpoints (a ++ b) = savedCheckpoints a ++ savedCheckpoints b.
Proof. induction a as [|[] a IH]; cbn; congruence. Qed.

Section Engine.
Context {P : Platform}.

Lemma bind_ok_inv {A B} (m : M A) (k : A -> M B) (w w' : World) (b : B) :
  bind m k w = (w', Ok b) ->
  exists w1 a, m w = (w1, Ok a) /\ k a w1 = (w', Ok b).
Proof.
  unfold bind. destruct (m w) as [w1 [a|e]]; [eauto|discriminate].
Qed.

Lemma ret_inv {A} (a b : A) (w w' : World) :
  ret a w = (w', Ok b) -> w' = w /\ b = a.
Proof. unfold ret. intros [= -> ->]. auto. Qed.

(** A [try] whose handler returns a value never throws. *)
Lemma try_catch_total {A} (body : M A) (h : JsError -> A) (Q : A -> Prop) (w : World) :
  (forall w' a, body w = (w', Ok a) -> Q a) -> (forall e, Q (h e)) ->
  exists a, snd (try_catch body (fun e => ret (h e)) w) = Ok a /\ Q a.
Proof.
  intros Hb Hh. unfold try_catch, ret.
  destruct (body w) as [w1 [a|e]]; cbn [snd]; eauto.
Qed.

(** [fetchCurrentMetadata] never throws: whatever the node answers, an
    error included, it completes, with [null] for all but a decodable
    account. *)
Lemma fetchCurrentMetadata_spec (mint : PublicKey) (w : World) :
  fetchCurrentMetadata mint w =
    (afterFetch (getMetadataAccount mint)
       (fst (getAccountInfo (getMetadataAccount mint) (remote w))) w,
     Ok (decoded (snd (getAccountInfo (getMetadataAccount mint) (remote w))))).
Proof.
  unfold fetchCurrentMetadata, try_catch, bind, rpcGetAccountInfo, afterFetch, decoded.
  destruct (getAccountInfo (getMetadataAccount mint) (remote w)) as [r [[data|]|e]];
    cbn [fst snd]; try reflexivity.
  unfold lift, ret. destruct (parseMetadataAccount data); reflexivity.
Qed.

(** An operation that completes at once is invoked once, with no sleep. *)
Lemma retry_first_success {T} (fn : M T) (maxRetries retryDelayMs : Z)
    (w w1 : World) (v : T) :
  (0 <= maxRetries)%Z -> fn w = (w1, Ok v) ->
  retry fn maxRetries retryDelayMs w = (w1, Ok v).
Proof.
  intros Hr Hfn. unfold retry, retryWithBackoff.
  destruct (Z.to_nat (maxRetries + 1)) as [|passes] eqn:E; [lia|].
  cbn [retry_from]. rewrite Hfn. reflexivity.
Qed.

Lemma retry_fetch (mint : PublicKey) (maxRetries retryDelayMs : Z) (w : World) :
  (0 <= maxRetries)%Z ->
  retry (fetchCurrentMetadata mint) maxRetries retryDelayMs w
  = fetchCurrentMetadata mint w.
Proof.
  intros Hr. rewrite (fetchCurrentMetadata_spec mint w).
  apply retry_first_success; [exact Hr|apply fetchCurrentMetadata_spec].
Qed.

(** The update up to the answer of the fetch, for a mint that parses. *)
Lemma update_after_fetch (wallet : PublicKey) (metadata : NFTMetadata.t)
    (dryRun : bool) (maxRetries retryDelayMs : Z) (w : World) (mint : PublicKey) :
  (0 <= maxRetries)%Z ->
  Key.ofString (NFTMetadata.mint metadata) = Ok mint ->
  let account := getMetadataAccount mint in
  let answer := getAccountInfo account (remote w) in
  let w1 := afterFetch account (fst answer) w in
  let timestamp := toISOString (remote w) in
  updateNFTMetadata wallet metadata dryRun maxRetries retryDelayMs w =
    match decoded (snd answer) with
    | None =>
      (w1, Ok (errorResult (NFTMetadata.mint metadata)
                 (lit "Failed to fetch current metadata") timestamp))
    | Some current =>
      if negb (equals (OnChain.updateAuthority current) wallet) then
        (w1, Ok (errorResult (NFTMetadata.mint metadata)
                   (mismatchMessage wallet (OnChain.updateAuthority current))
                   timestamp))
      else if negb (isMetadataDifferent current metadata) then
        (w1, Ok (skippedResult (NFTMetadata.mint metadata) timestamp))
      else if dryRun then
        (w1, Ok (updatedResult metadata current
                   (Some (lit "dry run - would update")) None timestamp))
      else
        try_catch
          (updateInstruction <-
             lift (createUpdateMetadataInstruction account wallet
                     (NFTMetadata.name metadata) (NFTMetadata.symbol metadata)
                     (NFTMetadata.uri metadata)) ;;
           signature <-
             retry (rpcSendAndConfirm
                      {| instructions := [updateInstruction]; feePayer := wallet |}
                      wallet)
                   maxRetries retryDelayMs ;;
           ret (updatedResult metadata current None (Some signature) timestamp))
          (fun e => ret (errorResult (NFTMetadata.mint metadata) (describe e)
                           timestamp))
          w1
    end.
Proof.
  intros Hr Hm. cbv zeta.
  unfold updateNFTMetadata. unfold bind at 1. unfold now at 1.
  unfold bind at 1. unfold lift at 1. rewrite Hm.
  unfold try_catch at 1. unfold bind at 1.
  rewrite (retry_fetch mint maxRetries retryDelayMs w Hr).
  rewrite fetchCurrentMetadata_spec.
  destruct (decoded (snd (getAccountInfo (getMetadataAccount mint) (remote w))))
    as [current|]; [|reflexivity].
  destruct (negb (equals (OnChain.updateAuthority current) wallet)); [reflexivity|].
  destruct (negb (isMetadataDifferent current metadata)); [reflexivity|].
  destruct dryRun; reflexivity.
Qed.

(** C2 fails on the code: the mint is parsed before the [try], so a mint
    that is no public key makes the update throw, with the world
    untouched. *)
Theorem update_throws_on_unparsable_mint (wallet : PublicKey)
    (metadata : NFTMetadata.t) (dryRun : bool) (maxRetries retryDelayMs : Z)
    (w : World) (e : JsError) :
  Key.ofString (NFTMetadata.mint metadata) = Throw e ->
  updateNFTMetadata wallet metadata dryRun maxRetries retryDelayMs w = (w, Throw e).
Proof.
  intros Hm. unfold updateNFTMetadata, bind, now, lift. rewrite Hm. reflexivity.
Qed.

(** Past the parsing of the mint nothing is thrown: every other failure
    becomes a result, and a result carries the mint of its record. *)
Lemma update_completes_when_mint_parses (wallet : PublicKey)
    (metadata : NFTMetadata.t) (dryRun : bool) (maxRetries retryDelayMs : Z)
    (w : World) (mint : PublicKey) :
  Key.ofString (NFTMetadata.mint metadata) = Ok mint ->
  exists result,
    snd (updateNFTMetadata wallet metadata dryRun maxRetries retryDelayMs w) = Ok result
    /\ ProcessResult.mint result = NFTMetadata.mint metadata.
Proof.
  intros Hm. unfold updateNFTMetadata. unfold bind at 1. unfold now at 1.
  unfold bind at 1. unfold lift at 1. rewrite Hm.
  apply (try_catch_total _
           (fun e => errorResult (NFTMetadata.mint metadata) (describe e)
                       (toISOString (remote w)))
           (fun a => ProcessResult.mint a = NFTMetadata.mint metadata));
    [|reflexivity].
  intros w' a H.
  apply bind_ok_inv in H as (w1 & current & _ & H).
  destruct current as [current|];
    [|apply ret_inv in H as [_ ->]; reflexivity].
  destruct (negb (equals (OnChain.updateAuthority current) wallet));
    [apply ret_inv in H as [_ ->]; reflexivity|].
  destruct (negb (isMetadataDifferent current metadata));
    [apply ret_inv in H as [_ ->]; reflexivity|].
  destruct dryRun; [apply ret_inv in H as [_ ->]; reflexivity|].
  apply bind_ok_inv in H as (w2 & instruction & _ & H).
  apply bind_ok_inv in H as (w3 & signature & _ & H).
  apply ret_inv in H as [_ ->]. reflexivity.
Qed.

(** Any way the update completes, the result names the record's mint. *)
Lemma update_result_mint (wallet : PublicKey) (metadata : NFTMetadata.t)
    (dryRun : bool) (maxRetries retryDelayMs : Z) (w w' : World)
    (result : ProcessResult.t) :
  updateNFTMetadata wallet metadata dryRun maxRetries retryDelayMs w = (w', Ok result) ->
  ProcessResult.mint result = NFTMetadata.mint metadata.
Proof.
  intros H.
  destruct (Key.ofString (NFTMetadata.mint metadata)) as [mint|e] eqn:Hm.
  - destruct (update_completes_when_mint_parses wallet metadata dryRun maxRetries
                retryDelayMs w mint Hm) as (res & Hres & Hmint).
    rewrite H in Hres. cbn in Hres. congruence.
  - unfold updateNFTMetadata, bind, now, lift in H. rewrite Hm in H. discriminate.
Qed.

(** C4 fails on the code: a network error of the read is swallowed inside
    [fetchCurrentMetadata], so the retry around it sees a success.  With
    any retry budget the account is read once, nothing is slept, and the
    record fails at once, exactly as for an account that does not
    exist. *)
Theorem fetch_error_is_not_retried (wallet : PublicKey) (metadata : NFTMetadata.t)
    (dryRun : bool) (maxRetries retryDelayMs : Z) (w : World) (mint : PublicKey)
    (r : Remote) (answer : Result (option Buffer)) :
  (0 <= maxRetries)%Z ->
  Key.ofString (NFTMetadata.mint metadata) = Ok mint ->
  getAccountInfo (getMetadataAccount mint) (remote w) = (r, answer) ->
  failed answer \/ answer = Ok None ->
  updateNFTMetadata wallet metadata dryRun maxRetries retryDelayMs w =
    (afterFetch (getMetadataAccount mint) r w,
     Ok (errorResult (NFTMetadata.mint metadata)
           (lit "Failed to fetch current metadata") (toISOString (remote w))))
  /\ fetches (events (afterFetch (getMetadataAccount mint) r w))
     = fetches (events w) ++ [getMetadataAccount mint]
  /\ sleeps (events (afterFetch (getMetadataAccount mint) r w)) = sleeps (events w).
Proof.
  intros Hr Hm Hg Ha.
  rewrite (update_after_fetch wallet metadata dryRun maxRetries retryDelayMs w mint Hr Hm).
  cbv zeta. rewrite Hg. cbn [fst snd].
  assert (D : decoded answer = None).
  { destruct Ha as [F| ->]; [|reflexivity]. destruct answer; [destruct F|reflexivity]. }
  rewrite D. split; [reflexivity|].
  unfold afterFetch, emit, with_remote. cbn [events].
  rewrite fetches_app, sleeps_app. cbn. now rewrite app_nil_r.
Qed.

(** C5: when the decoded authority is not the caller's key the update
    ends at once with a result of status [error] whose error text names
    both keys, the caller's as expected and the account's as found, and
    which has no signature; the account was read once, nothing was slept
    and nothing submitted. *)
Theorem authority_mismatch_is_final (wallet : PublicKey) (metadata : NFTMetadata.t)
    (dryRun : bool) (maxRetries retryDelayMs : Z) (w : World) (mint : PublicKey)
    (r : Remote) (data : Buffer) (current : OnChain.t) :
  (0 <= maxRetries)%Z ->
  Key.ofString (NFTMetadata.mint metadata) = Ok mint ->
  getAccountInfo (getMetadataAccount mint) (remote w) = (r, Ok (Some data)) ->
  parseMetadataAccount data = Ok current ->
  equals (OnChain.updateAuthority current) wallet = false ->
  let w1 := afterFetch (getMetadataAccount mint) r w in
  updateNFTMetadata wallet metadata dryRun maxRetries retryDelayMs w =
    (w1,
     Ok {| ProcessResult.mint := NFTMetadata.mint metadata;
           ProcessResult.status := error;
           ProcessResult.action := None;
           ProcessResult.oldValues := None;
           ProcessResult.newValues := None;
           ProcessResult.error :=
             Some (lit "Update authority mismatch. Expected: " ++ toBase58 wallet
                   ++ lit ", Found: " ++ toBase58 (OnChain.updateAuthority current));
           ProcessResult.transactionSignature := None;
           ProcessResult.timestamp := toISOString (remote w) |})
  /\ submissions (events w1) = submissions (events w)
  /\ sleeps (events w1) = sleeps (events w)
  /\ fetches (events w1) = fetches (events w) ++ [getMetadataAccount mint].
Proof.
  intros Hr Hm Hg Hp Ha.
  rewrite (update_after_fetch wallet metadata dryRun maxRetries retryDelayMs w mint Hr Hm).
  cbv zeta. rewrite Hg. cbn [fst snd decoded]. rewrite Hp, Ha. cbn [negb].
  split; [reflexivity|].
  unfold afterFetch, emit, with_remote. cbn [events].
  rewrite submissions_app, fetches_app, sleeps_app. cbn. now rewrite !app_nil_r.
Qed.

(** C7: in a dry run, once the fetch gave a record the caller owns, the
    update submits nothing and reads the account once; its result has
    status [updated], with the on-chain strings as old and the target
    strings as new values and no signature, when the two differ, and
    status [skipped], with no values and no signature, when they do
    not. *)
Theorem dry_run_submits_nothing (wallet : PublicKey) (metadata : NFTMetadata.t)
    (maxRetries retryDelayMs : Z) (w : World) (mint : PublicKey)
    (r : Remote) (data : Buffer) (current : OnChain.t) :
  (0 <= maxRetries)%Z ->
  Key.ofString (NFTMetadata.mint metadata) = Ok mint ->
  getAccountInfo (getMetadataAccount mint) (remote w) = (r, Ok (Some data)) ->
  parseMetadataAccount data = Ok current ->
  equals (OnChain.updateAuthority current) wallet = true ->
  let w1 := afterFetch (getMetadataAccount mint) r w in
  updateNFTMetadata wallet metadata true maxRetries retryDelayMs w =
    (w1,
     Ok (if isMetadataDifferent current metadata then
           {| ProcessResult.mint := NFTMetadata.mint metadata;
              ProcessResult.status := updated;
              ProcessResult.action := Some (lit "dry run - would update");
              ProcessResult.oldValues :=
                Some {| Values.name := OnChain.name current;
                        Values.symbol := OnChain.symbol current;
                        Values.uri := OnChain.uri current |};
              ProcessResult.newValues :=
                Some {| Values.name := NFTMetadata.name metadata;
                        Values.symbol := NFTMetadata.symbol metadata;
                        Values.uri := NFTMetadata.uri metadata |};
              ProcessResult.error := None;
              ProcessResult.transactionSignature := None;
              ProcessResult.timestamp := toISOString (remote w) |}
         else
           {| ProcessResult.mint := NFTMetadata.mint metadata;
              ProcessResult.status := skipped;
              ProcessResult.action := Some (lit "metadata already matches");
              ProcessResult.oldValues := None;
              ProcessResult.newValues := None;
              ProcessResult.error := None;
              ProcessResult.transactionSignature := None;
              ProcessResult.timestamp := toISOString (remote w) |}))
  /\ submissions (events w1) = submissions (events w)
  /\ fetches (events w1) = fetches (events w) ++ [getMetadataAccount mint].
Proof.
  intros Hr Hm Hg Hp Ha.
  rewrite (update_after_fetch wallet metadata true maxRetries retryDelayMs w mint Hr Hm).
  cbv zeta. rewrite Hg. cbn [fst snd decoded]. rewrite Hp, Ha. cbn [negb].
  split.
  - destruct (isMetadataDifferent current metadata); reflexivity.
  - unfold afterFetch, emit, with_remote. cbn [events].
    rewrite submissions_app, fetches_app. cbn. now rewrite !app_nil_r.
Qed.

(** One turn of the loop of a batch whose update completes. *)
Lemma processBatch_from_cons (wallet : PublicKey) (metadata : NFTMetadata.t)
    (batch : list NFTMetadata.t)
    (dryRun : bool) (maxRetries retryDelayMs : Z) (acc : list ProcessResult.t)
    (w w1 : World) (result : ProcessResult.t) :
  updateNFTMetadata wallet metadata dryRun maxRetries retryDelayMs w = (w1, Ok result) ->
  processBatch_from wallet (metadata :: batch) dryRun maxRetries retryDelayMs acc w
  = processBatch_from wallet batch dryRun maxRetries retryDelayMs (acc ++ [result])
      (emit (Slept 100) (fst (logResult result w1))).
Proof.
  intros Hu. cbn [processBatch_from]. unfold bind at 1. rewrite Hu.
  reflexivity.
Qed.

End Engine.
End UpdateFacts.

(** ** The cost of a run *)

Module CostFacts.
Import MetadataUpdater Props.

Lemma countSigned_filter (results : list ProcessResult.t) :
  List.length (filter isSuccessfulUpdate results) = countSigned results.
Proof.
  induction results as [|r results IH]; [reflexivity|].
  cbn [filter countSigned]. unfold isSuccessfulUpdate at 1.
  destruct (ProcessResult.status r);
    destruct (ProcessResult.transactionSignature r) as [[|c s]|];
    cbn [Status_eqb andb List.length]; congruence.
Qed.

Lemma countSigned_app (a b : list ProcessResult.t) :
  countSigned (a ++ b) = countSigned a + countSigned b.
Proof.
  induction a as [|r a IH]; [reflexivity|].
  cbn [app countSigned].
  destruct (ProcessResult.status r);
    destruct (ProcessResult.transactionSignature r) as [[|c s]|]; cbn; congruence.
Qed.

(** The fee is the double nearest to 5 / 1000000. *)
Lemma AVG_FEE_PER_TX_value : AVG_FEE_PER_TX = (5 / 1000000)%float.
Proof. reflexivity. Qed.

(** What one result counts for. *)
Lemma countSigned_one (r : ProcessResult.t) :
  countSigned [r]
  = match ProcessResult.status r, ProcessResult.transactionSignature r with
    | updated, Some (_ :: _) => 1
    | _, _ => 0
    end.
Proof.
  cbn [countSigned].
  destruct (ProcessResult.status r);
    destruct (ProcessResult.transactionSignature r) as [[|c s]|]; reflexivity.
Qed.

(** C10: the total cost is the number of results that are [updated] and
    carry a signature, as a binary64 number, times the fee in binary64
    arithmetic: the product of the specification of floating-point
    numbers, of that count and the fee (0.000005 by default).  A result
    that is not [updated], or has no signature as that of a dry run, adds
    nothing wherever it stands in the list, and alone costs 0; one signed
    update at the default fee costs the fee, three cost three times the
    fee, rounded to binary64. *)
Theorem calculateTotalCost_counts_signed_updates
    (results : list ProcessResult.t) (fee : float) :
  calculateTotalCost results fee
  = PrimFloat.mul
      (PrimFloat.of_uint63 (Uint63.of_Z (Z.of_nat (countSigned results)))) fee
  /\ ((Z.of_nat (countSigned results) < 2 ^ 63)%Z ->
      FloatOps.Prim2SF (calculateTotalCost results fee)
      = FloatAxioms.SF64mul
          (SpecFloat.binary_normalize FloatOps.prec FloatOps.emax
             (Z.of_nat (countSigned results)) 0 false)
          (FloatOps.Prim2SF fee))
  /\ calculateTotalCost results AVG_FEE_PER_TX
     = PrimFloat.mul
         (PrimFloat.of_uint63 (Uint63.of_Z (Z.of_nat (countSigned results))))
         (5 / 1000000)%float
  /\ (forall (before after : list ProcessResult.t) (r : ProcessResult.t),
        ProcessResult.status r <> updated
        \/ ProcessResult.transactionSignature r = None ->
        calculateTotalCost (before ++ r :: after) fee
        = calculateTotalCost (before ++ after) fee)
  /\ (forall r : ProcessResult.t,
        ProcessResult.status r <> updated
        \/ ProcessResult.transactionSignature r = None ->
        calculateTotalCost [r] AVG_FEE_PER_TX = 0%float)
  /\ (forall (r : ProcessResult.t) (c : N) (signature : JsString),
        ProcessResult.status r = updated ->
        ProcessResult.transactionSignature r = Some (c :: signature) ->
        calculateTotalCost [r] AVG_FEE_PER_TX = 0x1.4f8b588e368f1p-18%float
        /\ calculateTotalCost [r; r; r] AVG_FEE_PER_TX = 0x1.f75104d551d6ap-17%float).
Proof.
  assert (E : forall l f,
            calculateTotalCost l f
            = PrimFloat.mul
                (PrimFloat.of_uint63 (Uint63.of_Z (Z.of_nat (countSigned l)))) f).
  { intros l f. unfold calculateTotalCost, number_of_nat.
    now rewrite countSigned_filter. }
  split; [apply E|]. split.
  { intros Hn.
    rewrite E, FloatAxioms.mul_spec, FloatAxioms.of_uint63_spec, Uint63.of_Z_spec.
    rewrite Z.mod_small; [reflexivity|]. unfold Uint63.wB. cbn. lia. }
  split; [apply E|]. split.
  { intros before after r H. rewrite !E, !countSigned_app.
    change (r :: after) with ([r] ++ after). rewrite countSigned_app, countSigned_one.
    destruct H as [H|H].
    - destruct (ProcessResult.status r); [congruence| |];
        destruct (ProcessResult.transactionSignature r) as [[|c s]|]; reflexivity.
    - rewrite H. destruct (ProcessResult.status r); reflexivity. }
  split.
  { intros r H. rewrite E, countSigned_one. destruct H as [H|H].
    - destruct (ProcessResult.status r); [congruence| |];
        destruct (ProcessResult.transactionSignature r) as [[|c s]|]; reflexivity.
    - rewrite H. destruct (ProcessResult.status r); reflexivity. }
  intros r c signature Hs Ht. rewrite !E.
  change [r; r; r] with ([r] ++ [r] ++ [r]).
  rewrite !countSigned_app, !countSigned_one, Hs, Ht. split; reflexivity.
Qed.

End CostFacts.


(** ** The properties at concrete inputs *)

Module ScenarioFacts.
Import Utils MetadataUpdater Index Props Scenario Cases UpdateFacts.

(** A mint that is base-58 text but no 32-byte key. *)
Lemma update_throws_on_unparsable_mint_witness :
  updateNFTMetadata (P := scripted) walletKey (target (lit "FakeMint123")) true 3 1000
    (worldOf (nodeOf walletKey 0) None)
  = (worldOf (nodeOf walletKey 0) None, Throw InvalidKey).
Proof.
  apply (update_throws_on_unparsable_mint (P := scripted)). reflexivity.
Defined.

(** The first read fails, the second would have given the account. *)
Lemma fetch_error_is_not_retried_witness :
  let w := worldOf (nodeOf walletKey 1) None in
  let w1 := afterFetch (P := scripted) (getMetadataAccount (P := scripted) firstMintKey)
              (nodeOf walletKey 0) w in
  (updateNFTMetadata (P := scripted) walletKey (target firstMint) false 3 1000 w =
     (w1,
      Ok (errorResult firstMint (lit "Failed to fetch current metadata")
            (toISOString (Platform := scripted) (remote w))))
   /\ fetches (events w1)
      = fetches (events w) ++ [getMetadataAccount (P := scripted) firstMintKey]
   /\ sleeps (events w1) = sleeps (events w))
  /\ snd (getAccountInfo (Platform := scripted) firstMintKey (remote w1))
     = Ok (Some (accountOwnedBy walletKey)).
Proof.
  cbv zeta. split; [|reflexivity].
  apply (fetch_error_is_not_retried (P := scripted) walletKey (target firstMint) false
           3 1000 (worldOf (nodeOf walletKey 1) None) firstMintKey
           (nodeOf walletKey 0) (Throw (Error (lit "fetch failed")))).
  - lia.
  - reflexivity.
  - reflexivity.
  - left. exact I.
Defined.

(** Every account belongs to a stranger. *)
Lemma authority_mismatch_is_final_witness :
  let w := worldOf (nodeOf strangerKey 0) None in
  let w1 := afterFetch (P := scripted) (getMetadataAccount (P := scripted) firstMintKey)
              (nodeOf strangerKey 0) w in
  updateNFTMetadata (P := scripted) walletKey (target firstMint) false 3 1000 w =
    (w1,
     Ok {| ProcessResult.mint := firstMint;
           ProcessResult.status := error;
           ProcessResult.action := None;
           ProcessResult.oldValues := None;
           ProcessResult.newValues := None;
           ProcessResult.error :=
             Some (lit ("Update authority mismatch. "
                        ++ "Expected: Vote111111111111111111111111111111111111111, "
                        ++ "Found: Stake11111111111111111111111111111111111111"));
           ProcessResult.transactionSignature := None;
           ProcessResult.timestamp := lit "2025-01-01T00:00:00.000Z" |})
  /\ submissions (events w1) = submissions (events w)
  /\ sleeps (events w1) = sleeps (events w)
  /\ fetches (events w1)
     = fetches (events w) ++ [getMetadataAccount (P := scripted) firstMintKey].
Proof.
  apply (authority_mismatch_is_final (P := scripted) walletKey (target firstMint) false
           3 1000 (worldOf (nodeOf strangerKey 0) None) firstMintKey
           (nodeOf strangerKey 0) (accountOwnedBy strangerKey) (oldRecord strangerKey)).
  - lia.
  - reflexivity.
  - reflexivity.
  - reflexivity.
  - reflexivity.
Defined.

(** The wallet owns the account.  In the first world its strings differ
    from the target, in the second it holds the target strings, padded. *)
Lemma dry_run_submits_nothing_witness :
  (let w := worldOf (nodeOf walletKey 0) None in
   let w1 := afterFetch (P := scripted) (getMetadataAccount (P := scripted) firstMintKey)
               (nodeOf walletKey 0) w in
   updateNFTMetadata (P := scripted) walletKey (target firstMint) true 3 1000 w =
     (w1,
      Ok {| ProcessResult.mint := firstMint;
            ProcessResult.status := updated;
            ProcessResult.action := Some (lit "dry run - would update");
            ProcessResult.oldValues :=
              Some {| Values.name := lit "Old name";
                      Values.symbol := lit "OLD";
                      Values.uri := lit "https://example.org/old.json" |};
            ProcessResult.newValues :=
              Some {| Values.name := lit "Doge #1";
                      Values.symbol := lit "DOGE";
                      Values.uri := lit "https://example.org/1.json" |};
            ProcessResult.error := None;
            ProcessResult.transactionSignature := None;
            ProcessResult.timestamp := lit "2025-01-01T00:00:00.000Z" |})
   /\ submissions (events w1) = submissions (events w)
   /\ fetches (events w1)
      = fetches (events w) ++ [getMetadataAccount (P := scripted) firstMintKey])
  /\ (let w := worldOf paddedNode None in
      let w1 := afterFetch (P := scripted)
                  (getMetadataAccount (P := scripted) firstMintKey) paddedNode w in
      updateNFTMetadata (P := scripted) walletKey (target firstMint) true 3 1000 w =
        (w1,
         Ok {| ProcessResult.mint := firstMint;
               ProcessResult.status := skipped;
               ProcessResult.action := Some (lit "metadata already matches");
               ProcessResult.oldValues := None;
               ProcessResult.newValues := None;
               ProcessResult.error := None;
               ProcessResult.transactionSignature := None;
               ProcessResult.timestamp := lit "2025-01-01T00:00:00.000Z" |})
      /\ submissions (events w1) = submissions (events w)
      /\ fetches (events w1)
         = fetches (events w) ++ [getMetadataAccount (P := scripted) firstMintKey]).
Proof.
  split.
  - apply (dry_run_submits_nothing (P := scripted) walletKey (target firstMint)
             3 1000 (worldOf (nodeOf walletKey 0) None) firstMintKey
             (nodeOf walletKey 0) (accountOwnedBy walletKey) (oldRecord walletKey)).
    + lia.
    + reflexivity.
    + reflexivity.
    + reflexivity.
    + reflexivity.
  - apply (dry_run_submits_nothing (P := scripted) walletKey (target firstMint)
             3 1000 (worldOf paddedNode None) firstMintKey
             paddedNode paddedAccount
             {| OnChain.name := lit "Doge #1";
                OnChain.symbol := lit "DOGE";
                OnChain.uri := lit "https://example.org/1.json";
                OnChain.updateAuthority := walletKey |}).
    + lia.
    + reflexivity.
    + reflexivity.
    + vm_compute. reflexivity.
    + reflexivity.
Defined.

End ScenarioFacts.

(** ** Computations that leave an observation untouched *)

Module StableFacts.
Import Utils MetadataUpdater Index Props Observe UpdateFacts.

Section Stable.
Context {P : Platform}.
Variable X : Type.
Variable obs : World -> X.

Hypothesis obs_sleep : forall ms w, obs (emit (Slept ms) w) = obs w.
Hypothesis obs_fetch :
  forall account r w, obs (emit (Fetched account) (with_remote r w)) = obs w.
Hypothesis obs_submit :
  forall t r w, obs (emit (Submitted t) (with_remote r w)) = obs w.
Hypothesis obs_log : forall result w, obs (fst (logResult result w)) = obs w.

Lemma stable_ret {A} (a : A) : stable obs (ret a).
Proof. intros w. reflexivity. Qed.

Lemma stable_lift {A} (r : Result A) : stable obs (lift r).
Proof. intros w. reflexivity. Qed.

Lemma stable_now : stable obs now.
Proof. intros w. reflexivity. Qed.

Lemma stable_bind {A B} (m : M A) (k : A -> M B) :
  stable obs m -> (forall a, stable obs (k a)) -> stable obs (bind m k).
Proof.
  intros Hm Hk w. unfold bind. specialize (Hm w).
  destruct (m w) as [w1 [a|e]]; cbn [fst] in *; [|exact Hm].
  rewrite (Hk a w1). exact Hm.
Qed.

Lemma stable_try_catch {A} (body : M A) (handler : JsError -> M A) :
  stable obs body -> (forall e, stable obs (handler e)) ->
  stable obs (try_catch body handler).
Proof.
  intros Hb Hh w. unfold try_catch. specialize (Hb w).
  destruct (body w) as [w1 [a|e]]; cbn [fst] in *; [exact Hb|].
  rewrite (Hh e w1). exact Hb.
Qed.

Lemma stable_sleep (ms : Z) : stable obs (sleep ms).
Proof. intros w. apply obs_sleep. Qed.

Lemma stable_retry {T} (fn : M T) (maxRetries retryDelayMs : Z) :
  stable obs fn -> stable obs (retry fn maxRetries retryDelayMs).
Proof.
  intros Hfn. unfold retry, retryWithBackoff.
  generalize (Z.to_nat (maxRetries + 1)) 0%Z (@None JsError).
  intros passes. induction passes as [|passes IH]; intros attempt last w.
  - reflexivity.
  - cbn [retry_from]. specialize (Hfn w).
    destruct (fn w) as [w1 [v|e]]; cbn [fst] in *; [exact Hfn|].
    rewrite IH. destruct (attempt <? maxRetries)%Z; [|exact Hfn].
    cbn [sleep fst]. rewrite obs_sleep. exact Hfn.
Qed.

Lemma stable_rpcGetAccountInfo (account : PublicKey) :
  stable obs (rpcGetAccountInfo account).
Proof.
  intros w. unfold rpcGetAccountInfo.
  destruct (getAccountInfo account (remote w)) as [r answer]. apply obs_fetch.
Qed.

Lemma stable_rpcSendAndConfirm (t : Transaction) (wallet : PublicKey) :
  stable obs (rpcSendAndConfirm t wallet).
Proof.
  intros w. unfold rpcSendAndConfirm.
  destruct (sendAndConfirmTransaction t wallet (remote w)) as [r answer].
  apply obs_submit.
Qed.

Lemma stable_fetchCurrentMetadata (mint : PublicKey) :
  stable obs (fetchCurrentMetadata mint).
Proof.
  unfold fetchCurrentMetadata.
  apply stable_try_catch; [|intros; apply stable_ret].
  apply stable_bind; [apply stable_rpcGetAccountInfo|].
  intros [data|]; [|apply stable_ret].
  apply stable_bind; [apply stable_lift|intros; apply stable_ret].
Qed.

(** An update in a dry run reads and sleeps, and does nothing else. *)
Lemma stable_dry_update (wallet : PublicKey) (metadata : NFTMetadata.t)
    (maxRetries retryDelayMs : Z) :
  stable obs (updateNFTMetadata wallet metadata true maxRetries retryDelayMs).
Proof.
  unfold updateNFTMetadata.
  apply stable_bind; [apply stable_now|]. intros timestamp.
  apply stable_bind; [apply stable_lift|]. intros mint.
  apply stable_try_catch; [|intros; apply stable_ret].
  apply stable_bind; [apply stable_retry, stable_fetchCurrentMetadata|].
  intros [current|]; [|apply stable_ret].
  destruct (negb (equals (OnChain.updateAuthority current) wallet)); [apply stable_ret|].
  destruct (negb (isMetadataDifferent current metadata)); apply stable_ret.
Qed.

Lemma stable_updateNFTMetadata (wallet : PublicKey) (metadata : NFTMetadata.t)
    (dryRun : bool) (maxRetries retryDelayMs : Z) :
  stable obs (updateNFTMetadata wallet metadata dryRun maxRetries retryDelayMs).
Proof.
  destruct dryRun; [apply stable_dry_update|].
  unfold updateNFTMetadata.
  apply stable_bind; [apply stable_now|]. intros timestamp.
  apply stable_bind; [apply stable_lift|]. intros mint.
  apply stable_try_catch; [|intros; apply stable_ret].
  apply stable_bind; [apply stable_retry, stable_fetchCurrentMetadata|].
  intros [current|]; [|apply stable_ret].
  destruct (negb (equals (OnChain.updateAuthority current) wallet)); [apply stable_ret|].
  destruct (negb (isMetadataDifferent current metadata)); [apply stable_ret|].
  apply stable_bind; [apply stable_lift|]. intros instruction.
  apply stable_bind; [apply stable_retry, stable_rpcSendAndConfirm|].
  intros; apply stable_ret.
Qed.

Lemma stable_dry_processBatch_from (wallet : PublicKey) (batch : list NFTMetadata.t)
    (maxRetries retryDelayMs : Z) :
  forall results,
    stable obs (processBatch_from wallet batch true maxRetries retryDelayMs results).
Proof.
  induction batch as [|metadata batch IH]; intros results; cbn [processBatch_from].
  - apply stable_ret.
  - apply stable_bind; [apply stable_dry_update|]. intros result.
    apply stable_bind; [intros w; apply obs_log|]. intros _.
    apply stable_bind; [apply stable_sleep|]. intros _. apply IH.
Qed.

Lemma stable_processBatch_from (wallet : PublicKey) (batch : list NFTMetadata.t)
    (dryRun : bool) (maxRetries retryDelayMs : Z) :
  forall results,
    stable obs (processBatch_from wallet batch dryRun maxRetries retryDelayMs results).
Proof.
  induction batch as [|metadata batch IH]; intros results; cbn [processBatch_from].
  - apply stable_ret.
  - apply stable_bind; [apply stable_updateNFTMetadata|]. intros result.
    apply stable_bind; [intros w; apply obs_log|]. intros _.
    apply stable_bind; [apply stable_sleep|]. intros _. apply IH.
Qed.

End Stable.

Section Instances.
Context {P : Platform}.

(** An update leaves the log and the checkpoint file alone. *)
Lemma update_keeps_logs (wallet : PublicKey) (metadata : NFTMetadata.t)
    (dryRun : bool) (maxRetries retryDelayMs : Z) :
  stable logs (updateNFTMetadata wallet metadata dryRun maxRetries retryDelayMs).
Proof. apply stable_updateNFTMetadata; reflexivity. Qed.

Lemma processBatch_keeps_file (wallet : PublicKey) (batch : list NFTMetadata.t)
    (dryRun : bool) (maxRetries retryDelayMs : Z) :
  stable checkpointFile (processBatch wallet batch dryRun maxRetries retryDelayMs).
Proof. apply stable_processBatch_from; reflexivity. Qed.

Lemma processBatch_keeps_failed (wallet : PublicKey) (batch : list NFTMetadata.t)
    (dryRun : bool) (maxRetries retryDelayMs : Z) :
  stable (fun w => savedFailed (events w))
         (processBatch wallet batch dryRun maxRetries retryDelayMs).
Proof.
  assert (A : forall a b, savedFailed (a ++ b) = savedFailed a ++ savedFailed b)
    by (intros a b; induction a as [|[] a IH]; cbn; congruence).
  apply stable_processBatch_from; intros; cbn [emit with_remote events logResult fst];
    rewrite ?A; cbn; now rewrite ?app_nil_r.
Qed.

Lemma dry_processBatch_submits_nothing (wallet : PublicKey)
    (batch : list NFTMetadata.t) (maxRetries retryDelayMs : Z) :
  stable (fun w => submissions (events w))
         (processBatch wallet batch true maxRetries retryDelayMs).
Proof.
  apply stable_dry_processBatch_from; intros;
    cbn [emit with_remote events logResult fst];
    rewrite ?submissions_app; cbn; now rewrite ?app_nil_r.
Qed.

End Instances.
End StableFacts.

(** ** The run over a manifest *)

Module RunFacts.
Import Utils MetadataUpdater Index Props UpdateFacts.

Section Quiet.
Context {P : Platform}.

Lemma quiet_ret {A} (a : A) : quiet (ret a).
Proof. intros w. reflexivity. Qed.

Lemma quiet_lift {A} (r : Result A) : quiet (lift r).
Proof. intros w. reflexivity. Qed.

Lemma quiet_now : quiet now.
Proof. intros w. reflexivity. Qed.

Lemma quiet_emit {A} (e : Event) (a : A) :
  savedCheckpoints [e] = [] -> quiet (fun w => (emit e w, Ok a)).
Proof.
  intros He w. cbn [fst emit events]. rewrite savedCheckpoints_app, He.
  apply app_nil_r.
Qed.

Lemma quiet_sleep (ms : Z) : quiet (sleep ms).
Proof. now apply quiet_emit. Qed.

Lemma quiet_bind {A B} (m : M A) (k : A -> M B) :
  quiet m -> (forall a, quiet (k a)) -> quiet (bind m k).
Proof.
  intros Hm Hk w. unfold bind. specialize (Hm w).
  destruct (m w) as [w1 [a|e]]; cbn [fst] in *; [|exact Hm].
  rewrite (Hk a w1). exact Hm.
Qed.

Lemma quiet_try_catch {A} (body : M A) (handler : JsError -> M A) :
  quiet body -> (forall e, quiet (handler e)) -> quiet (try_catch body handler).
Proof.
  intros Hb Hh w. unfold try_catch. specialize (Hb w).
  destruct (body w) as [w1 [a|e]]; cbn [fst] in *; [exact Hb|].
  rewrite (Hh e w1). exact Hb.
Qed.

Lemma quiet_retry_from {T} (fn : M T) (maxRetries retryDelayMs : Z) (passes : nat) :
  quiet fn ->
  forall attempt last,
    quiet (retry_from (fun ms w => fst (sleep ms w)) fn maxRetries retryDelayMs
             passes attempt last).
Proof.
  intros Hfn. induction passes as [|passes IH]; intros attempt last w.
  - reflexivity.
  - cbn [retry_from]. specialize (Hfn w).
    destruct (fn w) as [w1 [v|e]]; cbn [fst] in *; [exact Hfn|].
    rewrite IH. destruct (attempt <? maxRetries)%Z; [|exact Hfn].
    rewrite (quiet_sleep _ w1). exact Hfn.
Qed.

Lemma quiet_retry {T} (fn : M T) (maxRetries retryDelayMs : Z) :
  quiet fn -> quiet (retry fn maxRetries retryDelayMs).
Proof. intros H. apply quiet_retry_from, H. Qed.

Lemma quiet_rpcGetAccountInfo (account : PublicKey) : quiet (rpcGetAccountInfo account).
Proof.
  intros w. unfold rpcGetAccountInfo.
  destruct (getAccountInfo account (remote w)) as [r answer].
  cbn [fst emit with_remote events]. rewrite savedCheckpoints_app. apply app_nil_r.
Qed.

Lemma quiet_rpcSendAndConfirm (t : Transaction) (wallet : PublicKey) :
  quiet (rpcSendAndConfirm t wallet).
Proof.
  intros w. unfold rpcSendAndConfirm.
  destruct (sendAndConfirmTransaction t wallet (remote w)) as [r answer].
  cbn [fst emit with_remote events]. rewrite savedCheckpoints_app. apply app_nil_r.
Qed.

Lemma quiet_logResult (result : ProcessResult.t) : quiet (logResult result).
Proof. intros w. reflexivity. Qed.

Create HintDb quiet.
#[local] Hint Resolve quiet_ret quiet_lift quiet_now quiet_sleep quiet_retry
  quiet_rpcGetAccountInfo quiet_rpcSendAndConfirm quiet_logResult : quiet.

Lemma quiet_fetchCurrentMetadata (mint : PublicKey) : quiet (fetchCurrentMetadata mint).
Proof.
  unfold fetchCurrentMetadata. apply quiet_try_catch; [|auto with quiet].
  apply quiet_bind; [auto with quiet|]. intros [data|]; [|auto with quiet].
  apply quiet_bind; auto with quiet.
Qed.

Lemma quiet_updateNFTMetadata (wallet : PublicKey) (metadata : NFTMetadata.t)
    (dryRun : bool) (maxRetries retryDelayMs : Z) :
  quiet (updateNFTMetadata wallet metadata dryRun maxRetries retryDelayMs).
Proof.
  unfold updateNFTMetadata.
  apply quiet_bind; [auto with quiet|]. intros timestamp.
  apply quiet_bind; [auto with quiet|]. intros mint.
  apply quiet_try_catch; [|auto with quiet].
  apply quiet_bind; [apply quiet_retry, quiet_fetchCurrentMetadata|].
  intros [current|]; [|auto with quiet].
  destruct (negb (equals (OnChain.updateAuthority current) wallet)); [auto with quiet|].
  destruct (negb (isMetadataDifferent current metadata)); [auto with quiet|].
  destruct dryRun; [auto with quiet|].
  apply quiet_bind; [auto with quiet|]. intros instruction.
  apply quiet_bind; auto with quiet.
Qed.

Lemma quiet_processBatch_from (wallet : PublicKey) (batch : list NFTMetadata.t)
    (dryRun : bool) (maxRetries retryDelayMs : Z) :
  forall results,
    quiet (processBatch_from wallet batch dryRun maxRetries retryDelayMs results).
Proof.
  induction batch as [|metadata batch IH]; intros results; cbn [processBatch_from].
  - auto with quiet.
  - apply quiet_bind; [apply quiet_updateNFTMetadata|]. intros result.
    apply quiet_bind; [auto with quiet|]. intros _.
    apply quiet_bind; [auto with quiet|]. intros _. apply IH.
Qed.

(** What a batch returns, when it returns: one result per record, in
    order, each with the mint of its record. *)
Lemma processBatch_from_mints (wallet : PublicKey) (batch : list NFTMetadata.t)
    (dryRun : bool) (maxRetries retryDelayMs : Z) :
  forall acc w w' results,
    processBatch_from wallet batch dryRun maxRetries retryDelayMs acc w = (w', Ok results) ->
    map ProcessResult.mint results
    = map ProcessResult.mint acc ++ map NFTMetadata.mint batch.
Proof.
  induction batch as [|metadata batch IH]; intros acc w w' results H;
    cbn [processBatch_from] in H.
  - apply ret_inv in H as [_ ->]. cbn. now rewrite app_nil_r.
  - apply bind_ok_inv in H as (w1 & result & Hu & H).
    apply bind_ok_inv in H as (w2 & [] & _ & H).
    apply bind_ok_inv in H as (w3 & [] & _ & H).
    apply IH in H. rewrite H, map_app. cbn [map].
    rewrite (update_result_mint _ _ _ _ _ _ _ _ Hu), <- app_assoc. reflexivity.
Qed.

Lemma processBatch_mints (wallet : PublicKey) (batch : list NFTMetadata.t)
    (dryRun : bool) (maxRetries retryDelayMs : Z) (w w' : World)
    (results : list ProcessResult.t) :
  processBatch wallet batch dryRun maxRetries retryDelayMs w = (w', Ok results) ->
  map ProcessResult.mint results = map NFTMetadata.mint batch.
Proof. intros H. now apply processBatch_from_mints in H. Qed.

(** What a batch adds to the log: the results it returns, or, when it
    throws, the results of fewer records than it was given. *)
Lemma processBatch_from_logs (wallet : PublicKey) (batch : list NFTMetadata.t)
    (dryRun : bool) (maxRetries retryDelayMs : Z) :
  forall acc w,
    let out := processBatch_from wallet batch dryRun maxRetries retryDelayMs acc w in
    exists R,
      logs (fst out) = logs w ++ R
      /\ match snd out with
         | Ok results => results = acc ++ R /\ List.length R = List.length batch
         | Throw _ => List.length R < List.length batch
         end.
Proof.
  induction batch as [|metadata batch IH]; intros acc w; cbv zeta.
  - exists []. cbn. rewrite !app_nil_r. auto.
  - pose proof (StableFacts.update_keeps_logs wallet metadata dryRun maxRetries
                  retryDelayMs w) as K.
    destruct (updateNFTMetadata wallet metadata dryRun maxRetries retryDelayMs w)
      as [w1 [result|e]] eqn:Hu; cbn [fst] in K.
    + rewrite (processBatch_from_cons _ _ _ _ _ _ _ _ _ _ Hu).
      destruct (IH (acc ++ [result]) (emit (Slept 100) (fst (logResult result w1))))
        as (R & Hlogs & Hres).
      exists (result :: R). split.
      * rewrite Hlogs. cbn [emit logResult fst logs]. rewrite K, <- app_assoc.
        reflexivity.
      * destruct (snd (processBatch_from wallet batch dryRun maxRetries retryDelayMs
                         (acc ++ [result])
                         (emit (Slept 100) (fst (logResult result w1)))))
          as [results|e]; cbn [List.length].
        -- destruct Hres as [-> Hlen]. rewrite <- app_assoc. split; [reflexivity|lia].
        -- lia.
    + assert (E : processBatch_from wallet (metadata :: batch) dryRun maxRetries
                    retryDelayMs acc w = (w1, Throw e))
        by (cbn [processBatch_from]; unfold bind at 1; rewrite Hu; reflexivity).
      rewrite E. exists []. cbn [fst snd List.length]. rewrite app_nil_r.
      split; [exact K|lia].
Qed.

End Quiet.

Lemma In_firstn {A} (x : A) (n : nat) (l : list A) : In x (firstn n l) -> In x l.
Proof.
  intros H. rewrite <- (firstn_skipn n l). apply in_or_app. now left.
Qed.

Lemma In_skipn {A} (x : A) (n : nat) (l : list A) : In x (skipn n l) -> In x l.
Proof.
  intros H. rewrite <- (firstn_skipn n l). apply in_or_app. now right.
Qed.

(** The counters after a list of results. *)
Lemma tally_all (results : list ProcessResult.t) :
  forall c,
    processedCount (fold_left tally results c)
    = (processedCount c + Z.of_nat (List.length results))%Z
    /\ processedMints (fold_left tally results c)
       = processedMints c ++ map ProcessResult.mint results.
Proof.
  induction results as [|r results IH]; intros c; cbn [fold_left List.length map].
  - rewrite app_nil_r. split; [lia|reflexivity].
  - destruct (IH (tally c r)) as [-> ->]. cbn [tally processedCount processedMints].
    rewrite <- app_assoc. split; [lia|reflexivity].
Qed.

Lemma firstn_then_firstn {A} (l : list A) :
  forall a b, firstn a l ++ firstn b (skipn a l) = firstn (a + b) l.
Proof.
  induction l as [|x l IH]; intros a b.
  - now rewrite skipn_nil, !firstn_nil.
  - destruct a as [|a]; [reflexivity|]. cbn [firstn skipn Nat.add app].
    now rewrite IH.
Qed.

Section Loop.
Context {P : Platform}.
Variable config : Config.t.
Variable wallet : PublicKey.
Variable start : Z.
Variable metadata : list NFTMetadata.t.

Local Abbreviation len := (Z.of_nat (List.length metadata)).
Local Abbreviation bs := (Config.batchSize config).
Local Abbreviation ci := (Config.checkpointInterval config).

Hypothesis bs_pos : (0 < Config.batchSize config)%Z.

(** The chunk that starts at [i]. *)
Lemma array_slice_chunk (i : Z) :
  (0 <= i < len)%Z ->
  array_slice metadata i (i + bs)
  = firstn (Z.to_nat (Z.min (i + bs) len - i)) (skipn (Z.to_nat i) metadata).
Proof.
  intros Hi. unfold array_slice.
  replace (i <? 0)%Z with false by (symmetry; apply Z.ltb_ge; lia).
  replace (i + bs <? 0)%Z with false by (symmetry; apply Z.ltb_ge; lia).
  now replace (Z.min i len) with i by lia.
Qed.

Lemma chunk_length (i : Z) :
  (0 <= i < len)%Z ->
  Z.of_nat (List.length (array_slice metadata i (i + bs))) = (Z.min (i + bs) len - i)%Z.
Proof.
  intros Hi. rewrite array_slice_chunk by exact Hi.
  rewrite length_firstn, length_skipn. lia.
Qed.

Lemma chunk_extends (i : Z) :
  (0 <= i < len)%Z ->
  firstn (Z.to_nat i) metadata ++ array_slice metadata i (i + bs)
  = firstn (Z.to_nat (Z.min (i + bs) len)) metadata.
Proof.
  intros Hi. rewrite array_slice_chunk by exact Hi. rewrite firstn_then_firstn.
  f_equal. lia.
Qed.

(** One turn of the loop. *)
Lemma batches_step (budget : nat) (i : Z) (c : Counters) (w : World) :
  (i < len)%Z ->
  batches config wallet (S budget) metadata start i c w =
    match processBatch wallet (array_slice metadata i (i + bs)) (Config.dryRun config)
            (Config.maxRetries config) (Config.retryDelayMs config) w with
    | (w1, Throw e) => (w1, Throw e)
    | (w1, Ok results) =>
      let c1 := fold_left tally results c in
      let w2 :=
        if checkpointDue (processedCount c1) ci then
          with_file (Some (checkpointOf start c1 (toISOString (remote w1))))
            (emit (SavedCheckpoint (checkpointOf start c1 (toISOString (remote w1)))) w1)
        else w1 in
      let w3 := if (i + bs <? len)%Z then emit (Slept (Config.batchDelayMs config)) w2
                else w2 in
      batches config wallet budget metadata start (i + bs) c1 w3
    end.
Proof.
  intros Hi. cbn [batches].
  replace (i <? len)%Z with true by (symmetry; apply Z.ltb_lt; exact Hi).
  unfold bind at 1.
  destruct (processBatch wallet (array_slice metadata i (i + bs)) (Config.dryRun config)
              (Config.maxRetries config) (Config.retryDelayMs config) w)
    as [w1 [results|e]]; [|reflexivity].
  cbv zeta. unfold bind, now, saveCheckpoint, sleep, ret.
  destruct (checkpointDue (processedCount (fold_left tally results c)) ci);
    destruct (i + bs <? len)%Z; reflexivity.
Qed.

Lemma batches_done (budget : nat) (i : Z) (c : Counters) (w : World) :
  (len <= i)%Z -> batches config wallet budget metadata start i c w = (w, Ok (Some c)).
Proof.
  intros Hi. destruct budget; cbn [batches];
    replace (i <? len)%Z with false by (symmetry; apply Z.ltb_ge; exact Hi);
    reflexivity.
Qed.

Lemma batches_killed (i : Z) (c : Counters) (w : World) :
  (i < len)%Z ->
  batches config wallet 0 metadata start i c w = (emit (SavedLogs (logs w)) w, Ok None).
Proof.
  intros Hi. cbn [batches].
  replace (i <? len)%Z with true by (symmetry; apply Z.ltb_lt; exact Hi).
  reflexivity.
Qed.

(** The checkpoints the loop writes from index [i] on, and the results
    it logs: one checkpoint for every end of a chunk it gets through at
    which the interval divides the count, and no other. *)
Lemma batches_checkpoints (budget : nat) :
  forall (i : Z) (c : Counters) (w : World),
    (0 <= i)%Z -> (bs | i)%Z ->
    ((i < len)%Z ->
     processedCount c = i
     /\ processedMints c = map NFTMetadata.mint (firstn (Z.to_nat i) metadata)) ->
    let out := batches config wallet budget metadata start i c w in
    exists R new,
      logs (fst out) = logs w ++ R
      /\ savedCheckpoints (events (fst out)) = savedCheckpoints (events w) ++ new
      /\ Forall (wellPlaced config start metadata) new
      /\ (forall cp, In cp new ->
          (Tallies.processed (Checkpoint.summary cp)
           <= Z.max i (Z.min len (i + Z.of_nat (List.length R))))%Z)
      /\ (forall p, (i < p)%Z -> chunkEnd config metadata p ->
                    (p <= i + Z.of_nat (List.length R))%Z ->
                    checkpointDue p ci = true ->
                    exists cp, In cp new
                               /\ Tallies.processed (Checkpoint.summary cp) = p).
Proof.
  induction budget as [|budget IH]; intros i c w Hi Hdiv Hinv out; subst out.
  - destruct (Z.lt_ge_cases i len) as [L|G].
    + rewrite batches_killed by exact L. exists [], []. cbn [fst snd emit events logs].
      rewrite savedCheckpoints_app, !app_nil_r.
      split; [reflexivity|]. split; [reflexivity|]. split; [constructor|].
      split; [intros cp []|]. intros p Hp _ Hle. cbn in Hle. lia.
    + rewrite batches_done by exact G. exists [], []. cbn [fst snd]. rewrite !app_nil_r.
      split; [reflexivity|]. split; [reflexivity|]. split; [constructor|].
      split; [intros cp []|]. intros p Hp _ Hle. cbn in Hle. lia.
  - destruct (Z.lt_ge_cases i len) as [L|G].
    2:{ rewrite batches_done by exact G. exists [], []. cbn [fst snd].
        rewrite !app_nil_r.
        split; [reflexivity|]. split; [reflexivity|]. split; [constructor|].
        split; [intros cp []|]. intros p Hp _ Hle. cbn in Hle. lia. }
    rewrite batches_step by exact L.
    pose proof (quiet_processBatch_from wallet (array_slice metadata i (i + bs))
                  (Config.dryRun config) (Config.maxRetries config)
                  (Config.retryDelayMs config) [] w) as Hq.
    destruct (processBatch_from_logs wallet (array_slice metadata i (i + bs))
                (Config.dryRun config) (Config.maxRetries config)
                (Config.retryDelayMs config) [] w) as (R1 & Hlogs1 & Hres1).
    fold (processBatch wallet (array_slice metadata i (i + bs)) (Config.dryRun config)
            (Config.maxRetries config) (Config.retryDelayMs config)) in Hq, Hlogs1, Hres1.
    pose proof (chunk_length i ltac:(lia)) as Hlen.
    set (p1 := Z.min (i + bs) len) in *.
    assert (Hnone : forall p, (i < p)%Z -> (p < p1)%Z -> ~ chunkEnd config metadata p).
    { intros p Hp Hp1 [[_ Hle] [->|[k Hk]]]; [unfold p1 in Hp1; lia|].
      destruct Hdiv as [j Hj]. unfold p1 in Hp1. assert (j < k)%Z by nia. nia. }
    destruct (processBatch wallet (array_slice metadata i (i + bs)) (Config.dryRun config)
                (Config.maxRetries config) (Config.retryDelayMs config) w)
      as [w1 [results|e]] eqn:Hpb; cbn [fst snd] in Hq, Hlogs1, Hres1.
    2:{ exists R1, []. cbn [fst snd]. rewrite app_nil_r.
        split; [exact Hlogs1|]. split; [exact Hq|]. split; [constructor|].
        split; [intros cp []|]. intros p Hp Hce Hle.
        exfalso. apply (Hnone p Hp); [lia|exact Hce]. }
    cbv zeta.
    destruct Hres1 as [Hr1 Hl1]. cbn [app] in Hr1. subst R1.
    destruct (Hinv L) as [Hpc Hpm].
    apply processBatch_mints in Hpb.
    destruct (tally_all results c) as [Hc1 Hm1].
    set (c1 := fold_left tally results c) in *.
    assert (Hp1 : processedCount c1 = p1).
    { rewrite Hc1, Hpc. lia. }
    assert (Hm1' : processedMints c1 = map NFTMetadata.mint (firstn (Z.to_nat p1) metadata)).
    { rewrite Hm1, Hpm, Hpb, <- map_app, chunk_extends by lia. reflexivity. }
    set (cp := checkpointOf start c1 (toISOString (remote w1))).
    set (w2 := if checkpointDue (processedCount c1) ci
               then with_file (Some cp) (emit (SavedCheckpoint cp) w1) else w1).
    set (w3 := if (i + bs <? len)%Z then emit (Slept (Config.batchDelayMs config)) w2
               else w2).
    assert (Hw3 : savedCheckpoints (events w3)
                  = savedCheckpoints (events w)
                    ++ (if checkpointDue p1 ci then [cp] else [])
                  /\ logs w3 = logs w1).
    { unfold w3, w2. rewrite Hp1.
      destruct (checkpointDue p1 ci); destruct (i + bs <? len)%Z;
        cbn [emit with_file events logs]; rewrite ?savedCheckpoints_app, Hq;
        cbn [savedCheckpoints]; rewrite ?app_nil_r; auto. }
    destruct Hw3 as [Hw3 Hl3].
    assert (Hend : chunkEnd config metadata p1).
    { unfold chunkEnd, p1. split; [lia|].
      destruct (Z.le_gt_cases len (i + bs)) as [A|A].
      - left. lia.
      - right. replace (Z.min (i + bs) len) with (i + bs)%Z by lia.
        apply Z.divide_add_r; [exact Hdiv|apply Z.divide_refl]. }
    destruct (IH (i + bs)%Z c1 w3) as (R2 & new & Hlogs2 & Hsaved & Hgood & Honly & Hall).
    { lia. }
    { apply Z.divide_add_r; [exact Hdiv|apply Z.divide_refl]. }
    { intros L'. replace p1 with (i + bs)%Z in * by (unfold p1; lia). auto. }
    exists (results ++ R2), ((if checkpointDue p1 ci then [cp] else []) ++ new).
    rewrite length_app.
    split; [rewrite Hlogs2, Hl3, Hlogs1, app_assoc; reflexivity|].
    split; [rewrite Hsaved, Hw3, app_assoc; reflexivity|].
    assert (Hcp : Tallies.processed (Checkpoint.summary cp) = p1)
      by (unfold cp, checkpointOf; cbn; exact Hp1).
    split.
    { apply Forall_app. split; [|exact Hgood].
      destruct (checkpointDue p1 ci) eqn:Hdue; constructor; [|constructor].
      unfold wellPlaced, cp, checkpointOf.
      cbn [Checkpoint.summary Tallies.processed Checkpoint.lastProcessedIndex
           Checkpoint.processedMints].
      rewrite Hp1. auto. }
    split.
    { intros cp' Hin. apply in_app_or in Hin as [Hin|Hin].
      - destruct (checkpointDue p1 ci); [|destruct Hin].
        destruct Hin as [<-|[]]. rewrite Hcp. unfold p1. lia.
      - specialize (Honly cp' Hin).
        rewrite Forall_forall in Hgood. destruct (Hgood cp' Hin) as [[[_ Hle] _] _].
        unfold p1 in *. lia. }
    intros p Hp Hce Hle Hdue.
    destruct (Z.eq_dec p p1) as [->|Hne].
    { exists cp. rewrite Hdue. split; [apply in_or_app; left; now left|exact Hcp]. }
    assert (Hgt : (p1 < p)%Z).
    { destruct (Z.lt_ge_cases p p1) as [A|A]; [|lia].
      exfalso. apply (Hnone p Hp A Hce). }
    destruct (Hall p) as (cp' & Hin & Hcp'); [| exact Hce | | exact Hdue |].
    { destruct Hce as [[_ Hle'] _]. unfold p1 in Hgt. lia. }
    { destruct Hce as [[_ Hle'] _]. unfold p1 in Hgt. lia. }
    exists cp'. split; [apply in_or_app; now right|exact Hcp'].
Qed.

End Loop.

Lemma array_slice_from_0 {A} (l : list A) : array_slice_from l 0 = l.
Proof.
  unfold array_slice_from, array_slice.
  replace (0 <? 0)%Z with false by reflexivity.
  replace (Z.of_nat (List.length l) <? 0)%Z with false
    by (symmetry; apply Z.ltb_ge; lia).
  replace (Z.min 0 (Z.of_nat (List.length l))) with 0%Z by lia.
  rewrite Z.min_id, Z.sub_0_r, Nat2Z.id. cbn [Z.to_nat skipn]. apply firstn_all.
Qed.

Section Run.
Context {P : Platform}.
Variable config : Config.t.
Variable wallet : PublicKey.

Lemma resumeFrom_spec (ranged : list NFTMetadata.t) (w : World) :
  exists resumed, resumeFrom config ranged w = (w, Ok resumed).
Proof.
  unfold resumeFrom, bind, loadCheckpoint, ret.
  destruct (Config.resumeFromCheckpoint config); [|eauto].
  destruct (checkpointFile w); eauto.
Qed.

Lemma resumeFrom_planned (parsed : list NFTMetadata.t) (w : World) :
  resumeFrom config (filterByRange parsed (Config.nftRange config)) w
  = (w, Ok (planned config parsed w)).
Proof.
  unfold planned.
  destruct (resumeFrom_spec (filterByRange parsed (Config.nftRange config)) w)
    as [resumed ->]. reflexivity.
Qed.

Lemma planned_fresh (parsed : list NFTMetadata.t) (w : World) :
  Config.resumeFromCheckpoint config = false ->
  startIndex (planned config parsed w) = 0%Z
  /\ toProcess config parsed w = filterByRange parsed (Config.nftRange config).
Proof.
  intros H. unfold toProcess, planned, resumeFrom. rewrite H.
  unfold ret, freshStart. cbn [startIndex allMetadata].
  split; [reflexivity|apply array_slice_from_0].
Qed.

Lemma quiet_finish (c : Counters) (startTime : JsString) :
  quiet (finish config c startTime).
Proof.
  unfold finish.
  apply quiet_bind; [apply quiet_now|]. intros endTime.
  apply quiet_bind; [intros w; reflexivity|]. intros logged.
  apply quiet_bind.
  { intros w. unfold saveLogs. cbn [fst emit events].
    rewrite savedCheckpoints_app. apply app_nil_r. }
  intros _. apply quiet_bind; [now apply quiet_emit|]. intros _.
  apply quiet_bind.
  { destruct (0 <? List.length (failedMints c))%nat;
      [now apply quiet_emit|apply quiet_ret]. }
  intros _. apply quiet_bind; [|intros _; apply quiet_ret].
  destruct (failedCount c =? 0)%Z; [|apply quiet_ret].
  intros w. unfold deleteCheckpoint. destruct (checkpointFile w); [|reflexivity].
  cbn [fst emit with_file events]. rewrite savedCheckpoints_app. apply app_nil_r.
Qed.

Lemma finish_logs (c : Counters) (startTime : JsString) (w : World) :
  logs (fst (finish config c startTime w)) = logs w.
Proof.
  unfold finish, bind, now, getLogs, saveLogs, saveSummary, saveFailedNFTs,
    deleteCheckpoint, ret.
  destruct (0 <? List.length (failedMints c))%nat; destruct (failedCount c =? 0)%Z;
    cbn [emit with_file checkpointFile events logs remote fst snd];
    try destruct (checkpointFile w);
    cbn [emit with_file checkpointFile events logs remote fst snd];
    reflexivity.
Qed.

Lemma finish_completes (c : Counters) (startTime : JsString) (w : World) :
  exists summary, snd (finish config c startTime w) = Ok (Completed summary).
Proof.
  unfold finish, bind, now, getLogs, saveLogs, saveSummary, saveFailedNFTs,
    deleteCheckpoint, ret.
  destruct (0 <? List.length (failedMints c))%nat; destruct (failedCount c =? 0)%Z;
    cbn [emit checkpointFile]; try destruct (checkpointFile w); cbn [snd]; eauto.
Qed.

(** [main] as one case analysis. *)
Lemma main_eq (parsed : list NFTMetadata.t) (answer : bool) (budget : nat) (w : World) :
  main config wallet parsed answer budget w =
    if (List.length (toProcess config parsed w) =? 0)%nat then (w, NothingToProcess)
    else if negb (Config.skipConfirm config) && negb answer then (w, Cancelled)
    else
      match batches config wallet budget (toProcess config parsed w)
              (startIndex (planned config parsed w)) 0
              (startCounters (planned config parsed w)) w with
      | (w1, Ok (Some c)) =>
        match finish config c (toISOString (remote w)) w1 with
        | (w2, Ok e) => (w2, e)
        | (w2, Throw e) => (w2, Fatal e)
        end
      | (w1, Ok None) => (w1, Killed)
      | (w1, Throw e) => (w1, Fatal e)
      end.
Proof.
  unfold main, run. unfold bind at 1. rewrite resumeFrom_planned.
  fold (toProcess config parsed w).
  destruct (List.length (toProcess config parsed w) =? 0)%nat; [reflexivity|].
  destruct (negb (Config.skipConfirm config) && negb answer); [reflexivity|].
  unfold bind at 1. unfold now at 1. unfold bind at 1.
  fold (startCounters (planned config parsed w)).
  destruct (batches config wallet budget (toProcess config parsed w)
              (startIndex (planned config parsed w)) 0
              (startCounters (planned config parsed w)) w) as [w1 [[c|]|e]];
    reflexivity.
Qed.

(** A resumed run works on no record whose mint is in the checkpoint. *)
Lemma toProcess_resumed (parsed : list NFTMetadata.t) (w : World)
    (checkpoint : Checkpoint.t) (metadata : NFTMetadata.t) :
  Config.resumeFromCheckpoint config = true ->
  checkpointFile w = Some checkpoint ->
  In metadata (toProcess config parsed w) ->
  ~ In (NFTMetadata.mint metadata) (Checkpoint.processedMints checkpoint).
Proof.
  intros Hres Hfile Hin Hmint.
  unfold toProcess, planned, resumeFrom in Hin. rewrite Hres in Hin.
  unfold bind, loadCheckpoint, ret in Hin. rewrite Hfile in Hin.
  cbn [startIndex allMetadata] in Hin.
  unfold array_slice_from, array_slice in Hin.
  apply In_firstn, In_skipn, filter_In in Hin as [_ Hin].
  apply negb_true_iff in Hin.
  assert (T : includes (Checkpoint.processedMints checkpoint)
                (NFTMetadata.mint metadata) = true).
  { unfold includes. apply existsb_exists.
    exists (NFTMetadata.mint metadata).
    split; [exact Hmint|apply BufferFacts.str_eqb_refl]. }
  congruence.
Qed.

(** C8 fails on the code, in two ways.  Whatever way a run with a
    positive chunk size ends, with [R] the results it has logged, it has
    written a checkpoint for exactly those ends of a chunk it got through
    at which the number of records processed is a multiple of the
    interval: a multiple of the interval reached inside a chunk writes
    nothing.  And each checkpoint holds, as [processedMints], the mints
    of the records this process has processed so far, counted from the
    offset at which it started: in a resumed run none of the mints of the
    checkpoint it resumed from is among them.  [lastProcessedIndex] is
    the starting offset plus the number processed minus one, as the
    claim says. *)
Theorem checkpoints_of_a_run (parsed : list NFTMetadata.t) (answer : bool)
    (budget : nat) (w : World) :
  (0 < Config.batchSize config)%Z ->
  let start := startIndex (planned config parsed w) in
  let metadata := toProcess config parsed w in
  let out := main config wallet parsed answer budget w in
  exists R new,
    logs (fst out) = logs w ++ R
    /\ savedCheckpoints (events (fst out)) = savedCheckpoints (events w) ++ new
    /\ Forall (wellPlaced config start metadata) new
    /\ (forall cp, In cp new ->
        (Tallies.processed (Checkpoint.summary cp) <= Z.of_nat (List.length R))%Z)
    /\ (forall p, chunkEnd config metadata p ->
                  (p <= Z.of_nat (List.length R))%Z ->
                  checkpointDue p (Config.checkpointInterval config) = true ->
                  exists cp, In cp new
                             /\ Tallies.processed (Checkpoint.summary cp) = p)
    /\ (Config.resumeFromCheckpoint config = false ->
        start = 0%Z /\ metadata = filterByRange parsed (Config.nftRange config))
    /\ (forall checkpoint,
          Config.resumeFromCheckpoint config = true ->
          checkpointFile w = Some checkpoint ->
          forall cp mint,
            In cp new -> In mint (Checkpoint.processedMints checkpoint) ->
            ~ In mint (Checkpoint.processedMints cp)).
Proof.
  intros Hbs. cbv zeta.
  assert (Hfresh := planned_fresh parsed w).
  assert (Hold : forall new,
            Forall (wellPlaced config (startIndex (planned config parsed w))
                      (toProcess config parsed w)) new ->
            forall checkpoint,
              Config.resumeFromCheckpoint config = true ->
              checkpointFile w = Some checkpoint ->
              forall cp mint,
                In cp new -> In mint (Checkpoint.processedMints checkpoint) ->
                ~ In mint (Checkpoint.processedMints cp)).
  { intros new Hgood checkpoint Hres Hfile cp mint Hin Hmint Hcp.
    rewrite Forall_forall in Hgood. destruct (Hgood cp Hin) as (_ & _ & _ & Hpm).
    rewrite Hpm in Hcp. apply in_map_iff in Hcp as (metadata & <- & Hmd).
    apply In_firstn in Hmd.
    exact (toProcess_resumed parsed w checkpoint metadata Hres Hfile Hmd Hmint). }
  rewrite main_eq.
  set (metadata := toProcess config parsed w) in *.
  set (start := startIndex (planned config parsed w)) in *.
  destruct (List.length metadata =? 0)%nat.
  { exists [], []. cbn [fst snd]. rewrite !app_nil_r.
    split; [reflexivity|]. split; [reflexivity|]. split; [constructor|].
    split; [intros cp []|]. split; [|split; [exact Hfresh|exact (Hold [] (Forall_nil _))]].
    intros p [[Hp _] _] Hle. cbn in Hle. lia. }
  destruct (negb (Config.skipConfirm config) && negb answer).
  { exists [], []. cbn [fst snd]. rewrite !app_nil_r.
    split; [reflexivity|]. split; [reflexivity|]. split; [constructor|].
    split; [intros cp []|]. split; [|split; [exact Hfresh|exact (Hold [] (Forall_nil _))]].
    intros p [[Hp _] _] Hle. cbn in Hle. lia. }
  set (counters := startCounters (planned config parsed w)).
  assert (Hinv : (0 < Z.of_nat (List.length metadata))%Z ->
                 processedCount counters = 0%Z
                 /\ processedMints counters
                    = map NFTMetadata.mint (firstn (Z.to_nat 0) metadata))
    by (intros _; split; reflexivity).
  destruct (batches_checkpoints config wallet start metadata Hbs budget 0 counters w
              (Z.le_refl 0) (Z.divide_0_r _) Hinv)
    as (R & new & Hlogs & Hsaved & Hgood & Honly & Hall).
  assert (Honly' : forall cp, In cp new ->
            (Tallies.processed (Checkpoint.summary cp) <= Z.of_nat (List.length R))%Z)
    by (intros cp Hin; specialize (Honly cp Hin); lia).
  assert (Hall' : forall p, chunkEnd config metadata p ->
            (p <= Z.of_nat (List.length R))%Z ->
            checkpointDue p (Config.checkpointInterval config) = true ->
            exists cp, In cp new /\ Tallies.processed (Checkpoint.summary cp) = p).
  { intros p Hce Hle Hdue.
    apply (Hall p); [destruct Hce; lia|exact Hce|lia|exact Hdue]. }
  exists R, new.
  destruct (batches config wallet budget metadata start 0 counters w)
    as [w1 [[c|]|e]]; cbn [fst snd] in *.
  - pose proof (quiet_finish c (toISOString (remote w)) w1) as Hq.
    pose proof (finish_logs c (toISOString (remote w)) w1) as Hl.
    destruct (finish config c (toISOString (remote w)) w1) as [w2 [exit|e]];
      cbn [fst snd] in *;
      (split; [now rewrite Hl|]); (split; [now rewrite Hq|]);
      repeat (split; [assumption|]); exact (Hold new Hgood).
  - repeat (split; [assumption|]). exact (Hold new Hgood).
  - repeat (split; [assumption|]). exact (Hold new Hgood).
Qed.

End Run.

End RunFacts.

(** ** Resuming from a checkpoint *)

Module ResumeFacts.
Import Utils MetadataUpdater Index Props UpdateFacts RunFacts.

Lemma includes_In (l : list JsString) (x : JsString) :
  includes l x = true <-> In x l.
Proof.
  unfold includes. rewrite existsb_exists. split.
  - intros (y & Hy & E). apply BufferFacts.str_eqb_eq in E. now subst.
  - intros H. exists x. split; [exact H|apply BufferFacts.str_eqb_refl].
Qed.

Lemma NoDup_app_disjoint {A} (l1 l2 : list A) (x : A) :
  NoDup (l1 ++ l2) -> In x l1 -> In x l2 -> False.
Proof.
  induction l1 as [|a l1 IH]; cbn [app]; intros H H1 H2; [destruct H1|].
  inversion H as [|? ? Hnot Hrest]; subst.
  destruct H1 as [->|H1]; [|now apply IH].
  apply Hnot, in_or_app. now right.
Qed.

Lemma filter_none {A} (f : A -> bool) (l : list A) :
  (forall x, In x l -> f x = false) -> filter f l = [].
Proof.
  induction l as [|a l IH]; intros H; [reflexivity|]. cbn [filter].
  rewrite (H a (or_introl eq_refl)). apply IH. intros x Hx. apply H. now right.
Qed.

Lemma filter_every {A} (f : A -> bool) (l : list A) :
  (forall x, In x l -> f x = true) -> filter f l = l.
Proof.
  induction l as [|a l IH]; intros H; [reflexivity|]. cbn [filter].
  rewrite (H a (or_introl eq_refl)). f_equal. apply IH. intros x Hx. apply H. now right.
Qed.

(** Filtering out the mints of a prefix leaves the rest, when no mint
    occurs twice. *)
Lemma filter_processed (a b : list NFTMetadata.t) :
  NoDup (map NFTMetadata.mint (a ++ b)) ->
  filter (fun m => negb (includes (map NFTMetadata.mint a) (NFTMetadata.mint m)))
         (a ++ b)
  = b.
Proof.
  intros H. rewrite map_app in H. rewrite filter_app.
  rewrite filter_none, filter_every; [reflexivity| |].
  - intros m Hm. apply negb_true_iff.
    destruct (includes (map NFTMetadata.mint a) (NFTMetadata.mint m)) eqn:E;
      [|reflexivity].
    exfalso. apply includes_In in E.
    apply (NoDup_app_disjoint _ _ _ H E). apply in_map, Hm.
  - intros m Hm. apply negb_false_iff. apply includes_In, in_map, Hm.
Qed.

Lemma array_slice_from_skipn {A} (l : list A) (k : nat) :
  array_slice_from l (Z.of_nat k) = skipn k l.
Proof.
  unfold array_slice_from, array_slice.
  replace (Z.of_nat k <? 0)%Z with false by (symmetry; apply Z.ltb_ge; lia).
  replace (Z.of_nat (List.length l) <? 0)%Z with false
    by (symmetry; apply Z.ltb_ge; lia).
  rewrite Z.min_id.
  destruct (Nat.le_gt_cases k (List.length l)) as [L|G].
  - replace (Z.min (Z.of_nat k) (Z.of_nat (List.length l))) with (Z.of_nat k) by lia.
    rewrite Nat2Z.id. apply firstn_all2. rewrite length_skipn. lia.
  - replace (Z.min (Z.of_nat k) (Z.of_nat (List.length l)))
      with (Z.of_nat (List.length l)) by lia.
    rewrite Z.sub_diag, Nat2Z.id, skipn_all. cbn [Z.to_nat firstn].
    symmetry. apply skipn_all2. lia.
Qed.

Section Resume.
Context {P : Platform}.
Variable config : Config.t.
Variable wallet : PublicKey.

(** A run that completes has processed every record it set out with. *)
Lemma batches_processes_all (metadata : list NFTMetadata.t) (start : Z) (budget : nat) :
  (0 < Config.batchSize config)%Z ->
  forall (i : Z) (c c' : Counters) (w : World),
    (0 <= i)%Z ->
    ((i < Z.of_nat (List.length metadata))%Z -> processedCount c = i) ->
    snd (batches config wallet budget metadata start i c w) = Ok (Some c') ->
    processedCount c'
    = if (i <? Z.of_nat (List.length metadata))%Z then Z.of_nat (List.length metadata)
      else processedCount c.
Proof.
  intros Hbs. induction budget as [|budget IH]; intros i c c' w Hi Hinv Hout.
  - destruct (Z.ltb_spec i (Z.of_nat (List.length metadata))) as [L|G].
    + rewrite batches_killed in Hout by exact L. discriminate.
    + rewrite batches_done in Hout by exact G. now injection Hout as <-.
  - destruct (Z.ltb_spec i (Z.of_nat (List.length metadata))) as [L|G].
    2:{ rewrite batches_done in Hout by exact G. now injection Hout as <-. }
    rewrite batches_step in Hout by exact L.
    destruct (processBatch wallet
                (array_slice metadata i (i + Config.batchSize config))
                (Config.dryRun config) (Config.maxRetries config)
                (Config.retryDelayMs config) w)
      as [w1 [results|e]] eqn:Hpb; [|discriminate].
    cbv zeta in Hout. apply processBatch_mints in Hpb.
    destruct (tally_all results c) as [Hc1 _].
    assert (Hp1 : processedCount (fold_left tally results c)
                  = Z.min (i + Config.batchSize config) (Z.of_nat (List.length metadata))).
    { rewrite Hc1, (Hinv L).
      rewrite <- (length_map ProcessResult.mint), Hpb, length_map.
      rewrite (chunk_length config metadata Hbs) by lia. lia. }
    apply IH in Hout; [|lia|intros L'; rewrite Hp1; lia].
    rewrite Hout, Hp1.
    destruct (Z.ltb_spec (i + Config.batchSize config)
                (Z.of_nat (List.length metadata))); lia.
Qed.

Lemma finish_summary (c : Counters) (startTime : JsString) (w : World)
    (summary : Summary.t) :
  snd (finish config c startTime w) = Ok (Completed summary) ->
  Summary.totalProcessed summary = processedCount c
  /\ Summary.successfullyUpdated summary = updatedCount c
  /\ Summary.skipped summary = skippedCount c
  /\ Summary.failed summary = failedCount c.
Proof.
  unfold finish, bind, now, getLogs, saveLogs, saveSummary, saveFailedNFTs,
    deleteCheckpoint, ret, createSummary.
  destruct (0 <? List.length (failedMints c))%nat; destruct (failedCount c =? 0)%Z;
    cbn [emit checkpointFile]; try destruct (checkpointFile w); cbn [snd];
    intros [= <-]; cbn; auto.
Qed.

(** The count of processed records in the summary of a completed run is
    the number of records it set out with. *)
Lemma completed_run_count (parsed : list NFTMetadata.t) (answer : bool) (budget : nat)
    (w : World) (summary : Summary.t) :
  (0 < Config.batchSize config)%Z ->
  snd (main config wallet parsed answer budget w) = Completed summary ->
  Summary.totalProcessed summary
  = Z.of_nat (List.length (toProcess config parsed w)).
Proof.
  intros Hbs. rewrite main_eq.
  destruct (List.length (toProcess config parsed w) =? 0)%nat eqn:E0; [discriminate|].
  destruct (negb (Config.skipConfirm config) && negb answer); [discriminate|].
  pose proof (fun c' =>
                batches_processes_all (toProcess config parsed w)
                  (startIndex (planned config parsed w)) budget Hbs 0
                  (startCounters (planned config parsed w)) c' w
                  (Z.le_refl 0) (fun _ => eq_refl)) as Hall.
  destruct (batches config wallet budget (toProcess config parsed w)
              (startIndex (planned config parsed w)) 0
              (startCounters (planned config parsed w)) w)
    as [w1 [[c|]|e]]; try discriminate.
  specialize (Hall c eq_refl).
  destruct (finish config c (toISOString (remote w)) w1) as [w2 [exit|e]] eqn:Hf;
    cbn [snd]; [|discriminate].
  intros ->.
  assert (Hs : snd (finish config c (toISOString (remote w)) w1) = Ok (Completed summary))
    by (now rewrite Hf).
  apply finish_summary in Hs as [-> _]. rewrite Hall.
  apply Nat.eqb_neq in E0.
  destruct (Z.ltb_spec 0 (Z.of_nat (List.length (toProcess config parsed w)))); lia.
Qed.

(** C1 fails on the code: a resumed run drops the records of the
    checkpoint twice, once by their mints and once more by position.  With
    a checkpoint taken after the first [k] of [N] records, the run works on
    the records from position [2 k] on, not on the [N - k] that remain,
    and if it completes it reports [N - 2 k] records as processed. *)
Theorem resume_skips_twice (manifest : list NFTMetadata.t) (k : nat)
    (checkpoint : Checkpoint.t) (answer : bool) (budget : nat) (w : World) :
  (0 < Config.batchSize config)%Z ->
  Config.resumeFromCheckpoint config = true ->
  Config.nftRange config = None ->
  NoDup (map NFTMetadata.mint manifest) ->
  checkpointFile w = Some checkpoint ->
  Checkpoint.lastProcessedIndex checkpoint = (Z.of_nat k - 1)%Z ->
  Checkpoint.processedMints checkpoint = map NFTMetadata.mint (firstn k manifest) ->
  toProcess config manifest w = skipn (2 * k) manifest
  /\ (forall summary,
        snd (main config wallet manifest answer budget w) = Completed summary ->
        Summary.totalProcessed summary = Z.of_nat (List.length manifest - 2 * k)).
Proof.
  intros Hbs Hres Hrange Hnodup Hfile Hlast Hmints.
  assert (Hto : toProcess config manifest w = skipn (2 * k) manifest).
  { unfold toProcess, planned, resumeFrom. rewrite Hres, Hrange.
    unfold bind, loadCheckpoint, ret. rewrite Hfile.
    cbn [startIndex allMetadata filterByRange]. rewrite Hlast, Hmints.
    replace (Z.of_nat k - 1 + 1)%Z with (Z.of_nat k) by lia.
    rewrite array_slice_from_skipn.
    pose proof (filter_processed (firstn k manifest) (skipn k manifest)) as F.
    rewrite firstn_skipn in F. rewrite (F Hnodup).
    rewrite skipn_skipn. f_equal. lia. }
  split; [exact Hto|]. intros summary Hs.
  rewrite (completed_run_count manifest answer budget w summary Hbs Hs), Hto.
  now rewrite length_skipn.
Qed.

End Resume.
End ResumeFacts.

(** ** Runs at concrete inputs *)

Module RunScenarioFacts.
Import Utils MetadataUpdater Index Props Scenario RunFacts ResumeFacts.

Lemma distinct_NoDup (l : list JsString) : distinct l = true -> NoDup l.
Proof.
  induction l as [|x l IH]; cbn [distinct]; intros H; constructor.
  - apply andb_prop in H as [H _]. apply negb_true_iff in H.
    intros Hin. apply includes_In in Hin. congruence.
  - apply IH. now apply andb_prop in H as [_ H].
Qed.

(** The first process is stopped after its first record; the second
    resumes, works on the records from position 2 on, and reports 3
    processed where one uninterrupted run reports 5. *)
Lemma resume_skips_twice_witness :
  (snd firstProcess = Killed
   /\ map ProcessResult.mint (logs (fst firstProcess)) = firstn 1 mints
   /\ Checkpoint.processedMints leftBehind = firstn 1 mints)
  /\ (toProcess (configOf 1 1 true true) manifest (restart (fst firstProcess))
      = skipn (2 * 1) manifest
      /\ (forall summary,
            snd (main (P := scripted) (configOf 1 1 true true) walletKey manifest true 10
                   (restart (fst firstProcess))) = Completed summary ->
            Summary.totalProcessed summary
            = Z.of_nat (List.length manifest - 2 * 1)))
  /\ reported (snd (main (P := scripted) (configOf 1 1 true true) walletKey manifest
                      true 10 (restart (fst firstProcess))))
     = Some (3, 4, 0, 0)%Z
  /\ reported (snd (main (P := scripted) (configOf 1 1 true false) walletKey manifest
                      true 10 (worldOf (nodeOf walletKey 0) None)))
     = Some (5, 5, 0, 0)%Z.
Proof.
  split; [vm_compute; repeat split|].
  split; [|vm_compute; split; reflexivity].
  apply (resume_skips_twice (P := scripted) (configOf 1 1 true true) walletKey manifest 1
           leftBehind true 10 (restart (fst firstProcess))).
  - reflexivity.
  - reflexivity.
  - reflexivity.
  - apply distinct_NoDup. vm_compute. reflexivity.
  - vm_compute. reflexivity.
  - vm_compute. reflexivity.
  - vm_compute. reflexivity.
Defined.

(** Two runs.  Three records in one chunk of three with a checkpoint
    interval of two: all three are processed, the second is the
    interval's, and no checkpoint is written.  And the resumed run of C1:
    the first process wrote a checkpoint with the first mint and stopped;
    the second resumes from it.  Its three checkpoints hold the mints it
    processed itself and count three records as processed beside four as
    updated; the first mint is in none of them, though its result was
    logged. *)
Lemma checkpoints_of_a_run_witness :
  (let out := main (P := scripted) (configOf 3 2 true false) walletKey
                (firstn 3 manifest) true 10 (worldOf (nodeOf walletKey 0) None) in
   reported (snd out) = Some (3, 3, 0, 0)%Z
   /\ map ProcessResult.mint (logs (fst out)) = firstn 3 mints
   /\ checkpointDue 2 (Config.checkpointInterval (configOf 3 2 true false)) = true
   /\ savedCheckpoints (events (fst out)) = [])
  /\
  let config := configOf 1 1 true true in
  let w := restart (fst firstProcess) in
  let start := startIndex (planned config manifest w) in
  let metadata := toProcess config manifest w in
  let out := main (P := scripted) config walletKey manifest true 10 w in
  (checkpointFile w = Some leftBehind
   /\ Checkpoint.processedMints leftBehind = firstn 1 mints
   /\ map Checkpoint.processedMints (savedCheckpoints (events (fst out)))
      = [firstn 1 (skipn 2 mints); firstn 2 (skipn 2 mints); skipn 2 mints]
   /\ map (fun cp => (Tallies.processed (Checkpoint.summary cp),
                      Tallies.updated (Checkpoint.summary cp)))
          (savedCheckpoints (events (fst out)))
      = [(1, 2); (2, 3); (3, 4)]%Z)
  /\ exists R new,
       logs (fst out) = logs w ++ R
       /\ savedCheckpoints (events (fst out)) = savedCheckpoints (events w) ++ new
       /\ Forall (wellPlaced config start metadata) new
       /\ (forall cp, In cp new ->
           (Tallies.processed (Checkpoint.summary cp) <= Z.of_nat (List.length R))%Z)
       /\ (forall p, chunkEnd config metadata p ->
                     (p <= Z.of_nat (List.length R))%Z ->
                     checkpointDue p (Config.checkpointInterval config) = true ->
                     exists cp, In cp new
                                /\ Tallies.processed (Checkpoint.summary cp) = p)
       /\ (Config.resumeFromCheckpoint config = false ->
           start = 0%Z /\ metadata = filterByRange manifest (Config.nftRange config))
       /\ (forall checkpoint,
             Config.resumeFromCheckpoint config = true ->
             checkpointFile w = Some checkpoint ->
             forall cp mint,
               In cp new -> In mint (Checkpoint.processedMints checkpoint) ->
               ~ In mint (Checkpoint.processedMints cp)).
Proof.
  split; [vm_compute; repeat split|].
  split; [vm_compute; repeat split|].
  apply (checkpoints_of_a_run (P := scripted) (configOf 1 1 true true) walletKey manifest
           true 10 (restart (fst firstProcess))).
  reflexivity.
Defined.

End RunScenarioFacts.

(** ** What a run logs, counts and leaves behind *)

Module RunLogFacts.
Import Utils MetadataUpdater Index Props Observe UpdateFacts RunFacts StableFacts.

Lemma savedFailed_app (a b : list Event) :
  savedFailed (a ++ b) = savedFailed a ++ savedFailed b.
Proof. induction a as [|[] a IH]; cbn; congruence. Qed.

Lemma savedLogs_app (a b : list Event) : savedLogs (a ++ b) = savedLogs a ++ savedLogs b.
Proof. induction a as [|[] a IH]; cbn; congruence. Qed.

Lemma savedSummaries_app (a b : list Event) :
  savedSummaries (a ++ b) = savedSummaries a ++ savedSummaries b.
Proof. induction a as [|[] a IH]; cbn; congruence. Qed.

Lemma lastOr_app (file : option Checkpoint.t) (a b : list Checkpoint.t) :
  lastOr file (a ++ b) = lastOr (lastOr file a) b.
Proof.
  unfold lastOr. rewrite rev_app_distr.
  destruct (rev b) as [|c rb]; [reflexivity|reflexivity].
Qed.

(** The counters after a list of results, status by status. *)
Lemma tally_counts (results : list ProcessResult.t) :
  forall c,
    updatedCount (fold_left tally results c)
    = (updatedCount c + countStatus updated results)%Z
    /\ skippedCount (fold_left tally results c)
       = (skippedCount c + countStatus skipped results)%Z
    /\ failedCount (fold_left tally results c)
       = (failedCount c + countStatus error results)%Z
    /\ failedMints (fold_left tally results c) = failedMints c ++ failedOf results.
Proof.
  unfold countStatus, failedOf.
  induction results as [|r results IH]; intros c; cbn [fold_left filter].
  - cbn. rewrite !Z.add_0_r, app_nil_r. auto.
  - destruct (IH (tally c r)) as (-> & -> & -> & ->).
    cbn [tally updatedCount skippedCount failedCount failedMints].
    destruct (ProcessResult.status r); cbn [Status_eqb List.length map];
      rewrite <- ?app_assoc; cbn [app]; repeat split; lia.
Qed.

Lemma countStatus_total (results : list ProcessResult.t) :
  (countStatus updated results + countStatus skipped results
   + countStatus error results)%Z
  = Z.of_nat (List.length results).
Proof.
  unfold countStatus. induction results as [|r results IH]; [reflexivity|].
  cbn [filter List.length]. destruct (ProcessResult.status r);
    cbn [Status_eqb List.length]; lia.
Qed.

Lemma failedOf_nil_iff (results : list ProcessResult.t) :
  failedOf results = [] <-> countStatus error results = 0%Z.
Proof.
  unfold failedOf, countStatus.
  destruct (filter _ results); cbn; split; intros; try reflexivity;
    try discriminate; lia.
Qed.

Section Results.
Context {P : Platform}.
Variable config : Config.t.
Variable wallet : PublicKey.

(** A property every result of an update has, given its record. *)
Variable Q : NFTMetadata.t -> ProcessResult.t -> Prop.
Hypothesis update_Q :
  forall metadata w w' result,
    updateNFTMetadata wallet metadata (Config.dryRun config)
      (Config.maxRetries config) (Config.retryDelayMs config) w = (w', Ok result) ->
    Q metadata result.

Lemma processBatch_from_results (batch : list NFTMetadata.t) :
  forall acc w w' results,
    processBatch_from wallet batch (Config.dryRun config) (Config.maxRetries config)
      (Config.retryDelayMs config) acc w = (w', Ok results) ->
    exists R, results = acc ++ R /\ logs w' = logs w ++ R /\ Forall2 Q batch R.
Proof.
  induction batch as [|metadata batch IH]; intros acc w w' results H;
    cbn [processBatch_from] in H.
  - apply ret_inv in H as [-> ->]. exists []. rewrite !app_nil_r. auto.
  - apply bind_ok_inv in H as (w1 & result & Hu & H).
    apply bind_ok_inv in H as (w2 & [] & Hl & H).
    apply bind_ok_inv in H as (w3 & [] & Hs & H).
    apply IH in H as (R & -> & Hlogs & HR).
    exists (result :: R). rewrite <- app_assoc. split; [reflexivity|].
    split; [|constructor; [now apply update_Q in Hu|exact HR]].
    rewrite Hlogs. injection Hs as <-. injection Hl as <-.
    cbn [emit logs]. rewrite <- app_assoc.
    pose proof (update_keeps_logs wallet metadata (Config.dryRun config)
                  (Config.maxRetries config) (Config.retryDelayMs config) w) as K.
    rewrite Hu in K. cbn [fst] in K. now rewrite K.
Qed.

Lemma skipn_chunk (metadata : list NFTMetadata.t) (i : Z) :
  (0 < Config.batchSize config)%Z ->
  (0 <= i < Z.of_nat (List.length metadata))%Z ->
  skipn (Z.to_nat i) metadata
  = array_slice metadata i (i + Config.batchSize config)
    ++ skipn (Z.to_nat (i + Config.batchSize config)) metadata.
Proof.
  intros Hbs Hi. rewrite (array_slice_chunk config metadata Hbs i Hi).
  rewrite <- (firstn_skipn
                (Z.to_nat (Z.min (i + Config.batchSize config)
                             (Z.of_nat (List.length metadata)) - i))
                (skipn (Z.to_nat i) metadata)) at 1.
  f_equal. rewrite skipn_skipn.
  destruct (Z.le_gt_cases (i + Config.batchSize config)
              (Z.of_nat (List.length metadata))) as [A|A].
  - f_equal. lia.
  - rewrite !skipn_all2 by lia. reflexivity.
Qed.

(** A loop that ends has logged one result per record it had left, in
    order, and counted exactly these. *)
Lemma batches_results (metadata : list NFTMetadata.t) (start : Z) (budget : nat) :
  (0 < Config.batchSize config)%Z ->
  forall i c w w' c',
    (0 <= i)%Z ->
    batches config wallet budget metadata start i c w = (w', Ok (Some c')) ->
    exists R,
      logs w' = logs w ++ R
      /\ c' = fold_left tally R c
      /\ Forall2 Q (skipn (Z.to_nat i) metadata) R.
Proof.
  intros Hbs. induction budget as [|budget IH]; intros i c w w' c' Hi H.
  - destruct (Z.lt_ge_cases i (Z.of_nat (List.length metadata))) as [L|G].
    + rewrite batches_killed in H by exact L. discriminate.
    + rewrite batches_done in H by exact G. injection H as <- <-.
      exists []. rewrite app_nil_r, skipn_all2 by lia. repeat split. constructor.
  - destruct (Z.lt_ge_cases i (Z.of_nat (List.length metadata))) as [L|G].
    2:{ rewrite batches_done in H by exact G. injection H as <- <-.
        exists []. rewrite app_nil_r, skipn_all2 by lia. repeat split. constructor. }
    rewrite batches_step in H by exact L.
    destruct (processBatch wallet
                (array_slice metadata i (i + Config.batchSize config))
                (Config.dryRun config) (Config.maxRetries config)
                (Config.retryDelayMs config) w)
      as [w1 [results|e]] eqn:Hpb; [|discriminate].
    cbv zeta in H.
    apply processBatch_from_results in Hpb as (R1 & HR1 & Hlogs1 & HQ1).
    cbn [app] in HR1. subst results.
    apply IH in H as (R2 & Hlogs2 & -> & HQ2); [|lia].
    exists (R1 ++ R2). rewrite fold_left_app. split; [|split; [reflexivity|]].
    + rewrite Hlogs2.
      assert (E : forall x, logs (if checkpointDue x (Config.checkpointInterval config)
                                  then with_file
                                         (Some (checkpointOf start (fold_left tally R1 c)
                                                  (toISOString (remote w1))))
                                         (emit (SavedCheckpoint
                                                  (checkpointOf start (fold_left tally R1 c)
                                                     (toISOString (remote w1)))) w1)
                                  else w1) = logs w1)
        by (intros x; destruct (checkpointDue x _); reflexivity).
      destruct (i + Config.batchSize config <? Z.of_nat (List.length metadata))%Z;
        cbn [emit logs]; rewrite E, Hlogs1, app_assoc; reflexivity.
    + rewrite (skipn_chunk metadata i Hbs) by lia.
      apply Forall2_app; assumption.
Qed.

End Results.

Section Leftovers.
Context {P : Platform}.
Variable config : Config.t.
Variable wallet : PublicKey.

(** What the end of [main] does, piece by piece. *)
Lemma finish_spec (c : Counters) (startTime : JsString) (w : World) :
  let summary :=
    createSummary (processedCount c) (updatedCount c) (skippedCount c) (failedCount c)
      (if Config.dryRun config then 0%float
       else calculateTotalCost (logs w) AVG_FEE_PER_TX)
      startTime (toISOString (remote w)) in
  let out := finish config c startTime w in
  snd out = Ok (Completed summary)
  /\ logs (fst out) = logs w
  /\ remote (fst out) = remote w
  /\ checkpointFile (fst out)
     = (if (failedCount c =? 0)%Z then None else checkpointFile w)
  /\ events (fst out)
     = events w ++ [SavedLogs (logs w); SavedSummary summary]
       ++ (if (0 <? List.length (failedMints c))%nat
           then [SavedFailedNFTs (failedMints c)] else [])
       ++ (if (failedCount c =? 0)%Z
           then match checkpointFile w with
                | Some _ => [DeletedCheckpoint]
                | None => []
                end
           else []).
Proof.
  cbv zeta.
  unfold finish, bind, now, getLogs, saveLogs, saveSummary, saveFailedNFTs,
    deleteCheckpoint, ret.
  destruct (0 <? List.length (failedMints c))%nat; destruct (failedCount c =? 0)%Z;
    cbn [emit with_file checkpointFile events logs remote fst snd];
    try (destruct (checkpointFile w) eqn:F);
    cbn [emit with_file checkpointFile events logs remote fst snd];
    rewrite <- ?app_assoc; cbn [app]; rewrite ?app_nil_r; repeat split;
    auto.
Qed.

(** The loop leaves in the file the last checkpoint it wrote. *)
Lemma batches_file (metadata : list NFTMetadata.t) (start : Z) (budget : nat) :
  forall i c w,
    let out := batches config wallet budget metadata start i c w in
    exists new,
      savedCheckpoints (events (fst out)) = savedCheckpoints (events w) ++ new
      /\ checkpointFile (fst out) = lastOr (checkpointFile w) new.
Proof.
  induction budget as [|budget IH]; intros i c w out; subst out.
  - destruct (Z.lt_ge_cases i (Z.of_nat (List.length metadata))) as [L|G].
    + rewrite batches_killed by exact L. exists []. cbn [fst emit events checkpointFile].
      rewrite savedCheckpoints_app. cbn. now rewrite !app_nil_r.
    + rewrite batches_done by exact G. exists []. cbn. now rewrite app_nil_r.
  - destruct (Z.lt_ge_cases i (Z.of_nat (List.length metadata))) as [L|G].
    2:{ rewrite batches_done by exact G. exists []. cbn. now rewrite app_nil_r. }
    rewrite batches_step by exact L.
    pose proof (quiet_processBatch_from wallet
                  (array_slice metadata i (i + Config.batchSize config))
                  (Config.dryRun config) (Config.maxRetries config)
                  (Config.retryDelayMs config) [] w) as Hq.
    pose proof (processBatch_keeps_file wallet
                  (array_slice metadata i (i + Config.batchSize config))
                  (Config.dryRun config) (Config.maxRetries config)
                  (Config.retryDelayMs config) w) as Hf.
    fold (processBatch wallet (array_slice metadata i (i + Config.batchSize config))
            (Config.dryRun config) (Config.maxRetries config)
            (Config.retryDelayMs config)) in Hq.
    destruct (processBatch wallet
                (array_slice metadata i (i + Config.batchSize config))
                (Config.dryRun config) (Config.maxRetries config)
                (Config.retryDelayMs config) w)
      as [w1 [results|e]]; cbn [fst] in Hq, Hf.
    2:{ exists []. cbn [fst]. rewrite app_nil_r. split; [exact Hq|exact Hf]. }
    cbv zeta.
    set (c1 := fold_left tally results c).
    set (cp := checkpointOf start c1 (toISOString (remote w1))).
    set (w2 := if checkpointDue (processedCount c1) (Config.checkpointInterval config)
               then with_file (Some cp) (emit (SavedCheckpoint cp) w1) else w1).
    set (w3 := if (i + Config.batchSize config <? Z.of_nat (List.length metadata))%Z
               then emit (Slept (Config.batchDelayMs config)) w2 else w2).
    set (mid := if checkpointDue (processedCount c1) (Config.checkpointInterval config)
                then [cp] else []).
    assert (H3 : savedCheckpoints (events w3) = savedCheckpoints (events w) ++ mid
                 /\ checkpointFile w3 = lastOr (checkpointFile w) mid).
    { unfold w3, w2, mid.
      destruct (checkpointDue (processedCount c1) (Config.checkpointInterval config));
        destruct (i + Config.batchSize config <? Z.of_nat (List.length metadata))%Z;
        cbn [emit with_file events checkpointFile];
        rewrite ?savedCheckpoints_app, Hq; cbn [savedCheckpoints lastOr rev app];
        rewrite ?app_nil_r; auto. }
    destruct H3 as [Hs3 Hf3].
    destruct (IH (i + Config.batchSize config)%Z c1 w3) as (new & Hs & Hfile).
    exists (mid ++ new). rewrite Hs, Hs3, Hfile, Hf3, lastOr_app, app_assoc. auto.
Qed.

(** The loop leaves an observation alone when a batch, a checkpoint, a
    sleep and the saving of the log do. *)
Lemma batches_stable {X} (obs : World -> X) (metadata : list NFTMetadata.t)
    (start : Z) (budget : nat) :
  (forall batch,
      stable obs (processBatch wallet batch (Config.dryRun config)
                    (Config.maxRetries config) (Config.retryDelayMs config))) ->
  (forall cp w, obs (with_file (Some cp) (emit (SavedCheckpoint cp) w)) = obs w) ->
  (forall ms w, obs (emit (Slept ms) w) = obs w) ->
  (forall l w, obs (emit (SavedLogs l) w) = obs w) ->
  forall i c, stable obs (batches config wallet budget metadata start i c).
Proof.
  intros Hpb Hcp Hsl Hlg. induction budget as [|budget IH]; intros i c w.
  - destruct (Z.lt_ge_cases i (Z.of_nat (List.length metadata))) as [L|G].
    + rewrite batches_killed by exact L. apply Hlg.
    + rewrite batches_done by exact G. reflexivity.
  - destruct (Z.lt_ge_cases i (Z.of_nat (List.length metadata))) as [L|G].
    2:{ rewrite batches_done by exact G. reflexivity. }
    rewrite batches_step by exact L.
    specialize (Hpb (array_slice metadata i (i + Config.batchSize config)) w).
    destruct (processBatch wallet
                (array_slice metadata i (i + Config.batchSize config))
                (Config.dryRun config) (Config.maxRetries config)
                (Config.retryDelayMs config) w)
      as [w1 [results|e]]; cbn [fst] in Hpb; [|exact Hpb].
    cbv zeta. rewrite IH.
    destruct (i + Config.batchSize config <? Z.of_nat (List.length metadata))%Z;
      rewrite ?Hsl;
      destruct (checkpointDue _ _); rewrite ?Hcp; exact Hpb.
Qed.

End Leftovers.
End RunLogFacts.

(** ** Properties of a whole run *)

Module RunProperties.
Import Utils MetadataUpdater Index Props Observe UpdateFacts RunFacts StableFacts
  RunLogFacts.

Section Run.
Context {P : Platform}.
Variable config : Config.t.
Variable wallet : PublicKey.

(** A completed run, taken apart: the loop ran from the planned start to
    counters [c] in world [w1], and the end of [main] ran from there. *)
Lemma completed_inv (parsed : list NFTMetadata.t) (answer : bool) (budget : nat)
    (w : World) (summary : Summary.t) :
  snd (main config wallet parsed answer budget w) = Completed summary ->
  exists w1 c,
    batches config wallet budget (toProcess config parsed w)
      (startIndex (planned config parsed w)) 0
      (startCounters (planned config parsed w)) w = (w1, Ok (Some c))
    /\ main config wallet parsed answer budget w
       = (fst (finish config c (toISOString (remote w)) w1), Completed summary)
    /\ snd (finish config c (toISOString (remote w)) w1) = Ok (Completed summary).
Proof.
  rewrite main_eq.
  destruct (List.length (toProcess config parsed w) =? 0)%nat;
    [cbn [snd]; discriminate|].
  destruct (negb (Config.skipConfirm config) && negb answer);
    [cbn [snd]; discriminate|].
  destruct (batches config wallet budget (toProcess config parsed w)
              (startIndex (planned config parsed w)) 0
              (startCounters (planned config parsed w)) w)
    as [w1 [[c|]|e]]; try (cbn [snd]; discriminate).
  destruct (finish config c (toISOString (remote w)) w1) as [w2 [exit|e]] eqn:Hf;
    cbn [fst snd]; [|discriminate].
  intros ->. exists w1, c. rewrite Hf. repeat split; reflexivity.
Qed.

(** The world a run leaves differs from the world after its loop only by
    what the end of [main] does. *)
Lemma main_stable {X} (obs : World -> X) (parsed : list NFTMetadata.t)
    (answer : bool) (budget : nat) (w : World) :
  (forall metadata start i c,
      stable obs (batches config wallet budget metadata start i c)) ->
  (forall c startTime, stable obs (finish config c startTime)) ->
  obs (fst (main config wallet parsed answer budget w)) = obs w.
Proof.
  intros Hb Hf. rewrite main_eq.
  destruct (List.length (toProcess config parsed w) =? 0)%nat; [reflexivity|].
  destruct (negb (Config.skipConfirm config) && negb answer); [reflexivity|].
  specialize (Hb (toProcess config parsed w) (startIndex (planned config parsed w))
                0%Z (startCounters (planned config parsed w)) w).
  destruct (batches config wallet budget (toProcess config parsed w)
              (startIndex (planned config parsed w)) 0
              (startCounters (planned config parsed w)) w)
    as [w1 [[c|]|e]]; cbn [fst] in *; try exact Hb.
  specialize (Hf c (toISOString (remote w)) w1).
  destruct (finish config c (toISOString (remote w)) w1) as [w2 [exit|e]];
    cbn [fst] in *; congruence.
Qed.

(** X4: in a dry run the whole of [main] submits nothing, whatever the node
    answers and wherever the run ends, and a completed run reports a cost
    of zero. *)
Theorem dry_run_never_submits (parsed : list NFTMetadata.t) (answer : bool)
    (budget : nat) (w : World) :
  Config.dryRun config = true ->
  let out := main config wallet parsed answer budget w in
  submissions (events (fst out)) = submissions (events w)
  /\ (forall summary, snd out = Completed summary ->
      Summary.totalCostSOL summary = 0%float).
Proof.
  intros Hdry. cbv zeta. split.
  - apply (main_stable (fun w => submissions (events w))).
    + intros metadata start i c. apply batches_stable.
      * intros batch. rewrite Hdry. apply dry_processBatch_submits_nothing.
      * intros cp w0. cbn [emit with_file events]. rewrite submissions_app.
        apply app_nil_r.
      * intros ms w0. cbn [emit events]. rewrite submissions_app. apply app_nil_r.
      * intros l w0. cbn [emit events]. rewrite submissions_app. apply app_nil_r.
    + intros c startTime w0.
      destruct (finish_spec config c startTime w0) as (_ & _ & _ & _ & ->).
      rewrite !submissions_app.
      destruct (0 <? List.length (failedMints c))%nat;
        destruct (failedCount c =? 0)%Z; try destruct (checkpointFile w0);
        cbn; now rewrite app_nil_r.
  - intros summary Hs.
    apply completed_inv in Hs as (w1 & c & _ & _ & Hf).
    destruct (finish_spec config c (toISOString (remote w)) w1) as (Hs & _).
    rewrite Hf in Hs. injection Hs as ->. cbn. now rewrite Hdry.
Qed.

(** X1: the summary of a completed run agrees with its log: the run logged
    one result per record it set out with, in order and under the
    record's mint; it reports their number as processed, and as updated,
    skipped and failed the previous counts plus the numbers of results of
    each status; the cost is that of the whole log, or zero in a dry run.
    A run that does not resume has no previous counts, so its three
    counts add up to the number processed. *)
Theorem summary_matches_log (parsed : list NFTMetadata.t) (answer : bool)
    (budget : nat) (w : World) (summary : Summary.t) :
  (0 < Config.batchSize config)%Z ->
  snd (main config wallet parsed answer budget w) = Completed summary ->
  let previous := previousResults (planned config parsed w) in
  exists R,
    logs (fst (main config wallet parsed answer budget w)) = logs w ++ R
    /\ Forall2 (fun metadata result =>
                  ProcessResult.mint result = NFTMetadata.mint metadata)
               (toProcess config parsed w) R
    /\ Summary.totalProcessed summary = Z.of_nat (List.length R)
    /\ Summary.successfullyUpdated summary
       = (Tallies.updated previous + countStatus updated R)%Z
    /\ Summary.skipped summary = (Tallies.skipped previous + countStatus skipped R)%Z
    /\ Summary.failed summary = (Tallies.failed previous + countStatus error R)%Z
    /\ Summary.totalCostSOL summary
       = (if Config.dryRun config then 0%float
          else calculateTotalCost (logs w ++ R) AVG_FEE_PER_TX)
    /\ (Config.resumeFromCheckpoint config = false ->
        Summary.totalProcessed summary
        = (Summary.successfullyUpdated summary + Summary.skipped summary
           + Summary.failed summary)%Z).
Proof.
  intros Hbs Hs. cbv zeta.
  apply completed_inv in Hs as (w1 & c & Hb & Hmain & Hf).
  rewrite Hmain. cbn [fst].
  apply (batches_results config wallet
           (fun metadata result => ProcessResult.mint result = NFTMetadata.mint metadata))
    in Hb as (R & Hlogs & -> & HR); [|intros; eapply update_result_mint; eassumption
                                    |exact Hbs|lia].
  cbn [Z.to_nat skipn] in HR.
  destruct (finish_spec config (fold_left tally R (startCounters (planned config parsed w)))
              (toISOString (remote w)) w1) as (Hs & Hl & _).
  rewrite Hf in Hs. injection Hs as ->.
  destruct (tally_counts R (startCounters (planned config parsed w)))
    as (Hu & Hk & Hfl & _).
  destruct (tally_all R (startCounters (planned config parsed w))) as (Hp & _).
  exists R. rewrite Hl, Hlogs.
  cbn [createSummary Summary.totalProcessed Summary.successfullyUpdated Summary.skipped
       Summary.failed Summary.totalCostSOL].
  rewrite Hu, Hk, Hfl, Hp. cbn [startCounters processedCount updatedCount skippedCount
                                failedCount].
  repeat split; auto.
  intros Hres. unfold planned, resumeFrom. rewrite Hres.
  cbn. rewrite <- countStatus_total. lia.
Qed.

(** X2: how a completed run leaves its files: the list of failed mints is
    written when a record of this run failed, and then holds the mints of
    the results with status error, in order; the checkpoint file is
    deleted when the reported count of failures, previous ones included,
    is zero, and otherwise holds the last checkpoint the run wrote, or
    what it held before if the run wrote none. *)
Theorem failures_keep_the_checkpoint (parsed : list NFTMetadata.t) (answer : bool)
    (budget : nat) (w : World) (summary : Summary.t) :
  (0 < Config.batchSize config)%Z ->
  snd (main config wallet parsed answer budget w) = Completed summary ->
  let out := main config wallet parsed answer budget w in
  exists R new,
    logs (fst out) = logs w ++ R
    /\ savedCheckpoints (events (fst out)) = savedCheckpoints (events w) ++ new
    /\ savedFailed (events (fst out))
       = savedFailed (events w)
         ++ match failedOf R with
            | [] => []
            | mints => [mints]
            end
    /\ checkpointFile (fst out)
       = (if (Summary.failed summary =? 0)%Z then None
          else lastOr (checkpointFile w) new).
Proof.
  intros Hbs Hs. cbv zeta.
  apply completed_inv in Hs as (w1 & c & Hb & Hmain & Hf).
  rewrite Hmain. cbn [fst].
  destruct (batches_file config wallet (toProcess config parsed w)
              (startIndex (planned config parsed w)) budget 0%Z
              (startCounters (planned config parsed w)) w) as (new & Hsaved & Hfile).
  pose proof (batches_stable config wallet (fun w => savedFailed (events w))
                (toProcess config parsed w) (startIndex (planned config parsed w)) budget
                (fun batch => processBatch_keeps_failed wallet batch _ _ _)) as Hkeep.
  specialize (Hkeep
    ltac:(intros; cbn [emit with_file events]; rewrite savedFailed_app; apply app_nil_r)
    ltac:(intros; cbn [emit events]; rewrite savedFailed_app; apply app_nil_r)
    ltac:(intros; cbn [emit events]; rewrite savedFailed_app; apply app_nil_r)
    0%Z (startCounters (planned config parsed w)) w).
  rewrite Hb in Hsaved, Hfile, Hkeep. cbn [fst] in Hsaved, Hfile, Hkeep.
  apply (batches_results config wallet (fun _ _ => True)) in Hb
    as (R & Hlogs & -> & _); [|auto|exact Hbs|lia].
  destruct (finish_spec config (fold_left tally R (startCounters (planned config parsed w)))
              (toISOString (remote w)) w1) as (Hs & Hl & _ & Hcf & Hev).
  rewrite Hf in Hs. injection Hs as ->.
  pose proof (quiet_finish config
                (fold_left tally R (startCounters (planned config parsed w)))
                (toISOString (remote w)) w1) as Hq.
  destruct (tally_counts R (startCounters (planned config parsed w)))
    as (_ & _ & Hfl & Hfm).
  cbn [startCounters failedMints app] in Hfm.
  exists R, new. rewrite Hl, Hlogs, Hq, Hsaved, Hcf, Hfile.
  cbn [createSummary Summary.failed].
  split; [reflexivity|]. split; [reflexivity|]. split; [|reflexivity].
  rewrite Hev, !savedFailed_app, Hkeep, Hfm.
  destruct (failedOf R) as [|m ms];
    destruct (failedCount (fold_left tally R (startCounters (planned config parsed w)))
              =? 0)%Z;
    try destruct (checkpointFile w1); cbn; now rewrite ?app_nil_r.
Qed.

(** A loop that ends leaves alone what a batch, a checkpoint and a sleep
    leave alone. *)
Lemma batches_completed_stable {X} (obs : World -> X) (metadata : list NFTMetadata.t)
    (start : Z) (budget : nat) :
  (forall batch,
      stable obs (processBatch wallet batch (Config.dryRun config)
                    (Config.maxRetries config) (Config.retryDelayMs config))) ->
  (forall cp w, obs (with_file (Some cp) (emit (SavedCheckpoint cp) w)) = obs w) ->
  (forall ms w, obs (emit (Slept ms) w) = obs w) ->
  forall i c w w' c',
    batches config wallet budget metadata start i c w = (w', Ok (Some c')) ->
    obs w' = obs w.
Proof.
  intros Hpb Hcp Hsl. induction budget as [|budget IH]; intros i c w w' c' H.
  - destruct (Z.lt_ge_cases i (Z.of_nat (List.length metadata))) as [L|G].
    + rewrite batches_killed in H by exact L. discriminate.
    + rewrite batches_done in H by exact G. now injection H as <- _.
  - destruct (Z.lt_ge_cases i (Z.of_nat (List.length metadata))) as [L|G].
    2:{ rewrite batches_done in H by exact G. now injection H as <- _. }
    rewrite batches_step in H by exact L.
    specialize (Hpb (array_slice metadata i (i + Config.batchSize config)) w).
    destruct (processBatch wallet
                (array_slice metadata i (i + Config.batchSize config))
                (Config.dryRun config) (Config.maxRetries config)
                (Config.retryDelayMs config) w)
      as [w1 [results|e]]; cbn [fst] in Hpb; [|discriminate].
    cbv zeta in H. apply IH in H. rewrite H.
    destruct (i + Config.batchSize config <? Z.of_nat (List.length metadata))%Z;
      rewrite ?Hsl;
      destruct (checkpointDue _ _); rewrite ?Hcp; exact Hpb.
Qed.

(** X3: a run that completes writes the log file once, at its end and with
    the whole log, and one summary, the one it reports. *)
Theorem completed_run_saves_log_and_summary (parsed : list NFTMetadata.t)
    (answer : bool) (budget : nat) (w : World) (summary : Summary.t) :
  snd (main config wallet parsed answer budget w) = Completed summary ->
  let out := main config wallet parsed answer budget w in
  savedLogs (events (fst out)) = savedLogs (events w) ++ [logs (fst out)]
  /\ savedSummaries (events (fst out)) = savedSummaries (events w) ++ [summary].
Proof.
  intros Hs. cbv zeta.
  apply completed_inv in Hs as (w1 & c & Hb & Hmain & Hf).
  rewrite Hmain. cbn [fst].
  apply (batches_completed_stable
           (fun w => (savedLogs (events w), savedSummaries (events w)))) in Hb.
  - injection Hb as H1 H2.
    destruct (finish_spec config c (toISOString (remote w)) w1)
      as (Hs & Hl & _ & _ & Hev).
    rewrite Hf in Hs. injection Hs as Hs.
    rewrite Hev, Hl, <- Hs, !savedLogs_app, !savedSummaries_app, H1, H2.
    destruct (0 <? List.length (failedMints c))%nat;
      destruct (failedCount c =? 0)%Z; try destruct (checkpointFile w1);
      cbn; rewrite ?app_nil_r; auto.
  - intros batch.
    apply stable_processBatch_from; intros;
      cbn [emit with_remote events logResult fst];
      rewrite ?savedLogs_app, ?savedSummaries_app; cbn; now rewrite ?app_nil_r.
  - intros. cbn [emit with_file events].
    rewrite savedLogs_app, savedSummaries_app. cbn. now rewrite !app_nil_r.
  - intros. cbn [emit events].
    rewrite savedLogs_app, savedSummaries_app. cbn. now rewrite !app_nil_r.
Qed.

End Run.
End RunProperties.

(** ** Records whose mint is no public key *)

Module BatchProperties.
Import Utils MetadataUpdater Index Props Tools Observe UpdateFacts RunFacts StableFacts
  RunLogFacts.

Section Batch.
Context {P : Platform}.
Variable wallet : PublicKey.

(** The two ways an update ends: with a result for the record, or, before
    anything else happens, with the error of a mint that does not parse. *)
Lemma update_cases (metadata : NFTMetadata.t) (dryRun : bool)
    (maxRetries retryDelayMs : Z) (w : World) :
  match Key.ofString (NFTMetadata.mint metadata) with
  | Ok _ =>
    exists w' result,
      updateNFTMetadata wallet metadata dryRun maxRetries retryDelayMs w = (w', Ok result)
      /\ resultOf metadata result
  | Throw e =>
    updateNFTMetadata wallet metadata dryRun maxRetries retryDelayMs w = (w, Throw e)
  end.
Proof.
  destruct (Key.ofString (NFTMetadata.mint metadata)) as [mint|e] eqn:Hm.
  - destruct (update_completes_when_mint_parses wallet metadata dryRun maxRetries
                retryDelayMs w mint Hm) as (result & Hr & Hmint).
    destruct (updateNFTMetadata wallet metadata dryRun maxRetries retryDelayMs w)
      as [w' r]. cbn [snd] in Hr. subst r. eauto.
  - unfold updateNFTMetadata, bind, now, lift. rewrite Hm. reflexivity.
Qed.

(** A batch of records with valid mints returns one result per record. *)
Lemma batch_completes (batch : list NFTMetadata.t) (dryRun : bool)
    (maxRetries retryDelayMs : Z) :
  allValid batch = true ->
  forall acc w,
  exists w' R,
    processBatch_from wallet batch dryRun maxRetries retryDelayMs acc w
    = (w', Ok (acc ++ R))
    /\ logs w' = logs w ++ R
    /\ Forall2 resultOf batch R.
Proof.
  induction batch as [|metadata batch IH]; intros Hv acc w.
  - exists w, []. cbn. rewrite !app_nil_r. repeat split. constructor.
  - cbn [allValid forallb] in Hv. apply andb_prop in Hv as [Hm Hv].
    unfold isValidPublicKey in Hm.
    pose proof (update_cases metadata dryRun maxRetries retryDelayMs w) as Hu.
    destruct (Key.ofString (NFTMetadata.mint metadata)); [|discriminate].
    destruct Hu as (w1 & result & Hu & Hres).
    rewrite (processBatch_from_cons _ _ _ _ _ _ _ _ _ _ Hu).
    destruct (IH Hv (acc ++ [result]) (emit (Slept 100) (fst (logResult result w1))))
      as (w' & R & -> & Hlogs & HR).
    exists w', (result :: R). rewrite <- app_assoc. split; [reflexivity|].
    split; [|constructor; assumption].
    rewrite Hlogs. cbn [emit logs logResult fst]. rewrite <- app_assoc.
    pose proof (update_keeps_logs wallet metadata dryRun maxRetries retryDelayMs w) as K.
    rewrite Hu in K. cbn [fst] in K. now rewrite K.
Qed.

(** A batch stops at the first record whose mint does not parse. *)
Lemma batch_stops (good : list NFTMetadata.t) (bad : NFTMetadata.t)
    (rest : list NFTMetadata.t) (e : JsError) (dryRun : bool)
    (maxRetries retryDelayMs : Z) :
  allValid good = true ->
  Key.ofString (NFTMetadata.mint bad) = Throw e ->
  forall acc w,
  exists w' R,
    processBatch_from wallet (good ++ bad :: rest) dryRun maxRetries retryDelayMs acc w
    = (w', Throw e)
    /\ logs w' = logs w ++ R
    /\ Forall2 resultOf good R.
Proof.
  intros Hv Hbad. induction good as [|metadata good IH]; intros acc w.
  - exists w, []. cbn [app processBatch_from]. unfold bind at 1.
    pose proof (update_cases bad dryRun maxRetries retryDelayMs w) as Hu.
    rewrite Hbad in Hu. rewrite Hu, app_nil_r. repeat split. constructor.
  - cbn [allValid forallb] in Hv. apply andb_prop in Hv as [Hm Hv].
    unfold isValidPublicKey in Hm.
    pose proof (update_cases metadata dryRun maxRetries retryDelayMs w) as Hu.
    destruct (Key.ofString (NFTMetadata.mint metadata)); [|discriminate].
    destruct Hu as (w1 & result & Hu & Hres).
    cbn [app]. rewrite (processBatch_from_cons _ _ _ _ _ _ _ _ _ _ Hu).
    destruct (IH Hv (acc ++ [result]) (emit (Slept 100) (fst (logResult result w1))))
      as (w' & R & -> & Hlogs & HR).
    exists w', (result :: R). split; [reflexivity|].
    split; [|constructor; assumption].
    rewrite Hlogs. cbn [emit logs logResult fst]. rewrite <- app_assoc.
    pose proof (update_keeps_logs wallet metadata dryRun maxRetries retryDelayMs w) as K.
    rewrite Hu in K. cbn [fst] in K. now rewrite K.
Qed.

(** X6: an update completes exactly for a record whose mint
    [isValidPublicKey] accepts: then it returns a result under the
    record's mint, whatever the node does; otherwise it throws, as the
    first thing it does, and leaves the world as it was. *)
Theorem update_completes_iff_mint_is_valid (metadata : NFTMetadata.t) (dryRun : bool)
    (maxRetries retryDelayMs : Z) (w : World) :
  let out := updateNFTMetadata wallet metadata dryRun maxRetries retryDelayMs w in
  if isValidPublicKey (NFTMetadata.mint metadata)
  then exists result,
         snd out = Ok result
         /\ ProcessResult.mint result = NFTMetadata.mint metadata
         /\ ProcessResult.timestamp result = toISOString (remote w)
  else exists e, snd out = Throw e /\ fst out = w.
Proof.
  cbv zeta. unfold isValidPublicKey.
  pose proof (update_cases metadata dryRun maxRetries retryDelayMs w) as Hu.
  destruct (Key.ofString (NFTMetadata.mint metadata)) as [mint|e] eqn:Hm.
  - destruct Hu as (w' & result & Hu & Hres). exists result. rewrite Hu.
    split; [reflexivity|]. split; [exact Hres|].
    revert Hu. unfold updateNFTMetadata. unfold bind at 1. unfold now at 1.
    unfold bind at 1. unfold lift at 1. rewrite Hm.
    unfold try_catch.
    match goal with
    | |- context [bind ?m ?k w] => destruct (bind m k w) as [w1 [a|err]] eqn:Hb
    end.
    2:{ unfold ret. intros [= _ <-]. reflexivity. }
    intros [= _ <-]. revert Hb. clear.
    intros H.
    apply bind_ok_inv in H as (w2 & current & _ & H).
    destruct current as [current|];
      [|apply ret_inv in H as [_ ->]; reflexivity].
    destruct (negb (equals (OnChain.updateAuthority current) wallet));
      [apply ret_inv in H as [_ ->]; reflexivity|].
    destruct (negb (isMetadataDifferent current metadata));
      [apply ret_inv in H as [_ ->]; reflexivity|].
    destruct dryRun; [apply ret_inv in H as [_ ->]; reflexivity|].
    apply bind_ok_inv in H as (w3 & instruction & _ & H).
    apply bind_ok_inv in H as (w4 & signature & _ & H).
    apply ret_inv in H as [_ ->]. reflexivity.
  - exists e. rewrite Hu. auto.
Qed.

(** X7: a batch whose mints are all valid public keys returns one result per
    record, in order, each under the mint of its record, and has added
    exactly these results to the log. *)
Theorem processBatch_gives_a_result_per_record (batch : list NFTMetadata.t)
    (dryRun : bool) (maxRetries retryDelayMs : Z) (w : World) :
  allValid batch = true ->
  let out := processBatch wallet batch dryRun maxRetries retryDelayMs w in
  exists results,
    snd out = Ok results
    /\ logs (fst out) = logs w ++ results
    /\ Forall2 resultOf batch results.
Proof.
  intros Hv. cbv zeta.
  destruct (batch_completes batch dryRun maxRetries retryDelayMs Hv [] w)
    as (w' & R & H & Hlogs & HR).
  unfold processBatch. rewrite H. exists R. auto.
Qed.

(** X8: a batch with a mint that is no public key throws the error of the
    first such mint.  The records before it have been processed and
    their results logged, but the caller gets none of them; the records
    after it are not touched. *)
Theorem processBatch_stops_at_an_invalid_mint (good : list NFTMetadata.t)
    (bad : NFTMetadata.t) (rest : list NFTMetadata.t) (e : JsError) (dryRun : bool)
    (maxRetries retryDelayMs : Z) (w : World) :
  allValid good = true ->
  Key.ofString (NFTMetadata.mint bad) = Throw e ->
  let out := processBatch wallet (good ++ bad :: rest) dryRun maxRetries retryDelayMs w in
  snd out = Throw e
  /\ fst out = fst (processBatch wallet good dryRun maxRetries retryDelayMs w)
  /\ exists R, logs (fst out) = logs w ++ R /\ Forall2 resultOf good R.
Proof.
  intros Hv Hbad. cbv zeta.
  destruct (batch_stops good bad rest e dryRun maxRetries retryDelayMs Hv Hbad [] w)
    as (w' & R & H & Hlogs & HR).
  unfold processBatch. rewrite H. cbn [fst snd]. split; [reflexivity|].
  split; [|eauto].
  clear Hlogs HR. revert w w' H. generalize (@nil ProcessResult.t) as acc.
  induction good as [|metadata good IH]; intros acc w w' H.
  - cbn [app processBatch_from] in H |- *. unfold bind at 1 in H.
    pose proof (update_cases bad dryRun maxRetries retryDelayMs w) as Hu.
    rewrite Hbad in Hu. rewrite Hu in H. now injection H as <-.
  - cbn [allValid forallb] in Hv. apply andb_prop in Hv as [Hm Hv].
    unfold isValidPublicKey in Hm.
    pose proof (update_cases metadata dryRun maxRetries retryDelayMs w) as Hu.
    destruct (Key.ofString (NFTMetadata.mint metadata)); [|discriminate].
    destruct Hu as (w1 & result & Hu & Hres).
    cbn [app] in H. rewrite (processBatch_from_cons _ _ _ _ _ _ _ _ _ _ Hu) in H.
    rewrite (processBatch_from_cons _ _ _ _ _ _ _ _ _ _ Hu).
    now apply (IH Hv) in H.
Qed.

End Batch.
End BatchProperties.

(** ** A run that meets a mint that is no public key *)

Module FatalProperties.
Import Utils MetadataUpdater Index Props Tools Observe UpdateFacts RunFacts StableFacts
  RunLogFacts BatchProperties.

Lemma allValid_app (a b : list NFTMetadata.t) :
  allValid (a ++ b) = allValid a && allValid b.
Proof. apply forallb_app. Qed.

Lemma allValid_firstn (n : nat) (l : list NFTMetadata.t) :
  allValid l = true -> allValid (firstn n l) = true.
Proof.
  intros H. rewrite <- (firstn_skipn n l), allValid_app in H.
  now apply andb_prop in H as [H _].
Qed.

Lemma allValid_skipn (n : nat) (l : list NFTMetadata.t) :
  allValid l = true -> allValid (skipn n l) = true.
Proof.
  intros H. rewrite <- (firstn_skipn n l), allValid_app in H.
  now apply andb_prop in H as [_ H].
Qed.

Section Fatal.
Context {P : Platform}.
Variable config : Config.t.
Variable wallet : PublicKey.
Variables (good : list NFTMetadata.t) (bad : NFTMetadata.t) (rest : list NFTMetadata.t).
Variable e : JsError.
Hypothesis bs_pos : (0 < Config.batchSize config)%Z.
Hypothesis good_valid : allValid good = true.
Hypothesis bad_invalid : Key.ofString (NFTMetadata.mint bad) = Throw e.

Local Abbreviation metadata := (good ++ bad :: rest).
Local Abbreviation bs := (Config.batchSize config).

(** The chunk at [i] holds the bad record, or only good ones. *)
Lemma chunk_cases (i : Z) :
  (0 <= i <= Z.of_nat (List.length good))%Z ->
  if (Z.of_nat (List.length good) <? i + bs)%Z
  then exists tail,
         array_slice metadata i (i + bs) = skipn (Z.to_nat i) good ++ bad :: tail
  else array_slice metadata i (i + bs) = firstn (Z.to_nat bs) (skipn (Z.to_nat i) good)
       /\ skipn (Z.to_nat i) good
          = firstn (Z.to_nat bs) (skipn (Z.to_nat i) good)
            ++ skipn (Z.to_nat (i + bs)) good.
Proof.
  intros Hi.
  assert (L : Z.of_nat (List.length metadata) = (Z.of_nat (List.length good) + 1
                                                 + Z.of_nat (List.length rest))%Z)
    by (rewrite length_app; cbn [List.length]; lia).
  rewrite (array_slice_chunk config metadata bs_pos i) by lia.
  rewrite skipn_app.
  replace (Z.to_nat i - List.length good)%nat with 0%nat by lia. cbn [skipn].
  destruct (Z.ltb_spec (Z.of_nat (List.length good)) (i + bs)) as [A|A].
  - rewrite firstn_app, length_skipn.
    rewrite firstn_all2 by (rewrite length_skipn; lia).
    destruct (Z.to_nat (Z.min (i + bs) (Z.of_nat (List.length metadata)) - i)
              - (List.length good - Z.to_nat i))%nat as [|m] eqn:E; [lia|].
    cbn [firstn]. eauto.
  - rewrite firstn_app, length_skipn.
    replace (Z.to_nat (Z.min (i + bs) (Z.of_nat (List.length metadata)) - i)
             - (List.length good - Z.to_nat i))%nat with 0%nat by lia.
    cbn [firstn]. rewrite app_nil_r.
    replace (Z.to_nat (Z.min (i + bs) (Z.of_nat (List.length metadata)) - i))
      with (Z.to_nat bs) by lia.
    split; [reflexivity|].
    rewrite <- (firstn_skipn (Z.to_nat bs) (skipn (Z.to_nat i) good)) at 1.
    f_equal. rewrite skipn_skipn. f_equal. lia.
Qed.

(** With turns enough to reach the bad record the loop throws its error;
    what it leaves alone on the way it leaves alone altogether. *)
Lemma batches_fatal {X} (obs : World -> X) (start : Z) :
  (forall batch,
      stable obs (processBatch wallet batch (Config.dryRun config)
                    (Config.maxRetries config) (Config.retryDelayMs config))) ->
  (forall cp w, obs (with_file (Some cp) (emit (SavedCheckpoint cp) w)) = obs w) ->
  (forall ms w, obs (emit (Slept ms) w) = obs w) ->
  forall budget i c w,
    (0 <= i <= Z.of_nat (List.length good))%Z ->
    (Z.of_nat (List.length good) < i + Z.of_nat budget * bs)%Z ->
    exists w' R,
      batches config wallet budget metadata start i c w = (w', Throw e)
      /\ logs w' = logs w ++ R
      /\ Forall2 resultOf (skipn (Z.to_nat i) good) R
      /\ obs w' = obs w.
Proof.
  intros Hpb Hcp Hsl. induction budget as [|budget IH]; intros i c w Hi Hb; [lia|].
  assert (L : Z.of_nat (List.length metadata) = (Z.of_nat (List.length good) + 1
                                                 + Z.of_nat (List.length rest))%Z)
    by (rewrite length_app; cbn [List.length]; lia).
  rewrite batches_step by lia.
  pose proof (chunk_cases i Hi) as Hc.
  pose proof (Hpb (array_slice metadata i (i + bs)) w) as Hst.
  destruct (Z.ltb_spec (Z.of_nat (List.length good)) (i + bs)) as [A|A].
  - destruct Hc as [tail Hc]. rewrite Hc in Hst |- *.
    destruct (batch_stops wallet (skipn (Z.to_nat i) good) bad tail e
                (Config.dryRun config) (Config.maxRetries config)
                (Config.retryDelayMs config) (allValid_skipn _ _ good_valid)
                bad_invalid [] w) as (w' & R & H & Hlogs & HR).
    unfold processBatch in Hst |- *. rewrite H in Hst |- *. cbn [fst] in Hst.
    exists w', R. auto.
  - destruct Hc as [Hc Hsplit]. rewrite Hc in Hst |- *.
    destruct (batch_completes wallet (firstn (Z.to_nat bs) (skipn (Z.to_nat i) good))
                (Config.dryRun config) (Config.maxRetries config)
                (Config.retryDelayMs config)
                (allValid_firstn _ _ (allValid_skipn _ _ good_valid)) [] w)
      as (w1 & R1 & H & Hlogs1 & HR1).
    unfold processBatch in Hst |- *. rewrite H in Hst |- *. cbn [fst app] in Hst.
    cbv zeta.
    match goal with
    | |- context [batches config wallet budget metadata start (i + bs) ?c1 ?w3] =>
      destruct (IH (i + bs)%Z c1 w3 ltac:(lia) ltac:(lia))
        as (w' & R2 & -> & Hlogs2 & HR2 & Hobs);
      assert (E : logs w3 = logs w1 /\ obs w3 = obs w1)
    end.
    { destruct (i + bs <? Z.of_nat (List.length metadata))%Z;
        destruct (checkpointDue _ _); cbn [emit with_file logs];
        rewrite ?Hsl, ?Hcp; auto. }
    destruct E as [E1 E2].
    exists w', (R1 ++ R2). split; [reflexivity|].
    split; [rewrite Hlogs2, E1, Hlogs1, app_assoc; reflexivity|].
    split; [|congruence].
    rewrite Hsplit. apply Forall2_app; assumption.
Qed.

(** X5: a run that comes to a record whose mint is no public key ends with a
    fatal error, that of the mint.  The records before it have been
    processed and their results are in the log in memory, but the run
    writes neither the log nor a summary to a file. *)
Theorem invalid_mint_ends_the_run (parsed : list NFTMetadata.t) (answer : bool)
    (budget : nat) (w : World) :
  toProcess config parsed w = good ++ bad :: rest ->
  Config.skipConfirm config = true \/ answer = true ->
  (Z.of_nat (List.length good) < Z.of_nat budget * Config.batchSize config)%Z ->
  let out := main config wallet parsed answer budget w in
  snd out = Fatal e
  /\ (exists R, logs (fst out) = logs w ++ R /\ Forall2 resultOf good R)
  /\ savedLogs (events (fst out)) = savedLogs (events w)
  /\ savedSummaries (events (fst out)) = savedSummaries (events w).
Proof.
  intros Hp Hc Hb. cbv zeta. rewrite main_eq, Hp.
  rewrite length_app. cbn [List.length].
  replace (List.length good + S (List.length rest) =? 0)%nat with false
    by (symmetry; apply Nat.eqb_neq; lia).
  replace (negb (Config.skipConfirm config) && negb answer) with false
    by (destruct Hc as [-> | ->]; cbn; rewrite ?andb_false_r; reflexivity).
  destruct (batches_fatal
              (fun w => (savedLogs (events w), savedSummaries (events w)))
              (startIndex (planned config parsed w))) with
    (budget := budget) (i := 0%Z) (c := startCounters (planned config parsed w)) (w := w)
    as (w' & R & -> & Hlogs & HR & Hobs); try lia.
  - intros batch.
    apply stable_processBatch_from; intros;
      cbn [emit with_remote events logResult fst];
      rewrite ?savedLogs_app, ?savedSummaries_app; cbn; now rewrite ?app_nil_r.
  - intros. cbn [emit with_file events].
    rewrite savedLogs_app, savedSummaries_app. cbn. now rewrite !app_nil_r.
  - intros. cbn [emit events].
    rewrite savedLogs_app, savedSummaries_app. cbn. now rewrite !app_nil_r.
  - cbn [fst snd]. injection Hobs as H1 H2. cbn [Z.to_nat skipn] in HR. eauto 6.
Qed.

End Fatal.
End FatalProperties.

(** ** What an instruction carries, and what a fetch returns *)

Module InstructionProperties.
Import Utf8 Utils MetadataUpdater Index Props Tools Observe BufferFacts CodecFacts UpdateFacts.
Local Open Scope N_scope.

Lemma encodeString_throws s e :
  encodeString s = Throw e -> 4294967296 <= blength (encode s).
Proof.
  unfold encodeString, rbind, writeUInt32LE.
  destruct (N.ltb_spec (blength (encode s)) 4294967296); [discriminate|auto].
Qed.

(** Reading back one string written by [encodeString]. *)
Lemma readStrings_step data pre s bytes rest off count :
  data = pre ++ bytes ++ rest -> blength pre = off -> encodeString s = Ok bytes ->
  readStrings data off (S count)
  = (tl <-? readStrings data (off + 4 + blength (encode s)) count ;;
     Ok (encode s :: fst tl, snd tl)).
Proof.
  intros Hd Hoff He.
  destruct (string_step data pre s bytes rest off Hd Hoff He) as (R & S & _).
  cbn [readStrings]. rewrite R. cbn [rbind]. rewrite S. reflexivity.
Qed.

(** X14: the instruction, when it can be built, names the metadata program and
    the two accounts, the metadata account writable and the authority as
    signer, and its data are the bytes 15 and 1, then the UTF-8 bytes of
    the name, the symbol and the uri, each after its length as
    [readUInt32LE] reads it, then eight zero bytes and nothing more.  It
    cannot be built only when the UTF-8 form of a string does not fit a
    32-bit length. *)
Theorem instruction_data_layout (metadataAccount updateAuthority : PublicKey)
    (name symbol uri : JsString) :
  let n := blength (encode name) in
  let s := blength (encode symbol) in
  let u := blength (encode uri) in
  match createUpdateMetadataInstruction metadataAccount updateAuthority name symbol uri
  with
  | Ok instruction =>
    programId instruction = TOKEN_METADATA_PROGRAM_ID
    /\ keys instruction
       = [ {| pubkey := metadataAccount; isSigner := false; isWritable := true |};
           {| pubkey := updateAuthority; isSigner := true; isWritable := false |} ]
    /\ slice (data instruction) 0 2 = [Byte.x0f; Byte.x01]
    /\ readStrings (data instruction) 2 3
       = Ok ([encode name; encode symbol; encode uri], 14 + n + s + u)
    /\ skipn (N.to_nat (14 + n + s + u)) (data instruction) = repeat Byte.x00 8
  | Throw _ => 4294967296 <= n \/ 4294967296 <= s \/ 4294967296 <= u
  end.
Proof.
  cbv zeta. unfold createUpdateMetadataInstruction.
  destruct (encodeString name) as [nb|e1] eqn:En;
    [|apply encodeString_throws in En; cbn [rbind]; auto].
  destruct (encodeString symbol) as [sb|e2] eqn:Es;
    [|apply encodeString_throws in Es; cbn [rbind]; auto].
  destruct (encodeString uri) as [ub|e3] eqn:Eu;
    [|apply encodeString_throws in Eu; cbn [rbind]; auto].
  cbn [rbind programId keys data].
  split; [reflexivity|]. split; [reflexivity|].
  set (tail := [Byte.x00; Byte.x00] ++ [Byte.x00] ++ [Byte.x00] ++ [Byte.x00]
               ++ [Byte.x00] ++ [Byte.x00] ++ [Byte.x00]).
  set (pre := [Byte.x0f] ++ [Byte.x01]).
  set (d := [Byte.x0f] ++ [Byte.x01] ++ nb ++ sb ++ ub ++ tail).
  assert (Hd : d = pre ++ nb ++ sb ++ ub ++ tail) by reflexivity.
  destruct (string_step d pre name nb (sb ++ ub ++ tail) 2 Hd eq_refl En)
    as (_ & _ & L1).
  destruct (string_step d (pre ++ nb) symbol sb (ub ++ tail) _
              ltac:(rewrite Hd; now rewrite <- !app_assoc) L1 Es) as (_ & _ & L2).
  destruct (string_step d ((pre ++ nb) ++ sb) uri ub tail _
              ltac:(rewrite Hd; now rewrite <- !app_assoc) L2 Eu) as (_ & _ & L3).
  split; [reflexivity|]. split.
  - rewrite (readStrings_step d pre name nb (sb ++ ub ++ tail) 2 2 Hd eq_refl En).
    rewrite (readStrings_step d (pre ++ nb) symbol sb (ub ++ tail) _ 1
               ltac:(rewrite Hd; now rewrite <- !app_assoc) L1 Es).
    rewrite (readStrings_step d ((pre ++ nb) ++ sb) uri ub tail _ 0
               ltac:(rewrite Hd; now rewrite <- !app_assoc) L2 Eu).
    cbn [readStrings rbind fst snd]. do 2 f_equal. lia.
  - replace d with ((((pre ++ nb) ++ sb) ++ ub) ++ tail)
      by (rewrite Hd; now rewrite <- !app_assoc).
    apply skipn_blength. rewrite L3. lia.
Qed.

End InstructionProperties.

(** ** One update, from the fetch to the result *)

Module UpdateProperties.
Import Utf8 Utils MetadataUpdater Index Props Tools Observe BufferFacts CodecFacts
  RetryFacts UpdateFacts.
Local Open Scope N_scope.

Lemma wellFormed_padded (s : JsString) (padding : nat) :
  wellFormed s = true -> wellFormed (s ++ repeat 0%N padding) = true.
Proof.
  intros H. unfold wellFormed. rewrite forallb_app. fold (wellFormed s). rewrite H.
  induction padding as [|p IH]; [reflexivity|exact IH].
Qed.

Lemma remove_nul_padded (s : JsString) (padding : nat) :
  nulFree s = true -> remove_nul (s ++ repeat 0%N padding) = s.
Proof.
  intros H. unfold remove_nul. rewrite filter_app. fold (remove_nul s).
  rewrite (remove_nul_nulFree _ H).
  induction padding as [|p IH]; [apply app_nil_r|exact IH].
Qed.

(** Decoding account bytes built in the layout. *)
Lemma parse_built key authority mint name symbol uri rest data :
  blength authority = 32%N -> blength mint = 32%N ->
  syntheticAccount key authority mint name symbol uri rest = Ok data ->
  parseMetadataAccount data
  = Ok {| OnChain.name := remove_nul (decode (encode name));
          OnChain.symbol := remove_nul (decode (encode symbol));
          OnChain.uri := remove_nul (decode (encode uri));
          OnChain.updateAuthority := {| bn := be_value authority |} |}.
Proof.
  intros La Lm. unfold syntheticAccount.
  destruct (encodeString name) as [n|] eqn:En; [|discriminate].
  destruct (encodeString symbol) as [s|] eqn:Es; [|discriminate].
  destruct (encodeString uri) as [u|] eqn:Eu; [|discriminate].
  cbn [rbind]. intros [= <-].
  change (key :: authority ++ mint ++ n ++ s ++ u ++ rest)
    with ([key] ++ authority ++ mint ++ n ++ s ++ u ++ rest).
  set (data := [key] ++ authority ++ mint ++ n ++ s ++ u ++ rest).
  set (pre1 := [key] ++ authority ++ mint).
  assert (L1 : blength pre1 = (1 + 32 + 32)%N)
    by (unfold pre1; rewrite !blength_app, La, Lm; reflexivity).
  destruct (string_step data pre1 name n (s ++ u ++ rest) _
              ltac:(unfold data, pre1; now rewrite <- !app_assoc) L1 En)
    as (R1 & S1 & L2).
  destruct (string_step data (pre1 ++ n) symbol s (u ++ rest) _
              ltac:(unfold data, pre1; now rewrite <- !app_assoc) L2 Es)
    as (R2 & S2 & L3).
  destruct (string_step data ((pre1 ++ n) ++ s) uri u rest _
              ltac:(unfold data, pre1; now rewrite <- !app_assoc) L3 Eu)
    as (R3 & S3 & _).
  unfold parseMetadataAccount.
  replace (slice data 1 (1 + 32)) with authority.
  2:{ symmetry. unfold data. apply slice_middle; [reflexivity|lia]. }
  rewrite ofBuffer_32 by lia. cbn [rbind].
  rewrite R1. cbn [rbind]. rewrite S1.
  rewrite R2. cbn [rbind]. rewrite S2.
  rewrite R3. cbn [rbind]. rewrite S3.
  reflexivity.
Qed.

Section Update.
Context {P : Platform}.
Variable wallet : PublicKey.

(** X12: [fetchCurrentMetadata] never throws and reads the metadata account of
    the mint exactly once, without sleeping or submitting.  It answers
    [null] in three cases a caller cannot tell apart: the read failed,
    there is no account, or the bytes of the account cannot be decoded. *)
Theorem fetch_never_throws (mint : PublicKey) (w : World) :
  let account := getMetadataAccount mint in
  let answer := snd (getAccountInfo account (remote w)) in
  let out := fetchCurrentMetadata mint w in
  exists current,
    snd out = Ok current
    /\ fetches (events (fst out)) = fetches (events w) ++ [account]
    /\ submissions (events (fst out)) = submissions (events w)
    /\ sleeps (events (fst out)) = sleeps (events w)
    /\ logs (fst out) = logs w
    /\ (current = None <->
        failed answer \/ answer = Ok None
        \/ exists data e, answer = Ok (Some data) /\ parseMetadataAccount data = Throw e)
    /\ (forall parsed, current = Some parsed <->
        exists data, answer = Ok (Some data) /\ parseMetadataAccount data = Ok parsed).
Proof.
  cbv zeta. rewrite fetchCurrentMetadata_spec. cbn [fst snd].
  eexists. split; [reflexivity|].
  unfold afterFetch, emit, with_remote. cbn [events logs].
  rewrite fetches_app, submissions_app, sleeps_app. cbn. rewrite !app_nil_r.
  do 4 (split; [reflexivity|]).
  destruct (snd (getAccountInfo (getMetadataAccount mint) (remote w)))
    as [[data|]|e]; cbn [decoded failed].
  - destruct (parseMetadataAccount data) as [parsed|e] eqn:Hp; split.
    + split; [discriminate|].
      intros [[]|[H|(d & e & [= <-] & H)]]; [discriminate|congruence].
    + intros p. split; [intros [= <-]; eauto|].
      intros (d & [= <-] & H). congruence.
    + split; [eauto 6|reflexivity].
    + intros p. split; [discriminate|]. intros (d & [= <-] & H). congruence.
  - split; [split; auto|].
    intros p. split; [discriminate|]. intros (d & H & _). discriminate.
  - split; [split; auto|].
    intros p. split; [discriminate|]. intros (d & H & _). discriminate.
Qed.

(** X11: an account that already holds the target strings, each padded with
    any number of NUL characters as the metadata program pads them, is
    left alone: in a dry run and in a live run alike, the update reads it
    once and does nothing else, and its result has status [skipped], the
    action "metadata already matches", and no values, error or
    signature. *)
Theorem padded_account_is_skipped (metadata : NFTMetadata.t) (dryRun : bool)
    (maxRetries retryDelayMs : Z) (w : World) (mint : PublicKey) (r : Remote)
    (key : byte) (authority mintBytes rest data : Buffer) (pn ps pu : nat) :
  (0 <= maxRetries)%Z ->
  Key.ofString (NFTMetadata.mint metadata) = Ok mint ->
  wellFormed (NFTMetadata.name metadata) = true ->
  wellFormed (NFTMetadata.symbol metadata) = true ->
  wellFormed (NFTMetadata.uri metadata) = true ->
  nulFree (NFTMetadata.name metadata) = true ->
  nulFree (NFTMetadata.symbol metadata) = true ->
  nulFree (NFTMetadata.uri metadata) = true ->
  blength authority = 32%N -> blength mintBytes = 32%N ->
  be_value authority = bn wallet ->
  syntheticAccount key authority mintBytes
    (NFTMetadata.name metadata ++ repeat 0%N pn)
    (NFTMetadata.symbol metadata ++ repeat 0%N ps)
    (NFTMetadata.uri metadata ++ repeat 0%N pu) rest = Ok data ->
  getAccountInfo (getMetadataAccount mint) (remote w) = (r, Ok (Some data)) ->
  let out := updateNFTMetadata wallet metadata dryRun maxRetries retryDelayMs w in
  snd out
  = Ok {| ProcessResult.mint := NFTMetadata.mint metadata;
          ProcessResult.status := skipped;
          ProcessResult.action := Some (lit "metadata already matches");
          ProcessResult.oldValues := None;
          ProcessResult.newValues := None;
          ProcessResult.error := None;
          ProcessResult.transactionSignature := None;
          ProcessResult.timestamp := toISOString (remote w) |}
  /\ events (fst out) = events w ++ [Fetched (getMetadataAccount mint)].
Proof.
  intros Hr Hm Wn Ws Wu Nn Ns Nu La Lm Ha Hd Hg. cbv zeta.
  assert (E : updateNFTMetadata wallet metadata dryRun maxRetries retryDelayMs w
              = (afterFetch (getMetadataAccount mint) r w,
                 Ok (skippedResult (NFTMetadata.mint metadata)
                       (toISOString (remote w))))).
  { rewrite (update_after_fetch wallet metadata dryRun maxRetries retryDelayMs w mint
               Hr Hm).
    cbv zeta. rewrite Hg. cbn [fst snd decoded].
    rewrite (parse_built _ _ _ _ _ _ _ _ La Lm Hd).
    rewrite !decode_encode by (apply wellFormed_padded; assumption).
    rewrite !remove_nul_padded by assumption.
    unfold equals at 1. cbn [OnChain.updateAuthority bn]. rewrite Ha, N.eqb_refl.
    cbn [negb]. unfold isMetadataDifferent.
    cbn [OnChain.name OnChain.symbol OnChain.uri]. rewrite !str_eqb_refl.
    reflexivity. }
  rewrite E. cbn [fst snd]. split; reflexivity.
Qed.

(** The retry around a submission, seen from outside: it does to the node
    what the observed retry does, and records each of its steps, in
    order: a [Submitted] event for an invocation, a [Slept] event for a
    sleep. *)
Lemma retry_send_observed (t : Transaction) (maxRetries baseDelay : Z) (passes : nat) :
  forall (attempt : Z) (last : option JsError) (w : World) (p : Probe Remote),
    inner p = remote w ->
    let out := retry_from (fun ms w => fst (sleep ms w)) (rpcSendAndConfirm t wallet)
                 maxRetries baseDelay passes attempt last w in
    let run := retry_from probeSleep (probeCall (sendAndConfirmTransaction t wallet))
                 maxRetries baseDelay passes attempt last p in
    snd out = snd run
    /\ remote (fst out) = inner (fst run)
    /\ exists steps,
         trace (fst run) = trace p ++ steps
         /\ events (fst out) = events w ++ map (eventOf t) steps.
Proof.
  induction passes as [|passes IH]; intros attempt last w p Hp; cbv zeta.
  - cbn [retry_from fst snd]. split; [reflexivity|]. split; [exact (eq_sym Hp)|].
    exists []. cbn [map]. now rewrite !app_nil_r.
  - destruct (sendAndConfirmTransaction t wallet (remote w)) as [r1 res] eqn:E.
    assert (Ew : rpcSendAndConfirm t wallet w
                 = (emit (Submitted t) (with_remote r1 w), res))
      by (unfold rpcSendAndConfirm; rewrite E; reflexivity).
    assert (Ep : probeCall (sendAndConfirmTransaction t wallet) p
                 = ({| inner := r1; trace := trace p ++ [Invoked] |}, res))
      by (unfold probeCall; rewrite Hp, E; reflexivity).
    cbn [retry_from]. rewrite Ew, Ep. clear Ew Ep E. destruct res as [v|e].
    + cbn [fst snd emit with_remote remote events inner trace].
      split; [reflexivity|]. split; [reflexivity|]. exists [Invoked]. auto.
    + set (w1 := emit (Submitted t) (with_remote r1 w)).
      set (p1 := {| inner := r1; trace := trace p ++ [Invoked] |}).
      set (w2 := if (attempt <? maxRetries)%Z
                 then fst (sleep (baseDelay * 2 ^ attempt)%Z w1) else w1).
      set (p2 := if (attempt <? maxRetries)%Z
                 then probeSleep (baseDelay * 2 ^ attempt)%Z p1 else p1).
      assert (H2 : inner p2 = remote w2)
        by (unfold p2, w2; destruct (attempt <? maxRetries)%Z; reflexivity).
      destruct (IH (attempt + 1)%Z (Some e) w2 p2 H2) as (Hs & Hr & steps & Ht & He).
      split; [exact Hs|]. split; [exact Hr|].
      exists (Invoked
              :: (if (attempt <? maxRetries)%Z
                  then [Paused (baseDelay * 2 ^ attempt)%Z] else [])
              ++ steps).
      rewrite Ht, He. unfold p2, w2, p1, w1.
      destruct (attempt <? maxRetries)%Z;
        cbn [probeSleep sleep fst emit with_remote events trace map app eventOf];
        rewrite <- ?app_assoc; cbn [app]; auto.
Qed.

Lemma eventOf_failedAttempts (t : Transaction) (d : Z) (n : nat) :
  forall first,
    map (eventOf t) (failedAttempts d first n)
    = flat_map (fun a => [Submitted t; Slept (d * 2 ^ Z.of_nat a)%Z]) (seq first n).
Proof.
  induction n as [|n IH]; intros first; [reflexivity|].
  rewrite failedAttempts_S, map_app, IH. reflexivity.
Qed.



(** The retried submission of a live update, from the world [w1] after
    the fetch: what it records and how it ends. *)
Lemma retry_send_trace (t : Transaction) (maxRetries : nat) (retryDelayMs : Z)
    (w1 : World) :
  let send := sendAndConfirmTransaction t wallet in
  let out := retry (rpcSendAndConfirm t wallet) (Z.of_nat maxRetries) retryDelayMs w1 in
  exists n,
    (1 <= n <= maxRetries + 1)%nat
    /\ events (fst out)
       = events w1
         ++ flat_map (fun a => [Submitted t; Slept (retryDelayMs * 2 ^ Z.of_nat a)%Z])
              (seq 0 (n - 1))
         ++ [Submitted t]
    /\ (forall j, (j < n - 1)%nat -> failed (outcomeOf send (remote w1) j))
    /\ (failed (outcomeOf send (remote w1) (n - 1)) -> n = (maxRetries + 1)%nat)
    /\ snd out = outcomeOf send (remote w1) (n - 1).
Proof.
  cbv zeta. unfold retry, retryWithBackoff.
  replace (Z.to_nat (Z.of_nat maxRetries + 1)) with (maxRetries + 1)%nat by lia.
  destruct (retry_send_observed t (Z.of_nat maxRetries) retryDelayMs
              (maxRetries + 1) 0%Z None w1 (probeStart (remote w1)) eq_refl)
    as (Hs & _ & steps & Ht & He).
  destruct (retry_from_probe Remote JsString (sendAndConfirmTransaction t wallet)
              maxRetries retryDelayMs (remote w1) (maxRetries + 1) 0 None
              (probeStart (remote w1)) (le_n _) eq_refl)
    as (m & Hle & Hm0 & _ & Hfail & Hres & Htr & Hall).
  replace (maxRetries + 1 - (maxRetries + 1))%nat with 0%nat in * by lia.
  change (Z.of_nat 0) with 0%Z in *.
  rewrite Htr in Ht. cbn [probeStart trace app Nat.add] in Ht, Hfail, Hres.
  subst steps.
  destruct m as [|k]; [specialize (Hm0 eq_refl); lia|].
  exists (S k). replace (S k - 1)%nat with k in * by lia.
  specialize (Hres ltac:(lia)).
  split; [lia|]. split.
  { rewrite He, map_app, eventOf_failedAttempts. reflexivity. }
  split; [exact Hfail|]. split; [|congruence].
  intros F. apply Hall. now rewrite Hres.
Qed.

(** X10: a live update of an owned record that differs from its account,
    with delays that a timer takes, reads the account and then submits
    one and the same transaction, paid by the wallet, until the node
    confirms it, at least once and at most [maxRetries + 1] times; what
    it does is, in this order: the read, then for each failed attempt
    [a] that is not the last the submission followed by a sleep of
    [retryDelayMs * 2^a], then the last submission.  The result has
    status [updated], the old and the new values and the signature of
    the confirmed submission, or, only when all [maxRetries + 1]
    submissions failed, status [error] and the message of the last
    error. *)
Theorem live_update_submits_until_confirmed (metadata : NFTMetadata.t)
    (maxRetries : nat) (retryDelayMs : Z) (w : World) (mint : PublicKey) (r : Remote)
    (data : Buffer) (current : OnChain.t) (instruction : TransactionInstruction) :
  (0 <= retryDelayMs)%Z ->
  (retryDelayMs * 2 ^ Z.of_nat maxRetries <= 2147483647)%Z ->
  Key.ofString (NFTMetadata.mint metadata) = Ok mint ->
  getAccountInfo (getMetadataAccount mint) (remote w) = (r, Ok (Some data)) ->
  parseMetadataAccount data = Ok current ->
  equals (OnChain.updateAuthority current) wallet = true ->
  isMetadataDifferent current metadata = true ->
  createUpdateMetadataInstruction (getMetadataAccount mint) wallet
    (NFTMetadata.name metadata) (NFTMetadata.symbol metadata) (NFTMetadata.uri metadata)
  = Ok instruction ->
  let transaction := {| instructions := [instruction]; feePayer := wallet |} in
  let send := sendAndConfirmTransaction transaction wallet in
  let out := updateNFTMetadata wallet metadata false (Z.of_nat maxRetries)
               retryDelayMs w in
  exists n,
    (1 <= n <= maxRetries + 1)%nat
    /\ events (fst out)
       = events w
         ++ [Fetched (getMetadataAccount mint)]
         ++ flat_map (fun a => [Submitted transaction;
                                Slept (retryDelayMs * 2 ^ Z.of_nat a)%Z])
              (seq 0 (n - 1))
         ++ [Submitted transaction]
    /\ (forall j, (j < n - 1)%nat -> failed (outcomeOf send r j))
    /\ (failed (outcomeOf send r (n - 1)) -> n = (maxRetries + 1)%nat)
    /\ snd out
       = Ok match outcomeOf send r (n - 1) with
            | Ok signature =>
              {| ProcessResult.mint := NFTMetadata.mint metadata;
                 ProcessResult.status := updated;
                 ProcessResult.action := None;
                 ProcessResult.oldValues :=
                   Some {| Values.name := OnChain.name current;
                           Values.symbol := OnChain.symbol current;
                           Values.uri := OnChain.uri current |};
                 ProcessResult.newValues :=
                   Some {| Values.name := NFTMetadata.name metadata;
                           Values.symbol := NFTMetadata.symbol metadata;
                           Values.uri := NFTMetadata.uri metadata |};
                 ProcessResult.error := None;
                 ProcessResult.transactionSignature := Some signature;
                 ProcessResult.timestamp := toISOString (remote w) |}
            | Throw e =>
              {| ProcessResult.mint := NFTMetadata.mint metadata;
                 ProcessResult.status := error;
                 ProcessResult.action := None;
                 ProcessResult.oldValues := None;
                 ProcessResult.newValues := None;
                 ProcessResult.error :=
                   Some match e with
                        | Error message => message
                        | Thrown text => text
                        end;
                 ProcessResult.transactionSignature := None;
                 ProcessResult.timestamp := toISOString (remote w) |}
            end.
Proof.
  intros _ _ Hm Hg Hp Ha Hdiff Hins. cbv zeta.
  set (transaction := {| instructions := [instruction]; feePayer := wallet |}).
  set (w1 := afterFetch (getMetadataAccount mint) r w).
  set (out := retry (rpcSendAndConfirm transaction wallet) (Z.of_nat maxRetries)
                retryDelayMs w1).
  assert (E : updateNFTMetadata wallet metadata false (Z.of_nat maxRetries)
                retryDelayMs w
              = (fst out,
                 Ok match snd out with
                    | Ok signature =>
                      updatedResult metadata current None (Some signature)
                        (toISOString (remote w))
                    | Throw e =>
                      errorResult (NFTMetadata.mint metadata) (describe e)
                        (toISOString (remote w))
                    end)).
  { rewrite (update_after_fetch wallet metadata false (Z.of_nat maxRetries)
               retryDelayMs w mint ltac:(lia) Hm).
    cbv zeta. rewrite Hg. cbn [fst snd decoded]. rewrite Hp, Ha, Hdiff. cbn [negb].
    unfold try_catch. unfold bind at 1. unfold lift at 1. rewrite Hins.
    fold transaction. unfold bind at 1. fold w1. fold out.
    destruct out as [w2 [signature|e]]; reflexivity. }
  rewrite E. cbn [fst snd]. clear E.
  destruct (retry_send_trace transaction maxRetries retryDelayMs w1)
    as (n & Hn & Hev & Hfail & Hall & Hres).
  fold out in Hev, Hres.
  change (remote w1) with r in Hfail, Hall, Hres.
  exists n. split; [exact Hn|]. split.
  { rewrite Hev. unfold w1, afterFetch, emit, with_remote. cbn [events].
    now rewrite <- !app_assoc. }
  split; [exact Hfail|]. split; [exact Hall|].
  rewrite Hres. destruct (outcomeOf (sendAndConfirmTransaction transaction wallet) r (n - 1))
    as [signature|e]; reflexivity.
Qed.


Lemma validMints_valid (metadata : NFTMetadata.t) (rest : list NFTMetadata.t)
    (mint : PublicKey) :
  Key.ofString (NFTMetadata.mint metadata) = Ok mint ->
  validMints (metadata :: rest) = mint :: validMints rest.
Proof. intros H. unfold validMints. cbn [flat_map]. now rewrite H. Qed.



End Update.
End UpdateProperties.

(** ** The range filter, durations and the authority checker *)

Module ToolProperties.
Import Utils MetadataUpdater Index Props Tools Observe UpdateFacts.

(** X15: the range [START-END] keeps the records at the positions from [START]
    to [END], both included and counted from 0, in order, and nothing
    else; positions past the end of the manifest are not there to keep. *)
Theorem filterByRange_keeps_both_ends (metadata : list NFTMetadata.t) (first last : Z)
    (i : nat) :
  (0 <= first)%Z -> (first <= last)%Z ->
  nth_error (filterByRange metadata (Some (first, last))) i
  = (if (Z.of_nat i <=? last - first)%Z
     then nth_error metadata (Z.to_nat first + i)
     else None).
Proof.
  intros Hf Hl. unfold filterByRange, array_slice.
  replace (first <? 0)%Z with false by (symmetry; apply Z.ltb_ge; lia).
  replace (last + 1 <? 0)%Z with false by (symmetry; apply Z.ltb_ge; lia).
  set (len := Z.of_nat (List.length metadata)).
  destruct (Z.leb_spec (Z.of_nat i) (last - first)) as [A|A].
  - destruct (Z.lt_ge_cases (first + Z.of_nat i) len) as [B|B].
    + rewrite nth_error_firstn.
      replace (i <? Z.to_nat (Z.min (last + 1) len - Z.min first len))%nat with true
        by (symmetry; apply Nat.ltb_lt; lia).
      rewrite nth_error_skipn. f_equal. lia.
    + transitivity (@None NFTMetadata.t); [|symmetry]; apply nth_error_None.
      * rewrite length_firstn, length_skipn. lia.
      * lia.
  - apply nth_error_None. rewrite length_firstn, length_skipn. lia.
Qed.

Lemma div_parts (h m s f : Z) :
  (0 <= h)%Z -> (0 <= m < 60)%Z -> (0 <= s < 60)%Z -> (0 <= f < 1000)%Z ->
  let ms := (((h * 60 + m) * 60 + s) * 1000 + f)%Z in
  (ms / 1000 = (h * 60 + m) * 60 + s)%Z
  /\ (ms / 1000 / 60 = h * 60 + m)%Z
  /\ (ms / 1000 / 60 / 60 = h)%Z
  /\ Z.rem (ms / 1000 / 60) 60 = m
  /\ Z.rem (ms / 1000) 60 = s.
Proof.
  intros Hh Hm Hs Hf ms.
  assert (E1 : (ms / 1000 = (h * 60 + m) * 60 + s)%Z)
    by (unfold ms; symmetry; apply (Z.div_unique _ _ _ f); lia).
  assert (E2 : (((h * 60 + m) * 60 + s) / 60 = h * 60 + m)%Z)
    by (symmetry; apply (Z.div_unique _ _ _ s); lia).
  assert (E3 : ((h * 60 + m) / 60 = h)%Z)
    by (symmetry; apply (Z.div_unique _ _ _ m); lia).
  rewrite E1, E2, E3. repeat split.
  - rewrite Z.rem_mod_nonneg by lia. symmetry. apply (Z.mod_unique _ _ h); lia.
  - rewrite Z.rem_mod_nonneg by lia. symmetry.
    apply (Z.mod_unique _ _ (h * 60 + m)); lia.
Qed.

(** A number below 100 is written with one or two digits, without a
    leading zero. *)
Lemma decimal_below_100 (n : Z) :
  (0 <= n < 100)%Z ->
  decimal n = (if (n <? 10)%Z then [48 + Z.to_N n]
               else [48 + Z.to_N (n / 10); 48 + Z.to_N (n mod 10)])%N.
Proof.
  intros Hn.
  assert (A : forallb (fun k =>
                let n := Z.of_nat k in
                str_eqb (decimal n)
                  (if (n <? 10)%Z then [48 + Z.to_N n]
                   else [48 + Z.to_N (n / 10); 48 + Z.to_N (n mod 10)])%N)
                (seq 0 100) = true) by (vm_compute; reflexivity).
  rewrite forallb_forall in A. specialize (A (Z.to_nat n)).
  rewrite Z2Nat.id in A by lia. apply BufferFacts.str_eqb_eq, A, in_seq. lia.
Qed.

(** X16: a duration of [h] hours, [m] minutes, [s] seconds and a fraction of a
    second, of less than 2^53 milliseconds in all (so that it is a number
    the source holds exactly and prints in plain digits), is shown as
    these three numbers in decimal, the minutes and seconds without zero
    padding; the hours and a zero number of minutes are left out when
    there are no hours, the fraction always.  Hours are not turned into
    days. *)
Theorem formatDuration_parts (h m s f : Z) :
  (0 <= h)%Z -> (0 <= m < 60)%Z -> (0 <= s < 60)%Z -> (0 <= f < 1000)%Z ->
  (((h * 60 + m) * 60 + s) * 1000 + f < 2 ^ 53)%Z ->
  let digitsOf n : JsString :=
    (if (n <? 10)%Z then [48 + Z.to_N n]
     else [48 + Z.to_N (n / 10); 48 + Z.to_N (n mod 10)])%N in
  formatDuration (((h * 60 + m) * 60 + s) * 1000 + f)
  = if (0 <? h)%Z
    then decimal h ++ lit "h " ++ digitsOf m ++ lit "m " ++ digitsOf s ++ lit "s"
    else if (0 <? m)%Z then digitsOf m ++ lit "m " ++ digitsOf s ++ lit "s"
    else digitsOf s ++ lit "s".
Proof.
  intros Hh Hm Hs Hf _. cbv beta zeta.
  destruct (div_parts h m s f Hh Hm Hs Hf) as (E1 & E2 & E3 & E4 & E5).
  unfold formatDuration. cbv zeta. rewrite E4, E5, E3.
  rewrite <- (decimal_below_100 m), <- (decimal_below_100 s) by lia.
  destruct (Z.ltb_spec 0 h) as [A|A]; [reflexivity|].
  assert (h = 0%Z) by lia. subst h. rewrite E2, E1.
  replace (0 * 60 + m)%Z with m by lia.
  destruct (Z.ltb_spec 0 m) as [B|B]; [reflexivity|].
  assert (m = 0%Z) by lia. subst m. reflexivity.
Qed.

Section Checker.
Context {P : Platform}.
Variable wallet : PublicKey.

Lemma checkOne_counts (csvData : NFTMetadata.t) (report : AuthorityReport) (n : Z)
    (w : World) :
  counted report n ->
  exists w' report',
    checkOne wallet csvData report w = (w', Ok report')
    /\ counted report' (n + 1)
    /\ fetches (events w')
       = fetches (events w) ++ map getMetadataAccount (validMints [csvData])
    /\ submissions (events w') = submissions (events w)
    /\ sleeps (events w') = sleeps (events w)
    /\ logs w' = logs w.
Proof.
  intros (H1 & H2 & H3 & H4 & H5). unfold checkOne, validMints. cbn [flat_map].
  destruct (Key.ofString (NFTMetadata.mint csvData)) as [mint|e].
  - unfold try_catch, bind. rewrite fetchCurrentMetadata_spec.
    assert (E : fetches (events (afterFetch (getMetadataAccount mint)
                  (fst (getAccountInfo (getMetadataAccount mint) (remote w))) w))
                = fetches (events w) ++ [getMetadataAccount mint]
                /\ submissions (events (afterFetch (getMetadataAccount mint)
                  (fst (getAccountInfo (getMetadataAccount mint) (remote w))) w))
                   = submissions (events w)
                /\ sleeps (events (afterFetch (getMetadataAccount mint)
                  (fst (getAccountInfo (getMetadataAccount mint) (remote w))) w))
                   = sleeps (events w)).
    { unfold afterFetch, emit, with_remote. cbn [events].
      rewrite fetches_app, submissions_app, sleeps_app. cbn. now rewrite !app_nil_r. }
    destruct E as (E1 & E2 & E3).
    destruct (decoded (snd (getAccountInfo (getMetadataAccount mint) (remote w))))
      as [onChain|].
    + destruct (equals (OnChain.updateAuthority onChain) wallet); unfold ret;
        eexists; eexists; (split; [reflexivity|]);
        unfold counted; cbn [hasAuthority noAuthority notFound issues map app];
        rewrite ?length_app; cbn [List.length];
        repeat split; auto; lia.
    + unfold ret. eexists; eexists; (split; [reflexivity|]).
      unfold counted; cbn [hasAuthority noAuthority notFound issues map app].
      rewrite ?length_app; cbn [List.length]. repeat split; auto; lia.
  - unfold ret. eexists; eexists; (split; [reflexivity|]).
    unfold counted; cbn [hasAuthority noAuthority notFound issues map app].
    rewrite ?length_app, ?app_nil_r; cbn [List.length]. repeat split; auto; lia.
Qed.

Lemma validMints_cons (csvData : NFTMetadata.t) (rest : list NFTMetadata.t) :
  validMints (csvData :: rest) = validMints [csvData] ++ validMints rest.
Proof. unfold validMints. cbn [flat_map]. now rewrite app_nil_r. Qed.

Lemma checkAll_counts (csvMetadata : list NFTMetadata.t) :
  forall (report : AuthorityReport) (n : Z) (w : World),
    counted report n ->
    exists w' report',
      checkAll wallet csvMetadata report w = (w', Ok report')
      /\ counted report' (n + Z.of_nat (List.length csvMetadata))
      /\ fetches (events w')
         = fetches (events w) ++ map getMetadataAccount (validMints csvMetadata)
      /\ submissions (events w') = submissions (events w)
      /\ sleeps (events w') = sleeps (events w)
      /\ logs w' = logs w.
Proof.
  induction csvMetadata as [|csvData rest IH]; intros report n w Hc.
  - exists w, report. cbn [checkAll List.length validMints flat_map map].
    rewrite app_nil_r, Z.add_0_r.
    split; [reflexivity|]. split; [exact Hc|]. repeat split; reflexivity.
  - destruct (checkOne_counts csvData report n w Hc)
      as (w1 & report1 & H1 & Hc1 & Hf1 & Hs1 & Hl1 & Hg1).
    destruct (IH report1 (n + 1)%Z w1 Hc1)
      as (w2 & report2 & H2 & Hc2 & Hf2 & Hs2 & Hl2 & Hg2).
    exists w2, report2. cbn [checkAll]. unfold bind. rewrite H1, H2.
    split; [reflexivity|]. split.
    + replace (n + Z.of_nat (List.length (csvData :: rest)))%Z
        with (n + 1 + Z.of_nat (List.length rest))%Z
        by (cbn [List.length]; lia).
      exact Hc2.
    + rewrite Hf2, Hf1, Hs2, Hs1, Hl2, Hl1, Hg2, Hg1.
      rewrite (validMints_cons csvData rest), map_app, app_assoc. auto.
Qed.

(** X17: the authority checker never throws and puts every record under
    exactly one of its three counts, so that they add up to the number of
    records; it lists one issue for every record not counted as owned.
    It reads the metadata account of every record whose mint is a public
    key once, in order, and neither submits, sleeps nor logs. *)
Theorem checkAuthority_counts_every_record (csvMetadata : list NFTMetadata.t)
    (w : World) :
  let out := checkAuthority wallet csvMetadata w in
  exists report,
    snd out = Ok report
    /\ (hasAuthority report + noAuthority report + notFound report
        = Z.of_nat (List.length csvMetadata))%Z
    /\ (0 <= hasAuthority report /\ 0 <= noAuthority report /\ 0 <= notFound report)%Z
    /\ Z.of_nat (List.length (issues report))
       = (noAuthority report + notFound report)%Z
    /\ fetches (events (fst out))
       = fetches (events w) ++ map getMetadataAccount (validMints csvMetadata)
    /\ submissions (events (fst out)) = submissions (events w)
    /\ sleeps (events (fst out)) = sleeps (events w)
    /\ logs (fst out) = logs w.
Proof.
  cbv zeta. unfold checkAuthority.
  destruct (checkAll_counts csvMetadata
              {| hasAuthority := 0; noAuthority := 0; notFound := 0; issues := [] |}
              0%Z w) as (w' & report & H & (C1 & C2 & C3 & C4 & C5) & Hf & Hs & Hl & Hg).
  { unfold counted. cbn. lia. }
  rewrite H. exists report. cbn [fst snd]. repeat split; auto.
Qed.

(** X13: with a negative retry budget the loop of [retryWithBackoff] is never
    entered: an update of a record with a valid mint reads nothing,
    leaves the world as it was, and returns a result of status [error]
    whose error is the text of the value thrown, "undefined". *)
Theorem negative_retry_budget_reads_nothing (metadata : NFTMetadata.t) (dryRun : bool)
    (maxRetries retryDelayMs : Z) (w : World) (mint : PublicKey) :
  (maxRetries < 0)%Z ->
  Key.ofString (NFTMetadata.mint metadata) = Ok mint ->
  updateNFTMetadata wallet metadata dryRun maxRetries retryDelayMs w
  = (w, Ok {| ProcessResult.mint := NFTMetadata.mint metadata;
              ProcessResult.status := error;
              ProcessResult.action := None;
              ProcessResult.oldValues := None;
              ProcessResult.newValues := None;
              ProcessResult.error := Some (lit "undefined");
              ProcessResult.transactionSignature := None;
              ProcessResult.timestamp := toISOString (remote w) |}).
Proof.
  intros Hr Hm. unfold updateNFTMetadata. unfold bind at 1. unfold now at 1.
  unfold bind at 1. unfold lift at 1. rewrite Hm.
  unfold try_catch. unfold bind at 1. unfold retry at 1, retryWithBackoff.
  replace (Z.to_nat (maxRetries + 1)) with 0%nat by lia.
  reflexivity.
Qed.

End Checker.
End ToolProperties.

(** ** The properties on scripted runs *)

Module CaseFacts.
Import Utf8 Utils MetadataUpdater Index Props Scenario Tools Observe Cases.

(** A dry run over five records the wallet owns. *)
Lemma dry_run_never_submits_witness :
  let config := configOf 2 2 true false in
  let w := worldOf (nodeOf walletKey 0) None in
  let out := main (P := scripted) config walletKey manifest true 10 w in
  submissions (events (fst out)) = submissions (events w)
  /\ (forall summary, snd out = Completed summary ->
      Summary.totalCostSOL summary = 0%float).
Proof.
  apply (RunProperties.dry_run_never_submits (P := scripted) (configOf 2 2 true false)
           walletKey manifest true 10 (worldOf (nodeOf walletKey 0) None)).
  reflexivity.
Defined.

(** A live run that updates all five records. *)
Lemma summary_matches_log_witness :
  let w := worldOf (nodeOf walletKey 0) None in
  let summary := summaryOf (snd liveRun) in
  let previous := previousResults (planned liveConfig manifest w) in
  exists R,
    logs (fst (main (P := scripted) liveConfig walletKey manifest true 10 w))
    = logs w ++ R
    /\ Forall2 (fun metadata result =>
                  ProcessResult.mint result = NFTMetadata.mint metadata)
               (toProcess liveConfig manifest w) R
    /\ Summary.totalProcessed summary = Z.of_nat (List.length R)
    /\ Summary.successfullyUpdated summary
       = (Tallies.updated previous + countStatus updated R)%Z
    /\ Summary.skipped summary = (Tallies.skipped previous + countStatus skipped R)%Z
    /\ Summary.failed summary = (Tallies.failed previous + countStatus error R)%Z
    /\ Summary.totalCostSOL summary
       = (if Config.dryRun liveConfig then 0%float
          else calculateTotalCost (logs w ++ R) AVG_FEE_PER_TX)
    /\ (Config.resumeFromCheckpoint liveConfig = false ->
        Summary.totalProcessed summary
        = (Summary.successfullyUpdated summary + Summary.skipped summary
           + Summary.failed summary)%Z).
Proof.
  apply (RunProperties.summary_matches_log (P := scripted) liveConfig walletKey manifest
           true 10 (worldOf (nodeOf walletKey 0) None) (summaryOf (snd liveRun))).
  - reflexivity.
  - vm_compute. reflexivity.
Defined.

(** A live run in which every record fails: the checkpoint written after
    the fourth record stays. *)
Lemma failures_keep_the_checkpoint_witness :
  let w := worldOf (nodeOf strangerKey 0) None in
  let summary := summaryOf (snd strangerRun) in
  let out := main (P := scripted) liveConfig walletKey manifest true 10 w in
  exists R new,
    logs (fst out) = logs w ++ R
    /\ savedCheckpoints (events (fst out)) = savedCheckpoints (events w) ++ new
    /\ savedFailed (events (fst out))
       = savedFailed (events w)
         ++ match failedOf R with
            | [] => []
            | mints => [mints]
            end
    /\ checkpointFile (fst out)
       = (if (Summary.failed summary =? 0)%Z then None
          else lastOr (checkpointFile w) new).
Proof.
  apply (RunProperties.failures_keep_the_checkpoint (P := scripted) liveConfig walletKey
           manifest true 10 (worldOf (nodeOf strangerKey 0) None)
           (summaryOf (snd strangerRun))).
  - reflexivity.
  - vm_compute. reflexivity.
Defined.

Lemma completed_run_saves_log_and_summary_witness :
  let w := worldOf (nodeOf walletKey 0) None in
  let out := main (P := scripted) liveConfig walletKey manifest true 10 w in
  savedLogs (events (fst out)) = savedLogs (events w) ++ [logs (fst out)]
  /\ savedSummaries (events (fst out))
     = savedSummaries (events w) ++ [summaryOf (snd liveRun)].
Proof.
  apply (RunProperties.completed_run_saves_log_and_summary (P := scripted) liveConfig
           walletKey manifest true 10 (worldOf (nodeOf walletKey 0) None)
           (summaryOf (snd liveRun))).
  vm_compute. reflexivity.
Defined.

Lemma processBatch_gives_a_result_per_record_witness :
  let w := worldOf (nodeOf walletKey 0) None in
  let out := processBatch (P := scripted) walletKey manifest false 3 1000 w in
  exists results,
    snd out = Ok results
    /\ logs (fst out) = logs w ++ results
    /\ Forall2 resultOf manifest results.
Proof.
  apply (BatchProperties.processBatch_gives_a_result_per_record (P := scripted)
           walletKey manifest false 3 1000 (worldOf (nodeOf walletKey 0) None)).
  reflexivity.
Defined.

Lemma processBatch_stops_at_an_invalid_mint_witness :
  let w := worldOf (nodeOf walletKey 0) None in
  let out := processBatch (P := scripted) walletKey brokenManifest false 3 1000 w in
  snd out = Throw (Error (lit "Non-base58 character"))
  /\ fst out = fst (processBatch (P := scripted) walletKey (firstn 2 manifest) false
                      3 1000 w)
  /\ exists R, logs (fst out) = logs w ++ R /\ Forall2 resultOf (firstn 2 manifest) R.
Proof.
  apply (BatchProperties.processBatch_stops_at_an_invalid_mint (P := scripted) walletKey
           (firstn 2 manifest) badRecord (skipn 2 manifest)
           (Error (lit "Non-base58 character")) false 3 1000
           (worldOf (nodeOf walletKey 0) None)).
  - reflexivity.
  - reflexivity.
Defined.

(** The run reaches the bad record in its second chunk. *)
Lemma invalid_mint_ends_the_run_witness :
  let config := configOf 2 2 true false in
  let w := worldOf (nodeOf walletKey 0) None in
  let out := main (P := scripted) config walletKey brokenManifest true 10 w in
  snd out = Fatal (Error (lit "Non-base58 character"))
  /\ (exists R, logs (fst out) = logs w ++ R /\ Forall2 resultOf (firstn 2 manifest) R)
  /\ savedLogs (events (fst out)) = savedLogs (events w)
  /\ savedSummaries (events (fst out)) = savedSummaries (events w).
Proof.
  apply (FatalProperties.invalid_mint_ends_the_run (P := scripted) (configOf 2 2 true false)
           walletKey (firstn 2 manifest) badRecord (skipn 2 manifest)
           (Error (lit "Non-base58 character"))).
  - reflexivity.
  - reflexivity.
  - reflexivity.
  - reflexivity.
  - left. reflexivity.
  - reflexivity.
Defined.

Lemma padded_account_is_skipped_witness :
  let w := worldOf paddedNode None in
  let out := updateNFTMetadata (P := scripted) walletKey (target firstMint) false 3 1000
               w in
  snd out
  = Ok {| ProcessResult.mint := firstMint;
          ProcessResult.status := skipped;
          ProcessResult.action := Some (lit "metadata already matches");
          ProcessResult.oldValues := None;
          ProcessResult.newValues := None;
          ProcessResult.error := None;
          ProcessResult.transactionSignature := None;
          ProcessResult.timestamp := lit "2025-01-01T00:00:00.000Z" |}
  /\ events (fst out)
     = events w ++ [Fetched (getMetadataAccount (P := scripted) firstMintKey)].
Proof.
  apply (UpdateProperties.padded_account_is_skipped (P := scripted) walletKey
           (target firstMint) false 3 1000 (worldOf paddedNode None) firstMintKey
           paddedNode Byte.x04 (toBuffer walletKey) (repeat Byte.x00 32) [Byte.x01]
           paddedAccount 25 6 174).
  - lia.
  - reflexivity.
  - reflexivity.
  - reflexivity.
  - reflexivity.
  - reflexivity.
  - reflexivity.
  - reflexivity.
  - reflexivity.
  - reflexivity.
  - reflexivity.
  - reflexivity.
  - reflexivity.
Defined.

(** The node refuses two submissions and confirms the third. *)
Lemma live_update_submits_until_confirmed_witness :
  let w := worldOf (flakyNode 2) None in
  let metadata := target firstMint in
  let current := oldRecord walletKey in
  let transaction := {| instructions := [firstInstruction]; feePayer := walletKey |} in
  let send := sendAndConfirmTransaction (Platform := scripted) transaction walletKey in
  let out := updateNFTMetadata (P := scripted) walletKey metadata false (Z.of_nat 3)
               1000 w in
  (events (fst out)
   = [Fetched firstMintKey; Submitted transaction; Slept 1000; Submitted transaction;
      Slept 2000; Submitted transaction]
   /\ option_map ProcessResult.status
        (match snd out with Ok result => Some result | Throw _ => None end)
      = Some updated
   /\ outcomeOf send (flakyNode 2) 2
      = Ok (lit "5VERv8NMvzbJMEkV8xnrLkEaWRtSz9CosKDYjCJjBRnb"))
  /\ exists n,
       (1 <= n <= 3 + 1)%nat
       /\ events (fst out)
          = events w
            ++ [Fetched (getMetadataAccount (P := scripted) firstMintKey)]
            ++ flat_map (fun a => [Submitted transaction;
                                   Slept (1000 * 2 ^ Z.of_nat a)%Z])
                 (seq 0 (n - 1))
            ++ [Submitted transaction]
       /\ (forall j, (j < n - 1)%nat -> failed (outcomeOf send (flakyNode 2) j))
       /\ (failed (outcomeOf send (flakyNode 2) (n - 1)) -> n = (3 + 1)%nat)
       /\ snd out
          = Ok match outcomeOf send (flakyNode 2) (n - 1) with
               | Ok signature =>
                 {| ProcessResult.mint := NFTMetadata.mint metadata;
                    ProcessResult.status := updated;
                    ProcessResult.action := None;
                    ProcessResult.oldValues :=
                      Some {| Values.name := OnChain.name current;
                              Values.symbol := OnChain.symbol current;
                              Values.uri := OnChain.uri current |};
                    ProcessResult.newValues :=
                      Some {| Values.name := NFTMetadata.name metadata;
                              Values.symbol := NFTMetadata.symbol metadata;
                              Values.uri := NFTMetadata.uri metadata |};
                    ProcessResult.error := None;
                    ProcessResult.transactionSignature := Some signature;
                    ProcessResult.timestamp :=
                      toISOString (Platform := scripted) (remote w) |}
               | Throw e =>
                 {| ProcessResult.mint := NFTMetadata.mint metadata;
                    ProcessResult.status := error;
                    ProcessResult.action := None;
                    ProcessResult.oldValues := None;
                    ProcessResult.newValues := None;
                    ProcessResult.error :=
                      Some match e with
                           | Error message => message
                           | Thrown text => text
                           end;
                    ProcessResult.transactionSignature := None;
                    ProcessResult.timestamp :=
                      toISOString (Platform := scripted) (remote w) |}
               end.
Proof.
  split; [vm_compute; repeat split|].
  apply (UpdateProperties.live_update_submits_until_confirmed (P := scripted) walletKey
           (target firstMint) 3 1000 (worldOf (flakyNode 2) None) firstMintKey
           (flakyNode 2) (accountOwnedBy walletKey) (oldRecord walletKey)
           firstInstruction).
  - lia.
  - vm_compute. discriminate.
  - reflexivity.
  - reflexivity.
  - reflexivity.
  - reflexivity.
  - reflexivity.
  - reflexivity.
Defined.

(** The range 1-3 of five records, at its last position. *)
Lemma filterByRange_keeps_both_ends_witness :
  nth_error (filterByRange manifest (Some (1, 3)%Z)) 2
  = (if (Z.of_nat 2 <=? 3 - 1)%Z then nth_error manifest (Z.to_nat 1 + 2) else None).
Proof.
  apply (ToolProperties.filterByRange_keeps_both_ends manifest 1 3 2); lia.
Defined.

(** One hour, five minutes, three seconds and a quarter. *)
Lemma formatDuration_parts_witness :
  formatDuration (((1 * 60 + 5) * 60 + 3) * 1000 + 250) = lit "1h 5m 3s".
Proof.
  apply (ToolProperties.formatDuration_parts 1 5 3 250); lia.
Defined.

Lemma negative_retry_budget_reads_nothing_witness :
  let w := worldOf (nodeOf walletKey 0) None in
  updateNFTMetadata (P := scripted) walletKey (target firstMint) false (-1) 1000 w
  = (w, Ok {| ProcessResult.mint := firstMint;
              ProcessResult.status := error;
              ProcessResult.action := None;
              ProcessResult.oldValues := None;
              ProcessResult.newValues := None;
              ProcessResult.error := Some (lit "undefined");
              ProcessResult.transactionSignature := None;
              ProcessResult.timestamp := lit "2025-01-01T00:00:00.000Z" |}).
Proof.
  apply (ToolProperties.negative_retry_budget_reads_nothing (P := scripted) walletKey
           (target firstMint) false (-1) 1000 (worldOf (nodeOf walletKey 0) None)
           firstMintKey).
  - lia.
  - reflexivity.
Defined.


End CaseFacts.
